(** * Denkovi relay boards: a shallow embedding of the Python sources

    The development follows the layout of the package
    [denkovi_relayboard]:

    - Python values and exceptions, and the state-and-exception monad in
      which methods are written;
    - [definitions/interfaces.py]: the backend interface [IBackend];
    - [implements/]: the four board classes, written once for every
      backend;
    - the native boundary (vendor library, pyserial, hid, pyftdi) as an
      environment that answers calls;
    - [ftd2xx_python/core.py] and [backends/]: the wrapper and the four
      backends;
    - [factory.py] and [cli/control.py]: the factory and the command
      line that drives it;
    - the properties of the specification, claim by claim;
    - further properties of the boards, the factory, the discovery of
      devices, the opening of the backends and the command line. *)

From stdpp Require Import base numbers list strings gmap.
From Stdlib Require Import ZArith Ascii DecimalString.

Open Scope Z_scope.

(** ** Python values *)

(** A [bytes] object: a list of integers, each in [0, 256) when it comes
    from a well-behaved transport. *)
Definition bytes : Type := list Z.

(** The byte string literal [b"..."] of an ASCII text, and [s.encode()]
    of a [str], which is held as the bytes of its UTF-8 encoding. *)
Definition b (s : string) : bytes :=
  List.map (fun c => Z.of_N (N_of_ascii c)) (String.list_ascii_of_string s).

Definition len {A : Type} (l : list A) : Z := Z.of_nat (length l).

(** Python exceptions raised by the package or crossing it. *)
Inductive exn : Type :=
| ValueError (msg : string)
| RuntimeError (msg : string)
| NotImplementedError (msg : string)
| IndexError
| AssertionError
| AttributeError
| OverflowError
| StopIteration
| DenkoviRelayBoardStateOverflowException (max_channel : Z)
| FTD2XXException (status : Z)
| ExternalError (origin : string)
| UnicodeDecodeError.

Inductive result (A : Type) : Type :=
| Ok (a : A)
| Raise (e : exn).
Arguments Ok {A} a.
Arguments Raise {A} e.

Definition rbind {A B : Type} (r : result A) (k : A -> result B) : result B :=
  match r with
  | Ok a => k a
  | Raise e => Raise e
  end.

Notation "x <-? r ;; k" := (rbind r (fun x => k))
  (at level 100, r at next level, right associativity).

(** [str(n)] of an integer. *)
Definition str (n : Z) : string := NilZero.string_of_int (Z.to_int n).

(** [str(x)] of an optional string, as an f-string prints it. *)
Definition str_opt (o : option string) : string :=
  match o with
  | Some s => s
  | None => "None"
  end.

Definition zeros (n : Z) : string :=
  String.string_of_list_ascii (repeat "0"%char (Z.to_nat n)).

(** [s.zfill(width)]: pad on the left with zeros, after a leading sign. *)
Definition zfill (width : Z) (s : string) : string :=
  let n := Z.of_nat (String.length s) in
  if width <=? n then s
  else match s with
       | String c r =>
           if (Ascii.eqb c "+" || Ascii.eqb c "-")%bool
           then String c (zeros (width - n) +:+ r)
           else zeros (width - n) +:+ s
       | EmptyString => zeros width
       end.

(** A [str] is held as the bytes of its UTF-8 encoding.  On ASCII text,
    which the literals of the package and the serial numbers and port
    names of the devices are, these are the characters themselves, and
    [lower] and [drop_last] below are [str.lower()] and [s[:-1]].
    Outside ASCII they are not (Python folds the case of every letter
    and cuts a whole character): the properties that compare strings
    taken from the outside assume [is_ascii] of them. *)

(** [s.isascii()]. *)
Definition is_ascii (s : string) : bool :=
  forallb (fun c => (N_of_ascii c <? 128)%N) (String.list_ascii_of_string s).

(** [s is None or s.isascii()], for an optional string. *)
Definition is_ascii_opt (o : option string) : bool :=
  match o with
  | Some s => is_ascii s
  | None => true
  end.

(** [c.lower()] on one ASCII character; other characters are left as
    they are. *)
Definition lower_ascii (c : ascii) : ascii :=
  let n := N_of_ascii c in
  if ((65 <=? n) && (n <=? 90))%N then ascii_of_N (n + 32) else c.

(** [s.lower()], for an ASCII string. *)
Fixpoint lower (s : string) : string :=
  match s with
  | EmptyString => EmptyString
  | String c r => String (lower_ascii c) (lower r)
  end.

(** [s[:-1]], for an ASCII string: the string without its last
    character; the empty string stays empty. *)
Fixpoint drop_last (s : string) : string :=
  match s with
  | EmptyString => EmptyString
  | String c EmptyString => EmptyString
  | String c r => String c (drop_last r)
  end.

(** [a in s] for strings: [a] occurs in [s] as a substring. *)
Fixpoint is_substring (a s : string) : bool :=
  if String.prefix a s then true
  else match s with
       | EmptyString => false
       | String _ r => is_substring a r
       end.

(** [bool(s)] of an optional string: [None] and [""] are false. *)
Definition truthy (o : option string) : bool :=
  match o with
  | None => false
  | Some s => negb (String.eqb s "")
  end.

(** [b.decode()]: the bytes must be well-formed UTF-8, without overlong
    forms, surrogates or code points above [U+10FFFF]; the string is
    then these bytes.  The message of the [UnicodeDecodeError], which
    names the offending byte and its position, is not modelled. *)
Definition continuation (x : Z) : bool := (0x80 <=? x) && (x <=? 0xBF).

Definition three_bytes (x y : Z) : bool :=
  ((x =? 0xE0) && (0xA0 <=? y) && (y <=? 0xBF))
  || ((0xE1 <=? x) && (x <=? 0xEC) && continuation y)
  || ((x =? 0xED) && (0x80 <=? y) && (y <=? 0x9F))
  || ((0xEE <=? x) && (x <=? 0xEF) && continuation y).

Definition four_bytes (x y : Z) : bool :=
  ((x =? 0xF0) && (0x90 <=? y) && (y <=? 0xBF))
  || ((0xF1 <=? x) && (x <=? 0xF3) && continuation y)
  || ((x =? 0xF4) && (0x80 <=? y) && (y <=? 0x8F)).

Fixpoint utf8 (l : bytes) : bool :=
  match l with
  | [] => true
  | x :: r =>
      if (0 <=? x) && (x <=? 0x7F) then utf8 r
      else
        match r with
        | [] => false
        | y :: r1 =>
            if (0xC2 <=? x) && (x <=? 0xDF) then continuation y && utf8 r1
            else
              match r1 with
              | [] => false
              | z :: r2 =>
                  if three_bytes x y then continuation z && utf8 r2
                  else
                    match r2 with
                    | [] => false
                    | t :: r3 =>
                        four_bytes x y && continuation z && continuation t && utf8 r3
                    end
              end
        end
  end.

Definition decode (l : bytes) : result string :=
  if utf8 l then
    Ok (String.string_of_list_ascii (List.map (fun x => ascii_of_N (Z.to_N x)) l))
  else Raise UnicodeDecodeError.

(** [l[i]], with Python's negative indices. *)
Definition getitem {A : Type} (l : list A) (i : Z) : result A :=
  let j := if i <? 0 then i + len l else i in
  if j <? 0 then Raise IndexError
  else match l !! Z.to_nat j with
       | Some x => Ok x
       | None => Raise IndexError
       end.

(** [l[i] = v]. *)
Definition setitem {A : Type} (l : list A) (i : Z) (v : A) : result (list A) :=
  let j := if i <? 0 then i + len l else i in
  if (j <? 0) || (len l <=? j) then Raise IndexError
  else Ok (<[Z.to_nat j := v]> l).

(** [range(n)] and [range(start, stop, -1)]. *)
Definition range (n : Z) : list Z := seqZ 0 n.
Definition range_down (start stop : Z) : list Z :=
  List.map (fun i => start - i) (seqZ 0 (start - stop)).

(** [a << n]; a negative shift count raises. *)
Definition shl (a n : Z) : result Z :=
  if n <? 0 then Raise (ValueError "negative shift count")
  else Ok (Z.shiftl a n).

(** [sum(1 << i for i in idx if cond(i))]; [cond] may raise (an index out of
    range), which ends the sum at that element. *)
Fixpoint sum_shifted (idx : list Z) (cond : Z -> result bool) : result Z :=
  match idx with
  | [] => Ok 0
  | i :: rest =>
      c <-? cond i ;;
      s <-? sum_shifted rest cond ;;
      Ok ((if c : bool then Z.shiftl 1 i else 0) + s)
  end.

(** [bytes([...])] and stores into a [bytearray]: every element must be in
    [range(256)]. *)
Definition is_byte (x : Z) : bool := (0 <=? x) && (x <? 256).
Definition bytes_of (l : list Z) : result bytes :=
  if forallb is_byte l then Ok l
  else Raise (ValueError "bytes must be in range(0, 256)").

(** [for itr in addr_: states[itr - 1] = logic]. *)
Fixpoint assign_each (states : list bool) (addr_ : list Z) (logic : bool)
  : result (list bool) :=
  match addr_ with
  | [] => Ok states
  | itr :: rest =>
      states' <-? setitem states (itr - 1) logic ;;
      assign_each states' rest logic
  end.

(** [set(addr)]: the addresses as a finite set.  Loops over the set visit
    [elements addr_]; every loop of the package writes the same value at
    each visited address, so the order of the visit does not show. *)
Definition py_set (addr : list Z) : gset Z := list_to_set addr.

(** ** Methods: state and exceptions *)

(** A method runs on a state [S], returns or raises, and leaves a state;
    what was changed before an exception was raised stays changed. *)
Definition M (S A : Type) : Type := S -> result A * S.

Definition ret {S A : Type} (a : A) : M S A := fun s => (Ok a, s).
Definition raise {S A : Type} (e : exn) : M S A := fun s => (Raise e, s).
Definition lift {S A : Type} (r : result A) : M S A := fun s => (r, s).

Definition bind {S A B : Type} (m : M S A) (k : A -> M S B) : M S B :=
  fun s =>
    match m s with
    | (Ok a, s') => k a s'
    | (Raise e, s') => (Raise e, s')
    end.

Notation "x <- m ;; k" := (bind m (fun x => k))
  (at level 100, m at next level, right associativity).
Notation "m ;; k" := (bind m (fun _ => k))
  (at level 100, right associativity).
Notation "' pat <- m ;; k" := (bind m (fun x => match x with pat => k end))
  (at level 20, pat pattern, m at level 99, k at level 200, only parsing).

(** [try: m  except Exception as e: h e]. *)
Definition try_except {S A : Type} (m : M S A) (h : exn -> M S A) : M S A :=
  fun s =>
    match m s with
    | (Ok a, s') => (Ok a, s')
    | (Raise e, s') => h e s'
    end.

(** [try: m  finally: f]. *)
Definition try_finally {S A : Type} (m : M S A) (f : M S unit) : M S A :=
  fun s =>
    match m s with
    | (r, s') =>
        match f s' with
        | (Ok _, s'') => (r, s'')
        | (Raise e, s'') => (Raise e, s'')
        end
    end.

(** [with suppress(Exception): m]. *)
Definition suppress {S : Type} (m : M S unit) : M S unit :=
  try_except m (fun _ => ret tt).

Definition get {S : Type} : M S S := fun s => (Ok s, s).
Definition modify {S : Type} (f : S -> S) : M S unit := fun s => (Ok tt, f s).

(** ** definitions/interfaces.py: IBackend *)

(** The methods of a backend, on a state [S] that holds the backend
    object and the transport behind it.  [set_bit_mode] and
    [get_bit_mode] are not part of the abstract class; the backends that
    lack them answer [AttributeError]. *)
Module IBackend.
Class t (S : Type) : Type := {
  open : option string -> option string -> Z -> M S unit;
  close : M S unit;
  write : bytes -> M S unit;
  read : option Z -> M S bytes;
  is_open : M S bool;
  get_serial_number : M S string;
  set_bit_mode : Z -> Z -> M S unit;
  get_bit_mode : M S Z;
}.
End IBackend.

(** A board object: [self.backend] is a reference to the backend or
    [None]; the backend itself lives on, whatever the board holds. *)
Record board (S : Type) : Type := Board {
  backend : bool;      (* [self.backend is not None] *)
  store : S;           (* the backend object and its transport *)
}.
Arguments Board {S} backend store.
Arguments backend {S} _.
Arguments store {S} _.

(** [if self.backend is None: raise RuntimeError("Backend is not open")]. *)
Definition require_backend {S : Type} : M (board S) unit :=
  fun self =>
    if backend self then (Ok tt, self)
    else (Raise (RuntimeError "Backend is not open"), self).

(** [self.backend.m(...)]: a method of the backend, run on the store; on
    [None] Python finds no such attribute. *)
Definition on_backend {S A : Type} (m : M S A) : M (board S) A :=
  fun self =>
    if backend self then
      match m (store self) with
      | (r, s') => (r, Board true s')
      end
    else (Raise AttributeError, self).

(** [self.backend = v]. *)
Definition set_backend {S : Type} (v : bool) : M (board S) unit :=
  modify (fun self => Board v (store self)).

(** [[f(i) for i in idx]] where [f] may raise. *)
Fixpoint map_result {A B : Type} (f : A -> result B) (idx : list A)
  : result (list B) :=
  match idx with
  | [] => Ok []
  | i :: rest =>
      x <-? f i ;;
      xs <-? map_result f rest ;;
      Ok (x :: xs)
  end.

(** [data_[i] = v] on a [bytearray]. *)
Definition bytearray_set (data_ : bytes) (i v : Z) : result bytes :=
  if is_byte v then setitem data_ i v
  else Raise (ValueError "byte must be in range(0, 256)").

(** [x & (1 << i) != 0]: Python reads it as [(x & (1 << i)) != 0]. *)
Definition bit_set (x i : Z) : bool := negb (Z.land x (Z.shiftl 1 i) =? 0).

(** ** definitions/interfaces.py: IDenkoviRelayBoard *)

Module IDenkoviRelayBoard.
Record t (S : Type) : Type := {
  __init__ : option string -> option string -> Z -> M (board S) unit;
  get_serial_number : M (board S) string;
  set_all_states_on : M (board S) unit;
  set_all_states_off : M (board S) unit;
  set_state : bool -> list Z -> M (board S) unit;
  set_clear_state : bool -> list Z -> M (board S) unit;
  get_state : Z -> M (board S) bool;
  get_all_states : M (board S) (list bool);
  close : M (board S) unit;
  __del__ : M (board S) unit;
  max_channel : Z;
}.
Arguments __init__ {S} _.
Arguments get_serial_number {S} _.
Arguments set_all_states_on {S} _.
Arguments set_all_states_off {S} _.
Arguments set_state {S} _.
Arguments set_clear_state {S} _.
Arguments get_state {S} _.
Arguments get_all_states {S} _.
Arguments close {S} _.
Arguments __del__ {S} _.
Arguments max_channel {S} _.
End IDenkoviRelayBoard.

(** ** implements/denkovi_16ch.py *)

Module DenkoviRelayBoard16Ch.
Section Methods.
Context {S : Type} {B : IBackend.t S}.

Definition EOC_PATTERN : bytes := b "//".
Definition ASK_COMMAND : bytes := b "ask".
Definition POSITIVE_LOGIC_PATTERN : bytes := b "+".
Definition NEGATIVE_LOGIC_PATTERN : bytes := b "-".
Definition ON_COMMAND : bytes := b "on".
Definition OFF_COMMAND : bytes := b "off".
Definition MULTIPLE_COMMAND : bytes := b "x".

Definition max_channel : Z := 16.

Definition __init__ (device_address serial_number : option string)
    (timeout : Z) : M (board S) unit :=
  set_backend false ;;
  set_backend true ;;
  on_backend (IBackend.open device_address serial_number timeout).

Definition set_all_states_on : M (board S) unit :=
  require_backend ;;
  on_backend (IBackend.write (ON_COMMAND ++ EOC_PATTERN)) ;;
  _ <- on_backend (IBackend.read (Some 4)) ;;
  ret tt.

Definition set_all_states_off : M (board S) unit :=
  require_backend ;;
  on_backend (IBackend.write (OFF_COMMAND ++ EOC_PATTERN)) ;;
  _ <- on_backend (IBackend.read (Some 5)) ;;
  ret tt.

Definition _integrity_check (states : gset Z) : M (board S) unit :=
  if existsb (fun state => (state <? 1) || (state >? 16)) (elements states)
  then raise (DenkoviRelayBoardStateOverflowException max_channel)
  else ret tt.

Definition get_all_states : M (board S) (list bool) :=
  require_backend ;;
  _ <- on_backend (IBackend.read None) ;;
  on_backend (IBackend.write (ASK_COMMAND ++ EOC_PATTERN)) ;;
  dat <- on_backend (IBackend.read (Some 2)) ;;
  if negb (len dat =? 2) then
    raise (RuntimeError ("Invalid response length: expected 2 bytes, got "
                         +:+ str (len dat) +:+ " bytes"))
  else
    byte1 <- lift (getitem dat 0) ;;
    byte2 <- lift (getitem dat 1) ;;
    ret (List.map (fun bit => negb (Z.land byte1 (Z.shiftl 1 bit) =? 0))
           (range_down 7 (-1))
         ++ List.map (fun bit => negb (Z.land byte2 (Z.shiftl 1 bit) =? 0))
           (range_down 7 (-1))).

Definition _set_multiple_states (states : list bool) : M (board S) unit :=
  require_backend ;;
  if negb (len states =? 16) then
    raise (ValueError "The length of states must be 16.")
  else
    byte1 <- lift (sum_shifted (range 8) (fun i => getitem states (7 - i))) ;;
    byte2 <- lift (sum_shifted (range 8) (fun i => getitem states (15 - i))) ;;
    encoded_states <- lift (bytes_of [byte1; byte2]) ;;
    on_backend
      (IBackend.write (MULTIPLE_COMMAND ++ encoded_states ++ EOC_PATTERN)) ;;
    _ <- on_backend (IBackend.read (Some 5)) ;;
    ret tt.

Definition _set_single_state (logic : bool) (addr : Z) : M (board S) unit :=
  require_backend ;;
  _integrity_check {[ addr ]} ;;
  let logic_pattern :=
    if logic then POSITIVE_LOGIC_PATTERN else NEGATIVE_LOGIC_PATTERN in
  let addr_pattern := b (zfill 2 (str addr)) in
  on_backend (IBackend.write (addr_pattern ++ logic_pattern ++ EOC_PATTERN)) ;;
  _ <- on_backend (IBackend.read (Some 5)) ;;
  ret tt.

Definition set_state (logic : bool) (addr : list Z) : M (board S) unit :=
  require_backend ;;
  let addr_ := py_set addr in
  _integrity_check addr_ ;;
  if bool_decide (size addr_ = 1%nat) then
    match elements addr_ with
    | a :: _ => _set_single_state logic a
    | [] => raise StopIteration
    end
  else
    original_states_ <- get_all_states ;;
    original_states_ <- lift (assign_each original_states_ (elements addr_) logic) ;;
    _set_multiple_states original_states_.

Definition set_clear_state (logic : bool) (addr : list Z) : M (board S) unit :=
  require_backend ;;
  let addr_ := py_set addr in
  _integrity_check addr_ ;;
  if negb logic then
    set_all_states_off
  else
    let target_states := List.map (fun _ => false) (range 16) in
    target_states <- lift (assign_each target_states (elements addr_) true) ;;
    _set_multiple_states target_states.

Definition get_state (addr : Z) : M (board S) bool :=
  require_backend ;;
  _integrity_check {[ addr ]} ;;
  states <- get_all_states ;;
  lift (getitem states (addr - 1)).

Definition get_serial_number : M (board S) string :=
  require_backend ;;
  on_backend IBackend.get_serial_number.

Definition close : M (board S) unit :=
  self <- get ;;
  if backend self then
    on_backend IBackend.close ;;
    set_backend false
  else ret tt.

Definition __del__ : M (board S) unit := suppress close.

Definition class : IDenkoviRelayBoard.t S := {|
  IDenkoviRelayBoard.__init__ := __init__;
  IDenkoviRelayBoard.get_serial_number := get_serial_number;
  IDenkoviRelayBoard.set_all_states_on := set_all_states_on;
  IDenkoviRelayBoard.set_all_states_off := set_all_states_off;
  IDenkoviRelayBoard.set_state := set_state;
  IDenkoviRelayBoard.set_clear_state := set_clear_state;
  IDenkoviRelayBoard.get_state := get_state;
  IDenkoviRelayBoard.get_all_states := get_all_states;
  IDenkoviRelayBoard.close := close;
  IDenkoviRelayBoard.__del__ := __del__;
  IDenkoviRelayBoard.max_channel := max_channel;
|}.
End Methods.
End DenkoviRelayBoard16Ch.

(** ** implements/denkovi_8ch.py *)

Module DenkoviRelayBoard8Ch.
Section Methods.
Context {S : Type} {B : IBackend.t S}.

Definition FT_SYNCHRONOUS_BIT_BANG_MODE : Z := 0x04.
Definition BIT_MASK : Z := 0xFF.

Definition max_channel : Z := 8.

Definition __init__ (device_address serial_number : option string)
    (timeout : Z) : M (board S) unit :=
  set_backend false ;;
  set_backend true ;;
  on_backend (IBackend.open device_address serial_number timeout) ;;
  on_backend (IBackend.set_bit_mode BIT_MASK FT_SYNCHRONOUS_BIT_BANG_MODE).

Definition get_serial_number : M (board S) string :=
  require_backend ;;
  on_backend IBackend.get_serial_number.

Definition set_all_states_on : M (board S) unit :=
  require_backend ;;
  on_backend (IBackend.write [0xff]).

Definition set_all_states_off : M (board S) unit :=
  require_backend ;;
  on_backend (IBackend.write [0x00]).

Definition __integrity_check (states : gset Z) : M (board S) unit :=
  if existsb (fun state => (state <? 1) || (state >? 8)) (elements states)
  then raise (DenkoviRelayBoardStateOverflowException max_channel)
  else ret tt.

Definition get_all_states : M (board S) (list bool) :=
  require_backend ;;
  states_ <- on_backend IBackend.get_bit_mode ;;
  ret (List.map (fun i => bit_set states_ i) (range 8)).

Definition set_state (logic : bool) (addr : list Z) : M (board S) unit :=
  require_backend ;;
  let addr_ := py_set addr in
  __integrity_check addr_ ;;
  original_states <- get_all_states ;;
  let target_states := original_states in
  target_states <- lift (assign_each target_states (elements addr_) logic) ;;
  byte <- lift (sum_shifted (range 8) (fun i => getitem target_states i)) ;;
  encoded_states <- lift (bytes_of [byte]) ;;
  on_backend (IBackend.write encoded_states).

Definition set_clear_state (logic : bool) (addr : list Z) : M (board S) unit :=
  require_backend ;;
  let addr_ := py_set addr in
  __integrity_check addr_ ;;
  if negb logic then
    set_all_states_off
  else
    let target_states := List.map (fun _ => false) (range 8) in
    target_states <- lift (assign_each target_states (elements addr_) true) ;;
    byte <- lift (sum_shifted (range 8) (fun i => getitem target_states i)) ;;
    encoded_states <- lift (bytes_of [byte]) ;;
    on_backend (IBackend.write encoded_states).

Definition get_state (addr : Z) : M (board S) bool :=
  require_backend ;;
  __integrity_check {[ addr ]} ;;
  pins <- on_backend IBackend.get_bit_mode ;;
  mask <- lift (shl 1 (addr - 1)) ;;
  ret (negb (Z.land pins mask =? 0)).

Definition close : M (board S) unit :=
  self <- get ;;
  if backend self then
    on_backend IBackend.close ;;
    set_backend false
  else ret tt.

Definition __del__ : M (board S) unit := suppress close.

Definition class : IDenkoviRelayBoard.t S := {|
  IDenkoviRelayBoard.__init__ := __init__;
  IDenkoviRelayBoard.get_serial_number := get_serial_number;
  IDenkoviRelayBoard.set_all_states_on := set_all_states_on;
  IDenkoviRelayBoard.set_all_states_off := set_all_states_off;
  IDenkoviRelayBoard.set_state := set_state;
  IDenkoviRelayBoard.set_clear_state := set_clear_state;
  IDenkoviRelayBoard.get_state := get_state;
  IDenkoviRelayBoard.get_all_states := get_all_states;
  IDenkoviRelayBoard.close := close;
  IDenkoviRelayBoard.__del__ := __del__;
  IDenkoviRelayBoard.max_channel := max_channel;
|}.
End Methods.
End DenkoviRelayBoard8Ch.

(** ** implements/denkovi_4ch.py *)

Module DenkoviRelayBoard4ChMCP2200.
Section Methods.
Context {S : Type} {B : IBackend.t S}.

Definition READ_ALL_OPCODE : Z := 0x80.
Definition SET_CLEAR_OUT_OPCODE : Z := 0x08.
Definition IO_PORT_VAL_BMAP_IDX : Z := 10.

Definition max_channel : Z := 4.

Definition __init__ (device_address serial_number : option string)
    (timeout : Z) : M (board S) unit :=
  set_backend false ;;
  set_backend true ;;
  on_backend (IBackend.open device_address serial_number timeout).

Definition get_serial_number : M (board S) string :=
  require_backend ;;
  on_backend IBackend.get_serial_number.

Definition __construct_control_bytes (states : list bool) : result bytes :=
  let data_ := repeat 0 16 in
  data_ <-? bytearray_set data_ 0 SET_CLEAR_OUT_OPCODE ;;
  bitmap <-? sum_shifted (range 4) (fun i => getitem states i) ;;
  data_ <-? bytearray_set data_ 11 bitmap ;;
  byte11 <-? getitem data_ 11 ;;
  data_ <-? bytearray_set data_ 12 (Z.lxor byte11 0xFF) ;;
  Ok data_.

Definition set_all_states_on : M (board S) unit :=
  require_backend ;;
  data <- lift (__construct_control_bytes [true; true; true; true]) ;;
  on_backend (IBackend.write data).

Definition set_all_states_off : M (board S) unit :=
  require_backend ;;
  data <- lift (__construct_control_bytes [false; false; false; false]) ;;
  on_backend (IBackend.write data).

Definition __integrity_check (states : gset Z) : M (board S) unit :=
  if existsb (fun state => (state <? 1) || (state >? 4)) (elements states)
  then raise (DenkoviRelayBoardStateOverflowException 4)
  else ret tt.

Definition __send_read_all_opcode : M (board S) unit :=
  require_backend ;;
  let data_ := repeat 0 16 in
  data_ <- lift (bytearray_set data_ 0 READ_ALL_OPCODE) ;;
  on_backend (IBackend.write data_).

Definition get_all_states : M (board S) (list bool) :=
  require_backend ;;
  __send_read_all_opcode ;;
  data_ <- on_backend (IBackend.read (Some 16)) ;;
  lift (map_result
          (fun i => x <-? getitem data_ IO_PORT_VAL_BMAP_IDX ;;
                    Ok (bit_set x i))
          (range 4)).

Definition set_state (logic : bool) (addr : list Z) : M (board S) unit :=
  require_backend ;;
  let addr_ := py_set addr in
  __integrity_check addr_ ;;
  original_states <- get_all_states ;;
  let target_states := original_states in
  target_states <- lift (assign_each target_states (elements addr_) logic) ;;
  encoded_states <- lift (__construct_control_bytes target_states) ;;
  on_backend (IBackend.write encoded_states).

Definition set_clear_state (logic : bool) (addr : list Z) : M (board S) unit :=
  require_backend ;;
  let addr_ := py_set addr in
  __integrity_check addr_ ;;
  if negb logic then
    set_all_states_off
  else
    let target_states :=
      List.map (fun i => bool_decide (i + 1 ∈ addr_)) (range 4) in
    encoded_states <- lift (__construct_control_bytes target_states) ;;
    on_backend (IBackend.write encoded_states).

Definition get_state (addr : Z) : M (board S) bool :=
  require_backend ;;
  states <- get_all_states ;;
  lift (getitem states (addr - 1)).

Definition close : M (board S) unit :=
  self <- get ;;
  if backend self then
    on_backend IBackend.close ;;
    set_backend false
  else ret tt.

Definition __del__ : M (board S) unit := suppress close.

Definition class : IDenkoviRelayBoard.t S := {|
  IDenkoviRelayBoard.__init__ := __init__;
  IDenkoviRelayBoard.get_serial_number := get_serial_number;
  IDenkoviRelayBoard.set_all_states_on := set_all_states_on;
  IDenkoviRelayBoard.set_all_states_off := set_all_states_off;
  IDenkoviRelayBoard.set_state := set_state;
  IDenkoviRelayBoard.set_clear_state := set_clear_state;
  IDenkoviRelayBoard.get_state := get_state;
  IDenkoviRelayBoard.get_all_states := get_all_states;
  IDenkoviRelayBoard.close := close;
  IDenkoviRelayBoard.__del__ := __del__;
  IDenkoviRelayBoard.max_channel := max_channel;
|}.
End Methods.
End DenkoviRelayBoard4ChMCP2200.

(** This class never tests [self.backend]: the attribute is set once, in
    the constructor, and never reset. *)
Module DenkoviRelayBoard4ChFT422.
Section Methods.
Context {S : Type} {B : IBackend.t S}.

Definition FT_SYNCHRONOUS_BIT_BANG_MODE : Z := 0x04.
Definition BIT_MASK : Z := 0xFF.

Definition max_channel : Z := 4.

Definition __init__ (device_address serial_number : option string)
    (timeout : Z) : M (board S) unit :=
  set_backend true ;;
  on_backend (IBackend.open device_address serial_number timeout) ;;
  on_backend (IBackend.set_bit_mode BIT_MASK FT_SYNCHRONOUS_BIT_BANG_MODE).

Definition get_serial_number : M (board S) string :=
  on_backend IBackend.get_serial_number.

Definition set_all_states_on : M (board S) unit :=
  on_backend (IBackend.write [0xff]).

Definition set_all_states_off : M (board S) unit :=
  on_backend (IBackend.write [0x00]).

Definition __integrity_check (states : gset Z) : M (board S) unit :=
  if existsb (fun state => (state <? 1) || (state >? 4)) (elements states)
  then raise (DenkoviRelayBoardStateOverflowException max_channel)
  else ret tt.

Definition get_all_states : M (board S) (list bool) :=
  states_ <- on_backend IBackend.get_bit_mode ;;
  ret (List.map (fun i => bit_set states_ i) (range 8)).

Definition set_state (logic : bool) (addr : list Z) : M (board S) unit :=
  let addr_ := py_set addr in
  __integrity_check addr_ ;;
  original_states <- get_all_states ;;
  let target_states := original_states in
  target_states <- lift (assign_each target_states (elements addr_) logic) ;;
  byte <- lift (sum_shifted (range 8) (fun i => getitem target_states i)) ;;
  encoded_states <- lift (bytes_of [byte]) ;;
  on_backend (IBackend.write encoded_states).

Definition set_clear_state (logic : bool) (addr : list Z) : M (board S) unit :=
  let addr_ := py_set addr in
  __integrity_check addr_ ;;
  if negb logic then
    set_all_states_off
  else
    let target_states := List.map (fun _ => false) (range 8) in
    target_states <- lift (assign_each target_states (elements addr_) true) ;;
    byte <- lift (sum_shifted (range 8) (fun i => getitem target_states i)) ;;
    encoded_states <- lift (bytes_of [byte]) ;;
    on_backend (IBackend.write encoded_states).

Definition get_state (addr : Z) : M (board S) bool :=
  pins <- on_backend IBackend.get_bit_mode ;;
  mask <- lift (shl 1 (addr - 1)) ;;
  ret (negb (Z.land pins mask =? 0)).

Definition close : M (board S) unit :=
  on_backend IBackend.close.

Definition __del__ : M (board S) unit := close.

Definition class : IDenkoviRelayBoard.t S := {|
  IDenkoviRelayBoard.__init__ := __init__;
  IDenkoviRelayBoard.get_serial_number := get_serial_number;
  IDenkoviRelayBoard.set_all_states_on := set_all_states_on;
  IDenkoviRelayBoard.set_all_states_off := set_all_states_off;
  IDenkoviRelayBoard.set_state := set_state;
  IDenkoviRelayBoard.set_clear_state := set_clear_state;
  IDenkoviRelayBoard.get_state := get_state;
  IDenkoviRelayBoard.get_all_states := get_all_states;
  IDenkoviRelayBoard.close := close;
  IDenkoviRelayBoard.__del__ := __del__;
  IDenkoviRelayBoard.max_channel := max_channel;
|}.
End Methods.
End DenkoviRelayBoard4ChFT422.

(** ** factory.py: the board registry *)

Inductive PossibleRelayBoardT : Type :=
| denkovi_16ch
| denkovi_8ch
| denkovi_4ch_ftd2xx
| denkovi_4ch_mcp2200.

Definition BOARD_REGISTRY {S : Type} {B : IBackend.t S}
    (board_type : PossibleRelayBoardT) : IDenkoviRelayBoard.t S :=
  match board_type with
  | denkovi_16ch => DenkoviRelayBoard16Ch.class
  | denkovi_8ch => DenkoviRelayBoard8Ch.class
  | denkovi_4ch_ftd2xx => DenkoviRelayBoard4ChFT422.class
  | denkovi_4ch_mcp2200 => DenkoviRelayBoard4ChMCP2200.class
  end.

(** ** A recording backend

    To tell which calls a board method issues to its backend, whatever
    the backend, every backend can be wrapped so that it notes each call
    it receives before serving it. *)

Inductive bcall : Type :=
| Copen (device_address serial_number : option string) (timeout : Z)
| Cclose
| Cwrite (data : bytes)
| Cread (size : option Z)
| Cis_open
| Cget_serial_number
| Cset_bit_mode (mask mode : Z)
| Cget_bit_mode.

Definition noted {S A : Type} (c : bcall) (m : M S A) : M (list bcall * S) A :=
  fun '(log, s) =>
    match m s with
    | (r, s') => (r, (log ++ [c], s'))
    end.

Definition Recording {S : Type} (B : IBackend.t S) : IBackend.t (list bcall * S) := {|
  IBackend.open a sn t := noted (Copen a sn t) (IBackend.open a sn t);
  IBackend.close := noted Cclose IBackend.close;
  IBackend.write data := noted (Cwrite data) (IBackend.write data);
  IBackend.read size := noted (Cread size) (IBackend.read size);
  IBackend.is_open := noted Cis_open IBackend.is_open;
  IBackend.get_serial_number := noted Cget_serial_number IBackend.get_serial_number;
  IBackend.set_bit_mode mask mode :=
    noted (Cset_bit_mode mask mode) (IBackend.set_bit_mode mask mode);
  IBackend.get_bit_mode := noted Cget_bit_mode IBackend.get_bit_mode;
|}.

(** The calls a recording backend has noted. *)
Definition calls {S : Type} (self : board (list bcall * S)) : list bcall :=
  fst (store self).

(** ** The native boundary

    Everything below the backends is foreign code: the vendor library
    reached through ctypes, pyserial, the hid module and pyftdi.  A call
    across the boundary is a value of [ncall]; the environment answers it
    with a value of the type the call returns, or raises.  The same
    environment also stands for the devices at the far end. *)

Module ListPortInfo.
(** What [serial.tools.list_ports.comports()] tells of one port. *)
Record t : Type := {
  device : string;
  serial_number : option string;
}.
End ListPortInfo.

Module FT_DEVICE_LIST_INFO_NODE.
(** ftd2xx_python/definitions/c_structures.py: the structure the vendor
    library fills; the two character arrays are read as the bytes before
    their first zero, the handle is read by nothing. *)
Record t : Type := {
  Flags : Z;
  Type_ : Z;
  ID : Z;
  LocId : Z;
  SerialNumber : bytes;
  Description : bytes;
}.
End FT_DEVICE_LIST_INFO_NODE.

Module FTDeviceListInfoNodeStruct.
(** ftd2xx_python/definitions/structures.py; the members of the two
    enumerations are kept as their integers. *)
Record t : Type := {
  flags : Z;
  type : Z;
  id : Z;
  loc_id : Z;
  serial_number : string;
  description : string;
}.

(** [FTDeviceListInfoNodeFlags(value)]: the members are 0, 1 and 2. *)
Definition FTDeviceListInfoNodeFlags (value : Z) : result Z :=
  if (0 <=? value) && (value <=? 2) then Ok value
  else Raise (ValueError (str value +:+ " is not a valid FTDeviceListInfoNodeFlags")).

(** [FTDeviceType(value)]: the members are 0 to 32. *)
Definition FTDeviceType (value : Z) : result Z :=
  if (0 <=? value) && (value <=? 32) then Ok value
  else Raise (ValueError (str value +:+ " is not a valid FTDeviceType")).

Definition from_structure (structure : FT_DEVICE_LIST_INFO_NODE.t) : result t :=
  flags_ <-? FTDeviceListInfoNodeFlags (FT_DEVICE_LIST_INFO_NODE.Flags structure) ;;
  type_ <-? FTDeviceType (FT_DEVICE_LIST_INFO_NODE.Type_ structure) ;;
  serial_number_ <-? decode (FT_DEVICE_LIST_INFO_NODE.SerialNumber structure) ;;
  description_ <-? decode (FT_DEVICE_LIST_INFO_NODE.Description structure) ;;
  Ok {| flags := flags_;
        type := type_;
        id := FT_DEVICE_LIST_INFO_NODE.ID structure;
        loc_id := FT_DEVICE_LIST_INFO_NODE.LocId structure;
        serial_number := serial_number_;
        description := description_ |}.

(** [to_structure], for a serial number and a description that fit
    their arrays. *)
Definition to_structure (self : t) : FT_DEVICE_LIST_INFO_NODE.t := {|
  FT_DEVICE_LIST_INFO_NODE.Flags := flags self;
  FT_DEVICE_LIST_INFO_NODE.Type_ := type self;
  FT_DEVICE_LIST_INFO_NODE.ID := id self;
  FT_DEVICE_LIST_INFO_NODE.LocId := loc_id self;
  FT_DEVICE_LIST_INFO_NODE.SerialNumber := b (serial_number self);
  FT_DEVICE_LIST_INFO_NODE.Description := b (description self);
|}.
End FTDeviceListInfoNodeStruct.

Module UsbDeviceDescriptor.
(** What [Ftdi.find_all] tells of one device. *)
Record t : Type := {
  vid : Z;
  pid : Z;
  sn : option string;
}.
End UsbDeviceDescriptor.

Inductive ncall : Type :=
(* the vendor library *)
| FT_OpenEx (pvarg : bytes) (dwflags : Z)
| FT_Close (handle : Z)
| FT_SetBaudRate (handle baudrate : Z)
| FT_SetDataCharacteristics (handle bits stop_bits parity : Z)
| FT_SetTimeouts (handle ms_rx ms_tx : Z)
| FT_Write (handle : Z) (data : bytes) (size : Z)
| FT_Read (handle size : Z)
| FT_GetQueueStatus (handle : Z)
| FT_SetBitMode (handle mask mode : Z)
| FT_GetBitMode (handle : Z)
| FT_CreateDeviceInfoList
| FT_GetDeviceInfoList (num_devices : Z)
(* pyserial *)
| comports
| Serial (port : option string) (baudrate timeout bytesize : Z)
    (parity : string) (stopbits : Z)
| Serial_is_open
| Serial_close
| Serial_write (data : bytes)
| Serial_read (size : Z)
| Serial_read_all
(* hid *)
| hid_enumerate (vid pid : Z)
| hid_Device (vid pid : Z) (serial : string)
| hid_close
| hid_write (data : bytes)
| hid_read (size : option Z) (timeout : Z)
| hid_serial
(* pyftdi *)
| Ftdi_find_all (vps : list (Z * Z))
| Ftdi_open (vid pid : Z) (serial : option string) (interface : Z)
| Ftdi_close
| Ftdi_reset
| Ftdi_BitMode (mode : Z)
| Ftdi_set_bitmode (mask mode : Z)
| Ftdi_set_baudrate (baudrate : Z)
| Ftdi_set_line_property (bits stopbit : Z) (parity : string)
| Ftdi_set_timeouts (rx tx : Z)
| Ftdi_write_data (data : bytes)
| Ftdi_purge_buffers
| Ftdi_read_pins
| Ftdi_usb_dev_serial_number.

(** What each call returns.  The calls of the vendor library return a
    status, with the values they leave in their output arguments. *)
Definition nresp (c : ncall) : Type :=
  match c with
  | FT_OpenEx _ _ => Z * Z                     (* status, handle *)
  | FT_Close _ => Z
  | FT_SetBaudRate _ _ => Z
  | FT_SetDataCharacteristics _ _ _ _ => Z
  | FT_SetTimeouts _ _ _ => Z
  | FT_Write _ _ _ => Z
  | FT_Read _ _ => Z * Z * Z                   (* status, receive cell, bytes read *)
  | FT_GetQueueStatus _ => Z * Z
  | FT_SetBitMode _ _ _ => Z
  | FT_GetBitMode _ => Z * Z
  | FT_CreateDeviceInfoList => Z * Z
  | FT_GetDeviceInfoList _ =>
      Z * list FT_DEVICE_LIST_INFO_NODE.t      (* status, the array as it was filled *)
  | comports => list ListPortInfo.t
  | Serial _ _ _ _ _ _ => unit
  | Serial_is_open => bool
  | Serial_close => unit
  | Serial_write _ => unit
  | Serial_read _ => bytes
  | Serial_read_all => option bytes
  | hid_enumerate _ _ => list (option string)  (* d.get("serial_number") of each *)
  | hid_Device _ _ _ => unit
  | hid_close => unit
  | hid_write _ => unit
  | hid_read _ _ => bytes
  | hid_serial => string
  | Ftdi_find_all _ => list UsbDeviceDescriptor.t
  | Ftdi_open _ _ _ _ => unit
  | Ftdi_close => unit
  | Ftdi_reset => unit
  | Ftdi_BitMode _ => unit
  | Ftdi_set_bitmode _ _ => unit
  | Ftdi_set_baudrate _ => unit
  | Ftdi_set_line_property _ _ _ => unit
  | Ftdi_set_timeouts _ _ => unit
  | Ftdi_write_data _ => Z
  | Ftdi_purge_buffers => unit
  | Ftdi_read_pins => Z
  | Ftdi_usb_dev_serial_number => option string
  end.

(** An environment of type [E] answers every call. *)
Class Native (E : Type) : Type :=
  answer : forall c : ncall, E -> result (nresp c) * E.

(** The world a backend runs in: the environment, and the list of the
    calls that crossed the boundary so far. *)
Record world (E : Type) : Type := World {
  trace : list ncall;
  ext : E;
}.
Arguments World {E} trace ext.
Arguments trace {E} _.
Arguments ext {E} _.

Definition native {E : Type} `{!Native E} (c : ncall) : M (world E) (nresp c) :=
  fun w =>
    match answer c (ext w) with
    | (r, e') => (r, World (trace w ++ [c]) e')
    end.

(** A Python object of type [O] in a world: methods read and update the
    fields of the object and call across the boundary. *)
Definition self {O W : Type} : M (O * W) O := fun '(o, w) => (Ok o, (o, w)).
Definition update {O W : Type} (f : O -> O) : M (O * W) unit :=
  fun '(o, w) => (Ok tt, (f o, w)).
Definition outside {O W A : Type} (m : M W A) : M (O * W) A :=
  fun '(o, w) => match m w with (r, w') => (r, (o, w')) end.

(** A method of an object held in a field: [get_field] reads the field
    and [set_field] writes it back. *)
Definition within {O P W A : Type} (get_field : O -> P) (set_field : P -> O -> O)
    (m : M (P * W) A) : M (O * W) A :=
  fun '(o, w) =>
    match m (get_field o, w) with
    | (r, (p', w')) => (r, (set_field p' o, w'))
    end.

(** A method of an object made on the spot and dropped afterwards. *)
Definition with_new {P W A : Type} (p : P) (m : M (P * W) A) : M W A :=
  fun w => match m (p, w) with (r, (_, w')) => (r, w') end.

(** ** ftd2xx_python/definitions/exceptions.py *)

(** The class raised for a status is a function of the status, so
    [FTD2XXException status] stands for it. [FTD2XXDeviceNotOpenException]
    is the class of [FTStatus.DEVICE_NOT_OPENED]. *)
Definition FTD2XXDeviceNotOpenException : exn := FTD2XXException 3.

Definition raise_for_status {S : Type} (status : Z) : M S unit :=
  if status =? 0 then ret tt else raise (FTD2XXException status).

(** ** ftd2xx_python/core.py *)

Module PyFTD2XXWrapper.
(** [_handle] is [None] or a [c_void_p]; the pointer it holds is [0] when
    null.  The session fields ([__serial_number], [__id_],
    [__description], [__ft_type]) are only filled by [ft_open], which
    no backend calls, and are left out. *)
Record t : Type := { _handle : option Z }.

(** [PyFTD2XXWrapper()], once the library is loaded. *)
Definition __init__ : t := {| _handle := None |}.

Section Methods.
Context {E : Type} `{!Native E}.

Definition is_open : M (t * world E) bool :=
  w <- self ;;
  ret (bool_decide (_handle w ≠ None)).

(** [assert self._handle]: a null pointer is false as well. *)
Definition assert_handle : M (t * world E) Z :=
  w <- self ;;
  match _handle w with
  | Some h => if h =? 0 then raise AssertionError else ret h
  | None => raise AssertionError
  end.

Definition ft_close : M (t * world E) unit :=
  w <- self ;;
  match _handle w with
  | None => raise FTD2XXDeviceNotOpenException
  | Some h =>
      st <- outside (native (FT_Close h)) ;;
      raise_for_status st ;;
      update (fun _ => {| _handle := None |})
  end.

Definition ft_set_baudrate (baudrate : Z) : M (t * world E) unit :=
  h <- assert_handle ;;
  st <- outside (native (FT_SetBaudRate h (baudrate mod 2 ^ 32))) ;;
  raise_for_status st.

Definition __create_device_info_list : M (t * world E) Z :=
  '(st, num) <- outside (native FT_CreateDeviceInfoList) ;;
  raise_for_status st ;;
  ret num.

(** The array of [num_devices_] structures is allocated here and filled
    by the library. *)
Definition __get_device_info_list
  : M (t * world E) (list FT_DEVICE_LIST_INFO_NODE.t) :=
  num_devices_ <- __create_device_info_list ;;
  '(st, container_) <- outside (native (FT_GetDeviceInfoList num_devices_)) ;;
  raise_for_status st ;;
  ret container_.

Definition get_devices_info
  : M (t * world E) (list FTDeviceListInfoNodeStruct.t) :=
  container_ <- __get_device_info_list ;;
  lift (map_result FTDeviceListInfoNodeStruct.from_structure container_).

Definition __ft_open_ex (pvarg : bytes) (dwflags : Z) : M (t * world E) unit :=
  '(st, handle_) <- outside (native (FT_OpenEx pvarg dwflags)) ;;
  raise_for_status st ;;
  update (fun _ => {| _handle := Some handle_ |}).

Definition ft_open_by_serial_number (serial_number : string)
  : M (t * world E) unit :=
  __ft_open_ex (b serial_number) 0x01.

Definition get_queue_status : M (t * world E) Z :=
  h <- assert_handle ;;
  '(st_, n) <- outside (native (FT_GetQueueStatus h)) ;;
  raise_for_status st_ ;;
  ret n.

Definition set_timeout (ms_tx ms_rx : Z) : M (t * world E) unit :=
  h <- assert_handle ;;
  st <- outside (native (FT_SetTimeouts h (ms_rx mod 2 ^ 32) (ms_tx mod 2 ^ 32))) ;;
  raise_for_status st.

Definition set_data_characteristics (bits stop_bits parity : Z)
  : M (t * world E) unit :=
  h <- assert_handle ;;
  st <- outside (native (FT_SetDataCharacteristics h
                           (bits mod 2 ^ 16) (stop_bits mod 2 ^ 16)
                           (parity mod 2 ^ 16))) ;;
  raise_for_status st.

(** [x.to_bytes(n, "little")]. *)
Definition to_bytes_little (x n : Z) : result bytes :=
  if (x <? 0) || (256 ^ n <=? x) then Raise OverflowError
  else Ok (List.map (fun i => Z.land (Z.shiftr x (8 * i)) 255) (range n)).

Definition read (size : option Z) : M (t * world E) bytes :=
  h <- assert_handle ;;
  let receive (size : Z) : M (t * world E) bytes :=
    '(st, rx_p, bytes_read_) <- outside (native (FT_Read h (size mod 2 ^ 32))) ;;
    raise_for_status st ;;
    if negb (rx_p =? 0) then lift (to_bytes_little rx_p bytes_read_)
    else ret (repeat 0 (Z.to_nat bytes_read_)) in
  match size with
  | None =>
      size <- get_queue_status ;;
      if size =? 0 then ret [] else receive size
  | Some size => receive size
  end.

Definition write (data : bytes) : M (t * world E) unit :=
  h <- assert_handle ;;
  let size_ := len data in
  st <- outside (native (FT_Write h data (size_ mod 2 ^ 32))) ;;
  raise_for_status st.

Definition set_bit_mode (mask mode : Z) : M (t * world E) unit :=
  h <- assert_handle ;;
  let mask_ := mask mod 256 in
  let mode_ := mode mod 256 in
  st <- outside (native (FT_SetBitMode h mask_ mode_)) ;;
  raise_for_status st.

Definition get_bit_mode : M (t * world E) Z :=
  h <- assert_handle ;;
  '(st, ret_) <- outside (native (FT_GetBitMode h)) ;;
  raise_for_status st ;;
  ret ret_.
End Methods.
End PyFTD2XXWrapper.

(** ** definitions/structures.py, definitions/constants.py *)

Inductive PossibleBackendT : Type := ftd2xx | vcp | mcp2200 | pyftdi.

Module DiscoveredDevice.
Record t : Type := {
  backend : PossibleBackendT;
  device_address : option string;
  serial_number : option string;
}.
End DiscoveredDevice.

Definition MCP_VID : Z := 0x04D8.
Definition MCP2200_PID : Z := 0x00DF.
Definition FTDI_VID : Z := 0x0403.
Definition FT232R_PID : Z := 0x6001.
Definition FT232H_PID : Z := 0x6014.
Definition DEFAULT_BAUD_RATE : Z := 9600.
Definition DEFAULT_BYTESIZE : Z := 8.
Definition DEFAULT_STOP_BITS : Z := 1.
Definition DEFAULT_PARITY : string := "none".

(** [str(e)] of an exception, for the messages that quote one; classes
    raised without a message of their own print their name. *)
Definition exn_message (e : exn) : string :=
  match e with
  | ValueError msg | RuntimeError msg | NotImplementedError msg => msg
  | IndexError => "IndexError"
  | AssertionError => ""
  | AttributeError => "AttributeError"
  | OverflowError => "OverflowError"
  | StopIteration => ""
  | DenkoviRelayBoardStateOverflowException n =>
      "State overflow: max channel is " +:+ str n
  | FTD2XXException status => "FTD2XX status " +:+ str status
  | ExternalError origin => origin
  | UnicodeDecodeError => "UnicodeDecodeError"
  end.

(** ** backends/ftd2xx_backend.py *)

Module FTD2XXBackend.
Record t : Type := {
  wrapper : PyFTD2XXWrapper.t;
  serial_number : option string;
  port : option string;
  timeout : Z;
}.

Definition __init__ : t := {|
  wrapper := PyFTD2XXWrapper.__init__;
  serial_number := None;
  port := None;
  timeout := 5000;
|}.

Definition set_wrapper (v : PyFTD2XXWrapper.t) (o : t) : t :=
  {| wrapper := v; serial_number := serial_number o; port := port o;
     timeout := timeout o |}.
Definition set_serial_number (v : option string) (o : t) : t :=
  {| wrapper := wrapper o; serial_number := v; port := port o;
     timeout := timeout o |}.
Definition set_port (v : option string) (o : t) : t :=
  {| wrapper := wrapper o; serial_number := serial_number o; port := v;
     timeout := timeout o |}.
Definition set_timeout (v : Z) (o : t) : t :=
  {| wrapper := wrapper o; serial_number := serial_number o; port := port o;
     timeout := v |}.

(** [FTStopBits.STOP_BITS_1], [FTParity.NONE], [FTBaudRates.BAUD_9600]. *)
Definition STOP_BITS_1 : Z := 0.
Definition PARITY_NONE : Z := 0.
Definition BAUD_9600 : Z := 9600.

Section Methods.
Context {E : Type} `{!Native E}.

(** [self.wrapper.m(...)]. *)
Definition on_wrapper {A : Type} (m : M (PyFTD2XXWrapper.t * world E) A)
  : M (t * world E) A :=
  within wrapper set_wrapper m.

(** The OS reports the serial number of a port with one more character
    at its end; it is cut off, after the case is folded, before the two
    serial numbers are compared. *)
Definition __get_port_by_serial_number (serial_number : string)
  : M (world E) (option string) :=
  devices_info <- native comports ;;
  ret (ListPortInfo.device <$>
         List.find
           (fun device_info =>
              match ListPortInfo.serial_number device_info with
              | None => false
              | Some s => String.eqb (drop_last (lower s)) (lower serial_number)
              end)
           devices_info).

(** The chip's own spelling of a serial number, found without regard to
    case. *)
Definition __get_actual_serial_number (serial_number : string)
  : M (t * world E) (option string) :=
  ftdi_devices <- on_wrapper PyFTD2XXWrapper.get_devices_info ;;
  ret (FTDeviceListInfoNodeStruct.serial_number <$>
         List.find
           (fun ftdi_device =>
              String.eqb
                (lower (FTDeviceListInfoNodeStruct.serial_number ftdi_device))
                (lower serial_number))
           ftdi_devices).

Definition __get_serial_number_by_port (port : string)
  : M (t * world E) (option string) :=
  devices_info <- outside (native comports) ;;
  match List.find
          (fun device_info =>
             String.eqb (lower (ListPortInfo.device device_info)) (lower port))
          devices_info with
  | Some device_info =>
      match ListPortInfo.serial_number device_info with
      | None => raise AssertionError
      | Some s => __get_actual_serial_number (drop_last s)
      end
  | None => ret None
  end.

Definition _open_by_serial_number (serial_number : string)
  : M (t * world E) unit :=
  on_wrapper (PyFTD2XXWrapper.ft_open_by_serial_number serial_number).

Definition _open_by_port (port : string) : M (t * world E) unit :=
  ftdi_devices <- on_wrapper PyFTD2XXWrapper.get_devices_info ;;
  com_ports <- outside (native comports) ;;
  let target_port_info :=
    List.find (fun port_info => String.eqb (ListPortInfo.device port_info) port)
      com_ports in
  match target_port_info ≫= ListPortInfo.serial_number with
  | None =>
      raise (ValueError ("Port " +:+ port +:+ " not found in available COM ports"))
  | Some target_serial_number =>
      let matching_serial_number :=
        FTDeviceListInfoNodeStruct.serial_number <$>
          List.find
            (fun ftdi_device =>
               String.eqb (FTDeviceListInfoNodeStruct.serial_number ftdi_device)
                 (drop_last target_serial_number))
            ftdi_devices in
      match matching_serial_number with
      | None =>
          raise (ValueError ("No FTDI device found with serial number "
                             +:+ target_serial_number +:+ " for port " +:+ port))
      | Some matching_serial_number =>
          _open_by_serial_number matching_serial_number
      end
  end.

Definition open (device_address serial_number : option string) (timeout : Z)
  : M (t * world E) unit :=
  if Bool.eqb (truthy device_address) (truthy serial_number) then
    raise (ValueError
      "Either device_address or serial_number must be provided for FTD2XX backend")
  else
    match device_address with
    | None =>
        match serial_number with
        | None => raise AssertionError
        | Some serial_number =>
            actual <- __get_actual_serial_number serial_number ;;
            update (set_serial_number actual) ;;
            match actual with
            | None =>
                raise (ValueError ("No FTDI device found with serial number "
                                   +:+ serial_number))
            | Some actual =>
                p <- outside (__get_port_by_serial_number actual) ;;
                update (set_port p)
            end
        end
    | Some device_address =>
        update (set_port (Some device_address)) ;;
        actual <- __get_serial_number_by_port device_address ;;
        update (set_serial_number actual) ;;
        match actual with
        | None =>
            raise (ValueError ("No FTDI device found with port "
                               +:+ device_address))
        | Some _ => ret tt
        end
    end ;;
    update (set_timeout timeout) ;;
    o <- self ;;
    match FTD2XXBackend.serial_number o with
    | None => raise AttributeError
    | Some sn => _open_by_serial_number sn
    end ;;
    on_wrapper (PyFTD2XXWrapper.ft_set_baudrate BAUD_9600) ;;
    on_wrapper (PyFTD2XXWrapper.set_data_characteristics
                  DEFAULT_BYTESIZE STOP_BITS_1 PARITY_NONE) ;;
    on_wrapper (PyFTD2XXWrapper.set_timeout timeout timeout).

Definition close : M (t * world E) unit :=
  on_wrapper PyFTD2XXWrapper.ft_close.

Definition write (data : bytes) : M (t * world E) unit :=
  on_wrapper (PyFTD2XXWrapper.write data).

Definition read (size : option Z) : M (t * world E) bytes :=
  on_wrapper (PyFTD2XXWrapper.read size).

Definition is_open : M (t * world E) bool :=
  on_wrapper PyFTD2XXWrapper.is_open.

Definition get_serial_number : M (t * world E) string :=
  o <- self ;;
  ret (default "" (FTD2XXBackend.serial_number o)).

Definition set_bit_mode (mask mode : Z) : M (t * world E) unit :=
  on_wrapper (PyFTD2XXWrapper.set_bit_mode mask mode).

Definition get_bit_mode : M (t * world E) Z :=
  on_wrapper PyFTD2XXWrapper.get_bit_mode.

(** The body of the loop of [list_potential_devices], on the local list
    [devices]. *)
Fixpoint list_each (info_list : list FTDeviceListInfoNodeStruct.t)
  : M (list DiscoveredDevice.t * world E) unit :=
  match info_list with
  | [] => ret tt
  | info :: rest =>
      (if (FTDeviceListInfoNodeStruct.id info =? 0)
          && (FTDeviceListInfoNodeStruct.loc_id info =? 0)
       then ret tt
       else
         p <- outside (__get_port_by_serial_number
                         (FTDeviceListInfoNodeStruct.serial_number info)) ;;
         update (fun devices =>
                   devices ++ [ {|
                     DiscoveredDevice.backend := ftd2xx;
                     DiscoveredDevice.serial_number :=
                       Some (FTDeviceListInfoNodeStruct.serial_number info);
                     DiscoveredDevice.device_address := p |} ])) ;;
      list_each rest
  end.

Definition list_potential_devices : M (world E) (list DiscoveredDevice.t) :=
  with_new []
    (suppress
       (info_list <- outside (with_new PyFTD2XXWrapper.__init__
                                PyFTD2XXWrapper.get_devices_info) ;;
        list_each info_list) ;;
     self).

Definition class : IBackend.t (t * world E) := {|
  IBackend.open := open;
  IBackend.close := close;
  IBackend.write := write;
  IBackend.read := read;
  IBackend.is_open := is_open;
  IBackend.get_serial_number := get_serial_number;
  IBackend.set_bit_mode := set_bit_mode;
  IBackend.get_bit_mode := get_bit_mode;
|}.
End Methods.
End FTD2XXBackend.

#[global] Existing Instance FTD2XXBackend.class.

(** ** backends/vcp_backend.py *)

Module VCPBackend.
(** [serial_] tells whether [self.serial_] holds a [serial.Serial]; the
    port object itself is on the other side of the boundary. *)
Record t : Type := {
  serial_ : bool;
  timeout : Z;
  serial_number : option string;
  port : option string;
  baudrate : option Z;
}.

Definition __init__ : t := {|
  serial_ := false;
  timeout := 5000;
  serial_number := None;
  port := None;
  baudrate := None;
|}.

Definition set_serial_ (v : bool) (o : t) : t :=
  {| serial_ := v; timeout := timeout o; serial_number := serial_number o;
     port := port o; baudrate := baudrate o |}.
Definition set_timeout (v : Z) (o : t) : t :=
  {| serial_ := serial_ o; timeout := v; serial_number := serial_number o;
     port := port o; baudrate := baudrate o |}.
Definition set_serial_number (v : option string) (o : t) : t :=
  {| serial_ := serial_ o; timeout := timeout o; serial_number := v;
     port := port o; baudrate := baudrate o |}.
Definition set_port (v : option string) (o : t) : t :=
  {| serial_ := serial_ o; timeout := timeout o; serial_number := serial_number o;
     port := v; baudrate := baudrate o |}.
Definition set_baudrate (v : option Z) (o : t) : t :=
  {| serial_ := serial_ o; timeout := timeout o; serial_number := serial_number o;
     port := port o; baudrate := v |}.

(** [serial.PARITY_NONE]. *)
Definition PARITY_NONE : string := "N".

Section Methods.
Context {E : Type} `{!Native E}.

Definition __get_port_by_serial_number (serial_number : string)
  : M (world E) (option string) :=
  ports <- native comports ;;
  ret (ListPortInfo.device <$>
         List.find
           (fun port =>
              match ListPortInfo.serial_number port with
              | None => false
              | Some s => is_substring (lower serial_number) (lower s)
              end)
           ports).

Definition __get_serial_number_by_port (device_address : string)
  : M (world E) (option string) :=
  ports <- native comports ;;
  ret (List.find
         (fun port => String.eqb (ListPortInfo.device port) device_address)
         ports
       ≫= ListPortInfo.serial_number).

Definition open (device_address serial_number : option string) (timeout : Z)
  : M (t * world E) unit :=
  if Bool.eqb (truthy device_address) (truthy serial_number) then
    raise (ValueError
      "Either device_address or serial_number must be provided for VCP backend")
  else
    serial_number <-
      match device_address with
      | None =>
          match serial_number with
          | None => raise AssertionError
          | Some sn =>
              p <- outside (__get_port_by_serial_number sn) ;;
              update (set_port p) ;;
              match p with
              | None => raise (ValueError ("No port found for serial number: " +:+ sn))
              | Some _ => ret (Some sn)
              end
          end
      | Some device_address =>
          update (set_port (Some device_address)) ;;
          outside (__get_serial_number_by_port device_address)
      end ;;
    update (set_baudrate (Some DEFAULT_BAUD_RATE)) ;;
    update (set_timeout timeout) ;;
    update (set_serial_number serial_number) ;;
    o <- self ;;
    outside (native (Serial (port o) DEFAULT_BAUD_RATE timeout DEFAULT_BYTESIZE
                       PARITY_NONE DEFAULT_STOP_BITS)) ;;
    update (set_serial_ true) ;;
    opened <- outside (native Serial_is_open) ;;
    if negb opened then
      raise (RuntimeError ("Failed to open VCP port " +:+ str_opt (port o)))
    else ret tt.

(** [self.serial_ is not None and self.serial_.is_open]. *)
Definition serial_is_open : M (t * world E) bool :=
  o <- self ;;
  if serial_ o then outside (native Serial_is_open) else ret false.

Definition close : M (t * world E) unit :=
  opened <- serial_is_open ;;
  if opened then
    outside (native Serial_close) ;;
    update (set_serial_ false)
  else ret tt.

Definition write (data : bytes) : M (t * world E) unit :=
  opened <- serial_is_open ;;
  if negb opened then raise (RuntimeError "Device is not open")
  else outside (native (Serial_write data)).

Definition read (size : option Z) : M (t * world E) bytes :=
  opened <- serial_is_open ;;
  if negb opened then raise (RuntimeError "Device is not open")
  else
    match size with
    | Some size => outside (native (Serial_read size))
    | None =>
        data <- outside (native Serial_read_all) ;;
        ret (default [] data)
    end.

Definition is_open : M (t * world E) bool := serial_is_open.

Definition get_serial_number : M (t * world E) string :=
  o <- self ;;
  match VCPBackend.serial_number o with
  | None => raise (RuntimeError "Serial number is not set")
  | Some sn => ret sn
  end.

Definition list_potential_devices : M (world E) (list DiscoveredDevice.t) :=
  ports <- native comports ;;
  ret (List.map
         (fun port => {|
            DiscoveredDevice.backend := vcp;
            DiscoveredDevice.serial_number := ListPortInfo.serial_number port;
            DiscoveredDevice.device_address := Some (ListPortInfo.device port) |})
         (List.filter (fun port => truthy (ListPortInfo.serial_number port)) ports)).

(** The class has no bit-mode methods. *)
Definition class : IBackend.t (t * world E) := {|
  IBackend.open := open;
  IBackend.close := close;
  IBackend.write := write;
  IBackend.read := read;
  IBackend.is_open := is_open;
  IBackend.get_serial_number := get_serial_number;
  IBackend.set_bit_mode _ _ := raise AttributeError;
  IBackend.get_bit_mode := raise AttributeError;
|}.
End Methods.
End VCPBackend.

#[global] Existing Instance VCPBackend.class.

(** ** backends/mcp2200_backend.py *)

Module MCP2200Backend.
(** [hid_device] tells whether [self.hid_device] holds a [hid.Device]. *)
Record t : Type := {
  hid_device : bool;
  serial_number : option string;
  timeout : Z;
}.

Definition __init__ : t := {|
  hid_device := false;
  serial_number := None;
  timeout := 5000;
|}.

Definition set_hid_device (v : bool) (o : t) : t :=
  {| hid_device := v; serial_number := serial_number o; timeout := timeout o |}.
Definition set_serial_number (v : option string) (o : t) : t :=
  {| hid_device := hid_device o; serial_number := v; timeout := timeout o |}.
Definition set_timeout (v : Z) (o : t) : t :=
  {| hid_device := hid_device o; serial_number := serial_number o; timeout := v |}.

Section Methods.
Context {E : Type} `{!Native E}.

(** [com_ports[port.serial_number] = port.device] for the ports that have
    a serial number. *)
Definition com_ports_of (ports : list ListPortInfo.t) : gmap string string :=
  List.fold_left
    (fun com_ports port =>
       match ListPortInfo.serial_number port with
       | Some s => if String.eqb s "" then com_ports
                   else <[ s := ListPortInfo.device port ]> com_ports
       | None => com_ports
       end)
    ports ∅.

Definition list_potential_devices : M (world E) (list DiscoveredDevice.t) :=
  com_ports <- try_except
                 (ports <- native comports ;; ret (com_ports_of ports))
                 (fun _ => ret ∅) ;;
  try_except
    (found <- native (hid_enumerate MCP_VID MCP2200_PID) ;;
     ret (List.map
            (fun serial_number => {|
               DiscoveredDevice.backend := mcp2200;
               DiscoveredDevice.serial_number := serial_number;
               DiscoveredDevice.device_address :=
                 if truthy serial_number
                 then serial_number ≫= (fun s => com_ports !! s)
                 else None |})
            found))
    (fun _ => ret []).

Definition __find_serial_number (device_address : string)
  : M (world E) (option string) :=
  devices <- list_potential_devices ;;
  ret (List.find
         (fun device =>
            bool_decide (DiscoveredDevice.device_address device = Some device_address))
         devices
       ≫= DiscoveredDevice.serial_number).

Definition open (device_address serial_number : option string) (timeout : Z)
  : M (t * world E) unit :=
  if Bool.eqb (truthy device_address) (truthy serial_number) then
    raise (ValueError "Either device_address or serial_number must be provided")
  else
    serial_number_ <-
      (if truthy serial_number then ret serial_number
       else match device_address with
            | None => raise AssertionError
            | Some device_address => outside (__find_serial_number device_address)
            end) ;;
    match serial_number_ with
    | None =>
        raise (ValueError ("Could not find serial number for device address "
                           +:+ str_opt device_address))
    | Some serial_number_ =>
        update (set_timeout timeout) ;;
        try_except
          (outside (native (hid_Device MCP_VID MCP2200_PID serial_number_)) ;;
           update (set_hid_device true) ;;
           update (set_serial_number (Some serial_number_)))
          (fun e => raise (RuntimeError ("Failed to open HID device: "
                                         +:+ exn_message e)))
    end.

Definition close : M (t * world E) unit :=
  o <- self ;;
  if negb (hid_device o) then ret tt
  else
    try_finally
      (try_except (outside (native hid_close)) (fun _ => ret tt))
      (update (set_hid_device false)).

Definition write (data : bytes) : M (t * world E) unit :=
  o <- self ;;
  if negb (hid_device o) then raise (RuntimeError "Device is not open")
  else
    let data_ := [0x00] ++ data in
    outside (native (hid_write data_)).

Definition read (size : option Z) : M (t * world E) bytes :=
  o <- self ;;
  if negb (hid_device o) then raise (RuntimeError "Device is not open")
  else outside (native (hid_read size (timeout o))).

Definition is_open : M (t * world E) bool :=
  o <- self ;;
  ret (hid_device o).

Definition get_serial_number : M (t * world E) string :=
  o <- self ;;
  if negb (hid_device o) then raise (RuntimeError "Device is not open")
  else outside (native hid_serial).

(** The class has no bit-mode methods. *)
Definition class : IBackend.t (t * world E) := {|
  IBackend.open := open;
  IBackend.close := close;
  IBackend.write := write;
  IBackend.read := read;
  IBackend.is_open := is_open;
  IBackend.get_serial_number := get_serial_number;
  IBackend.set_bit_mode _ _ := raise AttributeError;
  IBackend.get_bit_mode := raise AttributeError;
|}.
End Methods.
End MCP2200Backend.

#[global] Existing Instance MCP2200Backend.class.

(** ** backends/pyftdi_backend.py

    [read] polls the device against a wall clock read in floating point;
    it is left out, and no property below is about it.  Registering the
    exit handlers has no effect before the process ends and is left out
    too. *)

Module PyFtdiBackend.
Record t : Type := {
  serial_number : option string;
  timeout : Z;
  is_opened : bool;
  port : option string;
}.

Definition __init__ : t := {|
  serial_number := None;
  timeout := 5000;
  is_opened := false;
  port := None;
|}.

Definition set_serial_number (v : option string) (o : t) : t :=
  {| serial_number := v; timeout := timeout o; is_opened := is_opened o;
     port := port o |}.
Definition set_timeout (v : Z) (o : t) : t :=
  {| serial_number := serial_number o; timeout := v; is_opened := is_opened o;
     port := port o |}.
Definition set_is_opened (v : bool) (o : t) : t :=
  {| serial_number := serial_number o; timeout := timeout o; is_opened := v;
     port := port o |}.
Definition set_port (v : option string) (o : t) : t :=
  {| serial_number := serial_number o; timeout := timeout o;
     is_opened := is_opened o; port := v |}.

(** [Ftdi.BitMode.RESET]. *)
Definition BitMode_RESET : Z := 0.

Section Methods.
Context {E : Type} `{!Native E}.

Definition open (device_address serial_number : option string) (timeout : Z)
  : M (t * world E) unit :=
  if Bool.eqb (truthy device_address) (truthy serial_number) then
    raise (ValueError
      "Either device_address or serial_number must be provided for PyFtdi backend")
  else
    serial_number <-
      match device_address with
      | Some device_address =>
          update (set_port (Some device_address)) ;;
          ports <- outside (native comports) ;;
          let serial_number :=
            match List.find
                    (fun port_info =>
                       String.eqb (ListPortInfo.device port_info) device_address)
                    ports with
            | Some port_info => ListPortInfo.serial_number port_info
            | None => serial_number
            end in
          if negb (truthy serial_number) then
            raise (ValueError ("Could not find serial number for device "
                               +:+ device_address))
          else ret serial_number
      | None => ret serial_number
      end ;;
    try_except
      (dev_list <- outside (native (Ftdi_find_all
                              [(FTDI_VID, FT232R_PID); (FTDI_VID, FT232H_PID)])) ;;
       match List.find
               (fun descriptor =>
                  bool_decide (UsbDeviceDescriptor.sn descriptor = serial_number))
               dev_list with
       | Some descriptor =>
           outside (native (Ftdi_open (UsbDeviceDescriptor.vid descriptor)
                              (UsbDeviceDescriptor.pid descriptor)
                              (UsbDeviceDescriptor.sn descriptor) 1)) ;;
           update (set_is_opened true)
       | None => ret tt
       end)
      (fun _ => ret tt) ;;
    update (set_serial_number serial_number) ;;
    outside (native Ftdi_reset) ;;
    outside (native (Ftdi_set_bitmode 0 BitMode_RESET)) ;;
    outside (native (Ftdi_set_baudrate DEFAULT_BAUD_RATE)) ;;
    outside (native (Ftdi_set_line_property DEFAULT_BYTESIZE 1 "N")) ;;
    o <- self ;;
    outside (native (Ftdi_set_timeouts (PyFtdiBackend.timeout o)
                       (PyFtdiBackend.timeout o))) ;;
    update (set_timeout timeout) ;;
    _ <- outside (native (Ftdi_write_data [0x00])) ;;
    outside (native Ftdi_purge_buffers).

Definition close : M (t * world E) unit :=
  o <- self ;;
  if is_opened o then
    try_finally
      (try_except (outside (native Ftdi_close)) (fun _ => ret tt))
      (update (set_is_opened false))
  else ret tt.

Definition __del__ : M (t * world E) unit :=
  try_except close (fun _ => ret tt).

Definition write (data : bytes) : M (t * world E) unit :=
  try_except
    (_ <- outside (native (Ftdi_write_data data)) ;; ret tt)
    (fun e => raise (RuntimeError ("Failed to write: " +:+ exn_message e))).

Definition is_open : M (t * world E) bool :=
  o <- self ;;
  ret (is_opened o).

Definition get_serial_number : M (t * world E) string :=
  o <- self ;;
  if truthy (PyFtdiBackend.serial_number o) then
    ret (default "" (PyFtdiBackend.serial_number o))
  else if is_opened o then
    usb <- outside (native Ftdi_usb_dev_serial_number) ;;
    match usb with
    | Some sn => ret sn
    | None => ret ""
    end
  else ret "".

Definition set_bit_mode (mask mode : Z) : M (t * world E) unit :=
  outside (native (Ftdi_BitMode mode)) ;;
  try_except
    (outside (native (Ftdi_set_bitmode mask mode)))
    (fun e => raise (RuntimeError ("Failed to set bit mode: " +:+ exn_message e))).

Definition get_bit_mode : M (t * world E) Z :=
  try_except
    (outside (native Ftdi_read_pins))
    (fun e => raise (RuntimeError ("Failed to get bit mode: " +:+ exn_message e))).
(** [sn_to_port[p.serial_number] = p.device] for the ports that have a
    serial number; a later port replaces an earlier one of the same serial
    number. *)
Definition sn_to_port_of (ports : list ListPortInfo.t) : gmap string string :=
  List.fold_left
    (fun sn_to_port p =>
       match ListPortInfo.serial_number p with
       | Some s => if String.eqb s "" then sn_to_port
                   else <[ s := ListPortInfo.device p ]> sn_to_port
       | None => sn_to_port
       end)
    ports ∅.

Definition list_potential_devices : M (world E) (list DiscoveredDevice.t) :=
  try_except
    (ports <- native comports ;;
     let sn_to_port := sn_to_port_of ports in
     devs <- native (Ftdi_find_all
                       [(FTDI_VID, FT232R_PID); (FTDI_VID, FT232H_PID)]) ;;
     ret (List.map
            (fun descriptor => {|
               DiscoveredDevice.backend := pyftdi;
               DiscoveredDevice.serial_number := UsbDeviceDescriptor.sn descriptor;
               DiscoveredDevice.device_address :=
                 if truthy (UsbDeviceDescriptor.sn descriptor)
                 then UsbDeviceDescriptor.sn descriptor ≫= (fun s => sn_to_port !! s)
                 else None |})
            devs))
    (fun _ => ret []).
End Methods.
End PyFtdiBackend.

(** ** backends/_dummy.py

    The stand-in bound to the name of a backend whose native dependency
    did not load. *)

Module DummyBackend.
Definition unsupported {S A : Type} : M S A :=
  raise (NotImplementedError "DummyBackend does not support this operation").

Definition class {S : Type} : IBackend.t S := {|
  IBackend.open _ _ _ := unsupported;
  IBackend.close := unsupported;
  IBackend.write _ := unsupported;
  IBackend.read _ := unsupported;
  IBackend.is_open := unsupported;
  IBackend.get_serial_number := unsupported;
  IBackend.set_bit_mode _ _ := unsupported;
  IBackend.get_bit_mode := unsupported;
|}.

Definition list_potential_devices {S : Type} : M S (list DiscoveredDevice.t) :=
  ret [].
End DummyBackend.

(** ** A test bench

    An environment simple enough to run the code on: a table of serial
    ports, the chips the vendor library lists, the serial numbers the hid
    module lists, one 8-bit pin register that latches the last byte
    written through the vendor library and is read back by
    [FT_GetBitMode], a queue of bytes waiting to be read, the bytes the
    device queues in answer to every write, and the status
    [FT_SetBitMode] reports.  Every other call succeeds. *)

Module Bench.
Record t : Type := {
  ports : list ListPortInfo.t;
  chips : list FTDeviceListInfoNodeStruct.t;
  hids : list (option string);
  pins : Z;
  rx : bytes;
  reply : bytes;
  bit_mode_status : Z;
}.

Definition set_pins (v : Z) (e : t) : t :=
  {| ports := ports e; chips := chips e; hids := hids e; pins := v;
     rx := rx e; reply := reply e; bit_mode_status := bit_mode_status e |}.
Definition set_rx (v : bytes) (e : t) : t :=
  {| ports := ports e; chips := chips e; hids := hids e; pins := pins e;
     rx := v; reply := reply e; bit_mode_status := bit_mode_status e |}.
Definition set_reply (v : bytes) (e : t) : t :=
  {| ports := ports e; chips := chips e; hids := hids e; pins := pins e;
     rx := rx e; reply := v; bit_mode_status := bit_mode_status e |}.
Definition set_bit_mode_status (v : Z) (e : t) : t :=
  {| ports := ports e; chips := chips e; hids := hids e; pins := pins e;
     rx := rx e; reply := reply e; bit_mode_status := v |}.

(** The little-endian number of a run of bytes. *)
Definition of_little (l : bytes) : Z :=
  List.fold_right (fun x acc => x + 256 * acc) 0 l.

Definition take_rx (n : Z) (e : t) : bytes * t :=
  (take (Z.to_nat n) (rx e), set_rx (drop (Z.to_nat n) (rx e)) e).

(** The device has received a write. *)
Definition written (e : t) : t := set_rx (rx e ++ reply e) e.

Definition answers : Native t := fun c e =>
  match c as c0 return result (nresp c0) * t with
  | FT_OpenEx pvarg _ =>
      if existsb (fun chip =>
                    bool_decide (b (FTDeviceListInfoNodeStruct.serial_number chip) = pvarg))
           (chips e)
      then (Ok (0, 0x1000), e)
      else (Ok (2, 0), e)
  | FT_Close _ => (Ok 0, e)
  | FT_SetBaudRate _ _ => (Ok 0, e)
  | FT_SetDataCharacteristics _ _ _ _ => (Ok 0, e)
  | FT_SetTimeouts _ _ _ => (Ok 0, e)
  | FT_Write _ data _ => (Ok 0, written (set_pins (List.last data (pins e)) e))
  | FT_Read _ size =>
      let '(got, e') := take_rx size e in
      (Ok (0, of_little got, len got), e')
  | FT_GetQueueStatus _ => (Ok (0, len (rx e)), e)
  | FT_SetBitMode _ _ _ => (Ok (bit_mode_status e), e)
  | FT_GetBitMode _ => (Ok (0, pins e), e)
  | FT_CreateDeviceInfoList => (Ok (0, len (chips e)), e)
  | FT_GetDeviceInfoList _ =>
      (Ok (0, List.map FTDeviceListInfoNodeStruct.to_structure (chips e)), e)
  | comports => (Ok (ports e), e)
  | Serial _ _ _ _ _ _ => (Ok tt, e)
  | Serial_is_open => (Ok true, e)
  | Serial_close => (Ok tt, e)
  | Serial_write _ => (Ok tt, written e)
  | Serial_read size => let '(got, e') := take_rx size e in (Ok got, e')
  | Serial_read_all => (Ok (Some (rx e)), set_rx [] e)
  | hid_enumerate _ _ => (Ok (hids e), e)
  | hid_Device _ _ _ => (Ok tt, e)
  | hid_close => (Ok tt, e)
  | hid_write _ => (Ok tt, written e)
  | hid_read size _ =>
      let '(got, e') := take_rx (default (len (rx e)) size) e in (Ok got, e')
  | hid_serial => (Ok "", e)
  | Ftdi_find_all _ => (Ok [], e)
  | Ftdi_open _ _ _ _ => (Ok tt, e)
  | Ftdi_close => (Ok tt, e)
  | Ftdi_reset => (Ok tt, e)
  | Ftdi_BitMode _ => (Ok tt, e)
  | Ftdi_set_bitmode _ _ => (Ok tt, e)
  | Ftdi_set_baudrate _ => (Ok tt, e)
  | Ftdi_set_line_property _ _ _ => (Ok tt, e)
  | Ftdi_set_timeouts _ _ => (Ok tt, e)
  | Ftdi_write_data data => (Ok (len data), e)
  | Ftdi_purge_buffers => (Ok tt, e)
  | Ftdi_read_pins => (Ok (pins e), e)
  | Ftdi_usb_dev_serial_number => (Ok None, e)
  end.

(** One FTDI chip with serial number [DAE06LpX], which the OS lists as
    port [COM14] under the serial number [DAE06LPXA], and one MCP2200
    with serial number [0003639685]. *)
Definition chip : FTDeviceListInfoNodeStruct.t := {|
  FTDeviceListInfoNodeStruct.flags := 0;
  FTDeviceListInfoNodeStruct.type := 5;
  FTDeviceListInfoNodeStruct.id := 0x04036001;
  FTDeviceListInfoNodeStruct.loc_id := 0x21;
  FTDeviceListInfoNodeStruct.serial_number := "DAE06LpX";
  FTDeviceListInfoNodeStruct.description := "FT232R USB UART";
|}.

Definition idle : t := {|
  ports := [ {| ListPortInfo.device := "COM14";
                ListPortInfo.serial_number := Some "DAE06LPXA" |} ];
  chips := [ chip ];
  hids := [ Some "0003639685" ];
  pins := 0;
  rx := [];
  reply := [];
  bit_mode_status := 0;
|}.

(** The same bench on an OS that lists the port under [serial_number]. *)
Definition listing (serial_number : string) : t := {|
  ports := [ {| ListPortInfo.device := "COM14";
                ListPortInfo.serial_number := Some serial_number |} ];
  chips := chips idle; hids := hids idle; pins := pins idle; rx := rx idle;
  reply := reply idle; bit_mode_status := bit_mode_status idle;
|}.

(** The same bench with a chip whose flags word is 3, which is no member
    of [FTDeviceListInfoNodeFlags]. *)
Definition odd_flags : t := {|
  ports := ports idle;
  chips := [ {| FTDeviceListInfoNodeStruct.flags := 3;
                FTDeviceListInfoNodeStruct.type := FTDeviceListInfoNodeStruct.type chip;
                FTDeviceListInfoNodeStruct.id := FTDeviceListInfoNodeStruct.id chip;
                FTDeviceListInfoNodeStruct.loc_id := FTDeviceListInfoNodeStruct.loc_id chip;
                FTDeviceListInfoNodeStruct.serial_number :=
                  FTDeviceListInfoNodeStruct.serial_number chip;
                FTDeviceListInfoNodeStruct.description :=
                  FTDeviceListInfoNodeStruct.description chip |} ];
  hids := hids idle; pins := pins idle; rx := rx idle;
  reply := reply idle; bit_mode_status := bit_mode_status idle;
|}.

(** The same bench with a device that answers every write with [data]. *)
Definition replying (data : bytes) : t := set_reply data idle.

(** The same bench with the pins at [v]. *)
Definition driving (v : Z) : t := set_pins v idle.

(** The same bench with a chip that refuses [FT_SetBitMode] with
    [FTStatus.IO_ERROR]. *)
Definition refusing_bit_mode : t := set_bit_mode_status 4 idle.

(** A world in which nothing has been called yet. *)
Definition fresh (e : t) : world t := World [] e.

(** Backend objects as [open] leaves them on this bench. *)
Definition opened_ftd2xx : FTD2XXBackend.t := {|
  FTD2XXBackend.wrapper := {| PyFTD2XXWrapper._handle := Some 0x1000 |};
  FTD2XXBackend.serial_number := Some "DAE06LpX";
  FTD2XXBackend.port := Some "COM14";
  FTD2XXBackend.timeout := 5000;
|}.

Definition opened_vcp : VCPBackend.t := {|
  VCPBackend.serial_ := true;
  VCPBackend.timeout := 5000;
  VCPBackend.serial_number := Some "DAE06LPXA";
  VCPBackend.port := Some "COM14";
  VCPBackend.baudrate := Some 9600;
|}.

Definition opened_mcp2200 : MCP2200Backend.t := {|
  MCP2200Backend.hid_device := true;
  MCP2200Backend.serial_number := Some "0003639685";
  MCP2200Backend.timeout := 5000;
|}.
End Bench.

#[global] Existing Instance Bench.answers.

(** ** factory.py: RelayBoardFactory *)

#[global] Instance PossibleBackendT_eq_dec : EqDecision PossibleBackendT.
Proof. solve_decision. Defined.

(** The board classes, by tag. *)
Definition board_class {S : Type} {B : IBackend.t S}
    (board_clazz : PossibleRelayBoardT) : IDenkoviRelayBoard.t S :=
  BOARD_REGISTRY board_clazz.

(** [repr] of a list of plain strings, as an f-string prints it. *)
Definition repr_list (l : list string) : string :=
  "[" +:+ String.concat ", " (List.map (fun s => "'" +:+ s +:+ "'") l) +:+ "]".

(** [d[key]] and [key in d] on a dict written in order. *)
Fixpoint dict_get {V : Type} (d : list (string * V)) (key : string) : option V :=
  match d with
  | [] => None
  | (k, v) :: rest => if String.eqb k key then Some v else dict_get rest key
  end.

(** [self.backend is not None] of a board. *)
Definition board_holds {S : Type} (self : board S) : bool := backend self.

Module RelayBoardFactory.
(** The classes are named by their tags: each name the factory imports
    is bound to one class, the backend itself or its stand-in. *)
Definition ACCEPTABLE_BACKEND_MAP (board_clazz : PossibleRelayBoardT)
  : list PossibleBackendT :=
  match board_clazz with
  | denkovi_16ch => [ftd2xx; vcp; pyftdi]
  | denkovi_8ch => [ftd2xx; pyftdi]
  | denkovi_4ch_ftd2xx => [ftd2xx]
  | denkovi_4ch_mcp2200 => [mcp2200]
  end.

Definition BACKEND_REGISTRY : list (string * PossibleBackendT) :=
  [("ftd2xx", ftd2xx); ("vcp", vcp); ("mcp2200", mcp2200); ("pyftdi", pyftdi)].

Definition BOARD_REGISTRY : list (string * PossibleRelayBoardT) :=
  [("denkovi_16ch", denkovi_16ch); ("denkovi_8ch", denkovi_8ch);
   ("denkovi_4ch_ftd2xx", denkovi_4ch_ftd2xx);
   ("denkovi_4ch_mcp2200", denkovi_4ch_mcp2200)].

(** [backend_class_to_name[backend_class]] of the dict
    [{v: k for k, v in self.BACKEND_REGISTRY.items()}]: the registry read
    backwards, a later item replacing an earlier one of the same class.
    Every class of the map is in the registry, so the lookup finds a
    name. *)
Definition backend_class_to_name (backend_class : PossibleBackendT) : option string :=
  fst <$> List.find (fun kv => bool_decide (snd kv = backend_class))
            (rev BACKEND_REGISTRY).

Section Classes.
(** The four backend classes as the factory sees them: the type of
    their objects, their constructor, their methods and their class
    method [list_potential_devices], over a world [W]. *)
Context {W : Type} (O : PossibleBackendT -> Type).
Context (new : forall clazz, M W (O clazz)).
Context (methods : forall clazz, IBackend.t (O clazz * W)).
Context (listing : forall clazz : PossibleBackendT, M W (list DiscoveredDevice.t)).

(** A board as [create_relay_board] returns it: its class, the class of
    its backend, its reference to the backend and the backend object. *)
Record relay_board : Type := {
  board_clazz : PossibleRelayBoardT;
  backend_clazz : PossibleBackendT;
  holds_backend : bool;
  backend_object : O backend_clazz;
}.

Definition create_relay_board (backend_type board_type : string)
    (device_address serial_number : option string) (timeout : Z)
  : M W relay_board :=
  match dict_get BACKEND_REGISTRY backend_type with
  | None =>
      raise (ValueError ("Unsupported backend type: " +:+ backend_type +:+ ". "
                         +:+ "Supported types: "
                         +:+ repr_list (List.map fst BACKEND_REGISTRY)))
  | Some backend_clazz =>
      match dict_get BOARD_REGISTRY board_type with
      | None =>
          raise (ValueError ("Unsupported board type: " +:+ board_type +:+ ". "
                             +:+ "Supported types: "
                             +:+ repr_list (List.map fst BOARD_REGISTRY)))
      | Some board_clazz =>
          backend <- new backend_clazz ;;
          if negb (bool_decide (backend_clazz ∈ ACCEPTABLE_BACKEND_MAP board_clazz)) then
            let supported_backend_names :=
              omap backend_class_to_name (ACCEPTABLE_BACKEND_MAP board_clazz) in
            raise (ValueError ("Unsupported backend type: " +:+ backend_type
                               +:+ " for board type: " +:+ board_type +:+ ". "
                               +:+ "Supported types: "
                               +:+ repr_list supported_backend_names))
          else
            (* [board_clazz(backend=backend, ...)]: when the constructor
               raises, the exception leaves the factory with the object
               still held by its traceback *)
            fun w =>
              match IDenkoviRelayBoard.__init__
                      (board_class (B := methods backend_clazz) board_clazz)
                      device_address serial_number timeout
                      (Board false (backend, w)) with
              | (Ok _, self) =>
                  (Ok {| board_clazz := board_clazz;
                         backend_clazz := backend_clazz;
                         holds_backend := board_holds self;
                         backend_object := fst (store self) |},
                   snd (store self))
              | (Raise e, self) => (Raise e, snd (store self))
              end
      end
  end.

(** [for backend_type, backend_clazz in self.BACKEND_REGISTRY.items()]. *)
Fixpoint list_each (items : list (string * PossibleBackendT))
    (result : list DiscoveredDevice.t) : M W (list DiscoveredDevice.t) :=
  match items with
  | [] => ret result
  | (_, backend_clazz) :: rest =>
      devices <- try_except (listing backend_clazz) (fun _ => ret []) ;;
      list_each rest (result ++ devices)
  end.

Definition list_potential_boards : M W (list DiscoveredDevice.t) :=
  list_each BACKEND_REGISTRY [].
End Classes.

(** The classes as [backends/__init__.py] binds them where [pyftdi]
    did not load: three backends and, under the name [PyFtdiBackend], the
    stand-in. *)
Definition object_of (backend_clazz : PossibleBackendT) : Type :=
  match backend_clazz with
  | ftd2xx => FTD2XXBackend.t
  | vcp => VCPBackend.t
  | mcp2200 => MCP2200Backend.t
  | pyftdi => unit
  end.

Definition new_of {E : Type} (backend_clazz : PossibleBackendT)
  : M (world E) (object_of backend_clazz) :=
  match backend_clazz with
  | ftd2xx => ret FTD2XXBackend.__init__
  | vcp => ret VCPBackend.__init__
  | mcp2200 => ret MCP2200Backend.__init__
  | pyftdi => ret tt
  end.

Definition methods_of {E : Type} `{!Native E} (backend_clazz : PossibleBackendT)
  : IBackend.t (object_of backend_clazz * world E) :=
  match backend_clazz with
  | ftd2xx => FTD2XXBackend.class
  | vcp => VCPBackend.class
  | mcp2200 => MCP2200Backend.class
  | pyftdi => DummyBackend.class
  end.

(** [backend_clazz.list_potential_devices] of the four classes, each
    native dependency having loaded. *)
Definition list_potential_devices_of {E : Type} `{!Native E}
    (backend_clazz : PossibleBackendT) : M (world E) (list DiscoveredDevice.t) :=
  match backend_clazz with
  | ftd2xx => FTD2XXBackend.list_potential_devices
  | vcp => VCPBackend.list_potential_devices
  | mcp2200 => MCP2200Backend.list_potential_devices
  | pyftdi => PyFtdiBackend.list_potential_devices
  end.
End RelayBoardFactory.

(** ** cli/control.py

    [main] from the parsed arguments on: what it prints is left out, and
    its result is the exit status of the process, [1] where it calls
    [sys.exit(1)] and [0] where it returns.  What the finalisers of the
    objects do once [main] is over is not part of it. *)

Module control.
Record args : Type := {
  board : string;
  backend : string;
  serial_number : option string;
  device_address : option string;
  relay : list Z;
  off : bool;
}.

Section Main.
Context {W : Type} (O : PossibleBackendT -> Type).
Context (new : forall clazz, M W (O clazz)).
Context (methods : forall clazz, IBackend.t (O clazz * W)).

Definition main (args_ : args) : M W Z :=
  if negb (truthy (serial_number args_)) && negb (truthy (device_address args_)) then
    ret 1
  else
    try_except
      (board_ <- RelayBoardFactory.create_relay_board O new methods
                   (backend args_) (board args_)
                   (device_address args_) (serial_number args_) 5000 ;;
       let clazz :=
         board_class (B := methods (RelayBoardFactory.backend_clazz O board_))
           (RelayBoardFactory.board_clazz O board_) in
       let logic := negb (off args_) in
       let relays := relay args_ in
       fun w =>
         match (_ <- IDenkoviRelayBoard.get_serial_number clazz ;;
                match relays with
                | [] =>
                    try_except (IDenkoviRelayBoard.set_all_states_off clazz)
                      (fun _ => ret tt)
                | _ :: _ =>
                    try_except (IDenkoviRelayBoard.set_clear_state clazz logic relays)
                      (fun _ => ret tt)
                end ;;
                IDenkoviRelayBoard.close clazz)
                 (Board (RelayBoardFactory.holds_backend O board_)
                    (RelayBoardFactory.backend_object O board_, w)) with
         | (Ok _, self) => (Ok 0, snd (store self))
         | (Raise e, self) => (Raise e, snd (store self))
         end)
      (fun _ => ret 1).
End Main.
End control.

(** ** What a frame carries

    The frame a board writes to set its relays, read as the board's
    protocol lays it out: the channel vector [v] is carried by [frame]
    when every channel can be read back from its bit. *)

Definition carries (board_type : PossibleRelayBoardT) (frame : bytes)
    (v : list bool) : Prop :=
  match board_type with
  | denkovi_16ch =>
      exists byte1 byte2,
        frame = b "x" ++ [byte1; byte2] ++ b "//" /\
        is_byte byte1 = true /\ is_byte byte2 = true /\
        forall i, 0 <= i < 8 ->
          v !! Z.to_nat i = Some (Z.testbit byte1 (7 - i)) /\
          v !! Z.to_nat (8 + i) = Some (Z.testbit byte2 (7 - i))
  | denkovi_8ch | denkovi_4ch_ftd2xx =>
      exists byte,
        frame = [byte] /\ is_byte byte = true /\
        forall i, 0 <= i < 8 -> v !! Z.to_nat i = Some (Z.testbit byte i)
  | denkovi_4ch_mcp2200 =>
      exists bitmap,
        frame = [0x08; 0; 0; 0; 0; 0; 0; 0; 0; 0; 0; bitmap; Z.lxor bitmap 0xFF; 0; 0; 0] /\
        0 <= bitmap < 16 /\
        forall i, 0 <= i < 4 -> v !! Z.to_nat i = Some (Z.testbit bitmap i)
  end.

(** The number of states [get_all_states] returns, board by board. *)
Definition width (board_type : PossibleRelayBoardT) : nat :=
  match board_type with
  | denkovi_16ch => 16
  | denkovi_8ch => 8
  | denkovi_4ch_ftd2xx => 8
  | denkovi_4ch_mcp2200 => 4
  end.

#[global] Instance PossibleRelayBoardT_eq_dec : EqDecision PossibleRelayBoardT.
Proof. solve_decision. Defined.

(** The addresses a board accepts. *)
Definition in_range (board_type : PossibleRelayBoardT) (a : Z) : Prop :=
  1 <= a <= IDenkoviRelayBoard.max_channel
              (BOARD_REGISTRY (B := DummyBackend.class (S := unit)) board_type).

(** * Properties *)

(** ** Python values *)

(** [max_channel] is a constant of the class: the backend does not enter
    into it, and [in_range] reads it off any backend. *)
Lemma max_channel_any_backend {S : Type} (B : IBackend.t S)
    (board_type : PossibleRelayBoardT) (a : Z) :
  in_range board_type a
  <-> 1 <= a <= IDenkoviRelayBoard.max_channel (BOARD_REGISTRY (B := B) board_type).
Proof. destruct board_type; reflexivity. Qed.

Lemma bit_set_testbit (x i : Z) : 0 <= i -> bit_set x i = Z.testbit x i.
Proof.
  intros Hi. unfold bit_set.
  rewrite Z.shiftl_1_l.
  destruct (Z.testbit x i) eqn:Hb.
  - apply negb_true_iff, Z.eqb_neq. intros Hz.
    assert (Z.testbit (Z.land x (2 ^ i)) i = true) as Ht.
    { rewrite Z.land_spec, Hb, Z.pow2_bits_true by lia. reflexivity. }
    rewrite Hz, Z.bits_0 in Ht. discriminate.
  - apply negb_false_iff, Z.eqb_eq. apply Z.bits_inj'. intros n Hn.
    rewrite Z.land_spec, Z.bits_0.
    destruct (decide (n = i)) as [->|Hne].
    + rewrite Hb. reflexivity.
    + rewrite Z.pow2_bits_false by lia. apply andb_false_r.
Qed.

Lemma setitem_ok {A : Type} (l : list A) (i : Z) (v : A) :
  0 <= i < len l -> setitem l i v = Ok (<[Z.to_nat i := v]> l).
Proof.
  intros [Hlo Hhi]. unfold setitem.
  destruct (i <? 0) eqn:Hneg; [apply Z.ltb_lt in Hneg; lia|].
  rewrite Hneg. simpl.
  destruct (len l <=? i) eqn:Hle; [apply Z.leb_le in Hle; lia|].
  reflexivity.
Qed.

(** The loop over the addresses: every listed position takes the new
    value, every other position keeps its own, whatever the order of the
    visit. *)
Lemma assign_each_spec (addr_ : list Z) (logic : bool) :
  forall states : list bool,
    Forall (fun a => 1 <= a <= len states) addr_ ->
    exists states',
      assign_each states addr_ logic = Ok states' /\
      length states' = length states /\
      forall i : nat, (i < length states)%nat ->
        states' !! i =
          if bool_decide (Z.of_nat i + 1 ∈ addr_) then Some logic else states !! i.
Proof.
  induction addr_ as [|a rest IH]; intros states Hall.
  - exists states. split; [reflexivity|]. split; [reflexivity|].
    intros i _. rewrite bool_decide_eq_false_2; [reflexivity|]. apply not_elem_of_nil.
  - apply Forall_cons in Hall as [Ha Hrest].
    destruct (IH (<[Z.to_nat (a - 1) := logic]> states)) as (states' & Hrun & Hlen & Hget).
    { unfold len in *. rewrite length_insert. exact Hrest. }
    exists states'. split; [|split].
    + simpl. rewrite setitem_ok by lia. simpl. exact Hrun.
    + rewrite Hlen. apply length_insert.
    + intros i Hi. rewrite Hget by (rewrite length_insert; exact Hi).
      destruct (decide (Z.of_nat i + 1 ∈ rest)) as [Hin|Hnin].
      * rewrite !bool_decide_eq_true_2; [reflexivity| |exact Hin].
        apply elem_of_cons. right. exact Hin.
      * rewrite (bool_decide_eq_false_2 _ Hnin).
        destruct (decide (Z.to_nat (a - 1) = i)) as [Heq|Hne].
        -- subst i. rewrite list_lookup_insert_eq by (unfold len in *; lia).
           rewrite bool_decide_eq_true_2; [reflexivity|].
           apply elem_of_cons. left. lia.
        -- rewrite list_lookup_insert_ne by exact Hne.
           rewrite bool_decide_eq_false_2; [reflexivity|].
           intros [Heq|Hin]%elem_of_cons; [|exact (Hnin Hin)].
           apply Hne. lia.
Qed.

(** The integrity check of a board with [n] channels passes on a list of
    addresses exactly when each of them is in [1, n]. *)
Lemma check_passes (n : Z) (addr : list Z) :
  existsb (fun state => (state <? 1) || (state >? n)) (elements (py_set addr)) = false
  <-> Forall (fun a => 1 <= a <= n) addr.
Proof.
  rewrite <- not_true_iff_false, existsb_exists, Forall_forall.
  split.
  - intros Hno a Ha. destruct (decide (1 <= a <= n)) as [?|Hout]; [assumption|].
    exfalso. apply Hno. exists a. split.
    + apply list_elem_of_In, elem_of_elements, elem_of_list_to_set. exact Ha.
    + apply orb_true_iff. destruct (decide (a < 1)).
      * left. apply Z.ltb_lt. assumption.
      * right. apply Z.gtb_lt. lia.
  - intros Hall (a & Ha & Hbad).
    apply list_elem_of_In, elem_of_elements, elem_of_list_to_set in Ha.
    specialize (Hall a Ha).
    apply orb_true_iff in Hbad as [Hlt|Hgt].
    + apply Z.ltb_lt in Hlt. lia.
    + apply Z.gtb_lt in Hgt. lia.
Qed.

Lemma check_fails (n : Z) (addr : list Z) :
  Exists (fun a => ~ 1 <= a <= n) addr ->
  existsb (fun state => (state <? 1) || (state >? n)) (elements (py_set addr)) = true.
Proof.
  intros Hex. apply not_false_iff_true. intros Hpass.
  apply check_passes in Hpass. apply Exists_exists in Hex as (a & Ha & Hbad).
  rewrite Forall_forall in Hpass. exact (Hbad (Hpass a Ha)).
Qed.

Lemma elements_py_set (addr : list Z) (x : Z) :
  x ∈ elements (py_set addr) <-> x ∈ addr.
Proof. unfold py_set. rewrite elem_of_elements, elem_of_list_to_set. reflexivity. Qed.

(** Eight flags packed into a byte, least significant first. *)
Lemma bits8 (c0 c1 c2 c3 c4 c5 c6 c7 : bool) :
  let x := (if c0 then Z.shiftl 1 0 else 0) + ((if c1 then Z.shiftl 1 1 else 0)
         + ((if c2 then Z.shiftl 1 2 else 0) + ((if c3 then Z.shiftl 1 3 else 0)
         + ((if c4 then Z.shiftl 1 4 else 0) + ((if c5 then Z.shiftl 1 5 else 0)
         + ((if c6 then Z.shiftl 1 6 else 0) + ((if c7 then Z.shiftl 1 7 else 0)
         + 0))))))) in
  is_byte x = true /\
  Z.testbit x 0 = c0 /\ Z.testbit x 1 = c1 /\ Z.testbit x 2 = c2 /\
  Z.testbit x 3 = c3 /\ Z.testbit x 4 = c4 /\ Z.testbit x 5 = c5 /\
  Z.testbit x 6 = c6 /\ Z.testbit x 7 = c7.
Proof.
  destruct c0, c1, c2, c3, c4, c5, c6, c7; vm_compute; repeat split.
Qed.

(** ** Running methods *)

Lemma bind_ok {S A B : Type} (m : M S A) (k : A -> M S B) (s s' : S) (a : A) :
  m s = (Ok a, s') -> bind m k s = k a s'.
Proof. intros H. unfold bind. rewrite H. reflexivity. Qed.

Lemma require_backend_bound {S : Type} (s : S) :
  require_backend (Board true s) = (Ok tt, Board true s).
Proof. reflexivity. Qed.

Lemma on_backend_run {S A : Type} (m : M S A) (s s' : S) (r : result A) :
  m s = (r, s') -> on_backend m (Board true s) = (r, Board true s').
Proof. intros H. unfold on_backend. simpl. rewrite H. reflexivity. Qed.

Lemma lift_run {S A : Type} (r : result A) (s : S) : lift r s = (r, s).
Proof. reflexivity. Qed.

Lemma ret_run {S A : Type} (a : A) (s : S) : ret a s = (Ok a, s).
Proof. reflexivity. Qed.

(** What the recording backend notes, call by call. *)
Section Recorded.
Context {S : Type} (B : IBackend.t S).

Lemma noted_run {A : Type} (c : bcall) (m : M S A) (log : list bcall)
    (s s' : S) (r : result A) :
  m s = (r, s') -> noted c m (log, s) = (r, (log ++ [c], s')).
Proof. intros H. unfold noted. rewrite H. reflexivity. Qed.

Lemma recorded_open a sn t log s s' r :
  IBackend.open a sn t s = (r, s') ->
  IBackend.open (t := Recording B) a sn t (log, s) = (r, (log ++ [Copen a sn t], s')).
Proof. apply noted_run. Qed.

Lemma recorded_close log s s' r :
  IBackend.close s = (r, s') ->
  IBackend.close (t := Recording B) (log, s) = (r, (log ++ [Cclose], s')).
Proof. apply noted_run. Qed.

Lemma recorded_write data log s s' r :
  IBackend.write data s = (r, s') ->
  IBackend.write (t := Recording B) data (log, s) = (r, (log ++ [Cwrite data], s')).
Proof. apply noted_run. Qed.

Lemma recorded_read size log s s' r :
  IBackend.read size s = (r, s') ->
  IBackend.read (t := Recording B) size (log, s) = (r, (log ++ [Cread size], s')).
Proof. apply noted_run. Qed.

Lemma recorded_set_bit_mode mask mode log s s' r :
  IBackend.set_bit_mode mask mode s = (r, s') ->
  IBackend.set_bit_mode (t := Recording B) mask mode (log, s)
  = (r, (log ++ [Cset_bit_mode mask mode], s')).
Proof. apply noted_run. Qed.

Lemma recorded_get_bit_mode log s s' r :
  IBackend.get_bit_mode s = (r, s') ->
  IBackend.get_bit_mode (t := Recording B) (log, s)
  = (r, (log ++ [Cget_bit_mode], s')).
Proof. apply noted_run. Qed.
End Recorded.

(** One step of a method: the first action of a [bind] returns. *)
Ltac step_with tac := erewrite bind_ok; [| solve [tac]].
Ltac step := step_with ltac:(first [ apply require_backend_bound | apply lift_run
                                  | apply ret_run ]).
Ltac call H :=
  step_with ltac:(apply on_backend_run;
                  first [ exact H
                        | apply recorded_read; exact H
                        | apply recorded_write; exact H
                        | apply recorded_get_bit_mode; exact H
                        | apply recorded_set_bit_mode; exact H
                        | apply recorded_open; exact H
                        | apply recorded_close; exact H ]).

(** ** The 16-channel query *)

(** C5.  On any backend whose three calls succeed, [get_all_states] of
    the 16-channel board issues exactly: a read of whatever is waiting,
    the write of [ask//], and a read of 2 bytes.  When the answer is not
    2 bytes long it raises the length error that names the length; when
    it is [byte1 byte2] it returns 16 states, channel [i + 1] being bit
    [7 - i] of [byte1] and channel [9 + i] bit [7 - i] of [byte2]; on
    [0b10000000 0b00000001] these are channel 1 on, channels 2 to 15 off,
    channel 16 on. *)
Theorem get_all_states_16ch {S : Type} (B : IBackend.t S)
    (log : list bcall) (s s1 s2 s3 : S) (stale dat : bytes) :
  IBackend.read None s = (Ok stale, s1) ->
  IBackend.write (b "ask//") s1 = (Ok tt, s2) ->
  IBackend.read (Some 2) s2 = (Ok dat, s3) ->
  let run :=
    DenkoviRelayBoard16Ch.get_all_states (B := Recording B) (Board true (log, s)) in
  snd run = Board true (log ++ [Cread None; Cwrite (b "ask//"); Cread (Some 2)], s3) /\
  (len dat <> 2 ->
   fst run = Raise (RuntimeError ("Invalid response length: expected 2 bytes, got "
                                  +:+ str (len dat) +:+ " bytes"))) /\
  (forall byte1 byte2, dat = [byte1; byte2] ->
   exists states,
     fst run = Ok states /\ length states = 16%nat /\
     forall i, 0 <= i < 8 ->
       states !! Z.to_nat i = Some (Z.testbit byte1 (7 - i)) /\
       states !! Z.to_nat (8 + i) = Some (Z.testbit byte2 (7 - i))) /\
  (dat = [0x80; 0x01] ->
   fst run = Ok [true; false; false; false; false; false; false; false;
                 false; false; false; false; false; false; false; true]).
Proof.
  intros Hstale Hask Hdat run.
  assert (run =
    (if negb (len dat =? 2) then
       Raise (RuntimeError ("Invalid response length: expected 2 bytes, got "
                            +:+ str (len dat) +:+ " bytes"))
     else
       byte1 <-? getitem dat 0 ;;
       byte2 <-? getitem dat 1 ;;
       Ok (List.map (fun bit => negb (Z.land byte1 (Z.shiftl 1 bit) =? 0))
             (range_down 7 (-1))
           ++ List.map (fun bit => negb (Z.land byte2 (Z.shiftl 1 bit) =? 0))
             (range_down 7 (-1))),
     Board true (log ++ [Cread None; Cwrite (b "ask//"); Cread (Some 2)], s3)))
    as Hrun.
  { subst run. unfold DenkoviRelayBoard16Ch.get_all_states.
    step. call Hstale. call Hask. call Hdat.
    rewrite <- !app_assoc.
    destruct (negb (len dat =? 2)); [reflexivity|].
    unfold bind, lift, ret, rbind.
    destruct (getitem dat 0); [|reflexivity].
    destruct (getitem dat 1); reflexivity. }
  rewrite Hrun. simpl. split; [reflexivity|]. split; [|split].
  - intros Hlen. apply Z.eqb_neq in Hlen. rewrite Hlen. reflexivity.
  - intros byte1 byte2 ->.
    exists (List.map (bit_set byte1) [7; 6; 5; 4; 3; 2; 1; 0]
            ++ List.map (bit_set byte2) [7; 6; 5; 4; 3; 2; 1; 0]).
    split; [reflexivity|]. split; [reflexivity|].
    intros i Hi.
    assert (i = 0 \/ i = 1 \/ i = 2 \/ i = 3 \/ i = 4 \/ i = 5 \/ i = 6 \/ i = 7)
      as Hcases by lia.
    destruct Hcases as [->|[->|[->|[->|[->|[->|[->| ->]]]]]]];
      rewrite <- !bit_set_testbit by lia; split; reflexivity.
  - intros ->. reflexivity.
Qed.

(** ** Opening a backend *)



(** With exactly one of the two the check passes and the native layer is
    reached. *)
Example open_by_port_on_the_bench :
  FTD2XXBackend.open (Some "COM14") None 5000
    (FTD2XXBackend.__init__, Bench.fresh Bench.idle)
  = (Ok tt,
     (Bench.opened_ftd2xx,
      World [comports; FT_CreateDeviceInfoList; FT_GetDeviceInfoList 1;
             FT_OpenEx (b "DAE06LpX") 1; FT_SetBaudRate 0x1000 9600;
             FT_SetDataCharacteristics 0x1000 8 0 0;
             FT_SetTimeouts 0x1000 5000 5000]
        Bench.idle)).
Proof. reflexivity. Qed.

(** ** Addresses out of range *)

Section Checked.
Context {S : Type} (B : IBackend.t S).

Lemma singleton_check (n addr : Z) :
  existsb (fun state => (state <? 1) || (state >? n)) (elements ({[ addr ]} : gset Z))
  = negb ((1 <=? addr) && (addr <=? n)).
Proof.
  rewrite elements_singleton. simpl. rewrite orb_false_r.
  destruct (addr <? 1) eqn:H1, (addr >? n) eqn:H2,
           (1 <=? addr) eqn:H3, (addr <=? n) eqn:H4; try reflexivity;
    rewrite ?Z.ltb_lt, ?Z.ltb_ge, ?Z.gtb_lt, ?Z.leb_le, ?Z.leb_gt in *;
    try lia;
    apply Z.gtb_ltb in H2; rewrite ?Z.ltb_lt, ?Z.ltb_ge in H2; lia.
Qed.

(** The 16-channel board checks the address of [get_state] before it
    touches the backend. *)
Lemma get_state_checked_16ch (addr : Z) (s : S) :
  ~ 1 <= addr <= 16 ->
  DenkoviRelayBoard16Ch.get_state addr (Board true s)
  = (Raise (DenkoviRelayBoardStateOverflowException 16), Board true s).
Proof.
  intros Hout. unfold DenkoviRelayBoard16Ch.get_state. step.
  unfold DenkoviRelayBoard16Ch._integrity_check. rewrite singleton_check.
  destruct ((1 <=? addr) && (addr <=? 16)) eqn:Hin; [|reflexivity].
  apply andb_true_iff in Hin as [?%Z.leb_le ?%Z.leb_le]. lia.
Qed.

(** So does the 8-channel board. *)
Lemma get_state_checked_8ch (addr : Z) (s : S) :
  ~ 1 <= addr <= 8 ->
  DenkoviRelayBoard8Ch.get_state addr (Board true s)
  = (Raise (DenkoviRelayBoardStateOverflowException 8), Board true s).
Proof.
  intros Hout. unfold DenkoviRelayBoard8Ch.get_state. step.
  unfold DenkoviRelayBoard8Ch.__integrity_check. rewrite singleton_check.
  destruct ((1 <=? addr) && (addr <=? 8)) eqn:Hin; [|reflexivity].
  apply andb_true_iff in Hin as [?%Z.leb_le ?%Z.leb_le]. lia.
Qed.

(** Every board checks the addresses of [set_state] before it touches
    the backend. *)
Lemma set_state_checked (board_type : PossibleRelayBoardT) (logic : bool)
    (addr : list Z) (s : S) :
  Exists (fun a => ~ in_range board_type a) addr ->
  IDenkoviRelayBoard.set_state (BOARD_REGISTRY board_type) logic addr (Board true s)
  = (Raise (DenkoviRelayBoardStateOverflowException
              (IDenkoviRelayBoard.max_channel (BOARD_REGISTRY board_type))),
     Board true s).
Proof.
  intros Hex. destruct board_type; simpl; apply check_fails in Hex.
  - unfold DenkoviRelayBoard16Ch.set_state. step.
    unfold DenkoviRelayBoard16Ch._integrity_check.
    unfold in_range in Hex; simpl in Hex. unfold DenkoviRelayBoard16Ch.max_channel in Hex.
    rewrite Hex. reflexivity.
  - unfold DenkoviRelayBoard8Ch.set_state. step.
    unfold DenkoviRelayBoard8Ch.__integrity_check.
    unfold in_range in Hex; simpl in Hex. unfold DenkoviRelayBoard8Ch.max_channel in Hex.
    rewrite Hex. reflexivity.
  - unfold DenkoviRelayBoard4ChFT422.set_state.
    unfold DenkoviRelayBoard4ChFT422.__integrity_check.
    unfold in_range in Hex; simpl in Hex. unfold DenkoviRelayBoard4ChFT422.max_channel in Hex.
    rewrite Hex. reflexivity.
  - unfold DenkoviRelayBoard4ChMCP2200.set_state. step.
    unfold DenkoviRelayBoard4ChMCP2200.__integrity_check.
    unfold in_range in Hex; simpl in Hex. unfold DenkoviRelayBoard4ChMCP2200.max_channel in Hex.
    rewrite Hex. reflexivity.
Qed.
End Checked.

(** The two 4-channel boards go to the backend whatever the address:
    the bit-bang board reads the pin register, the HID board sends the
    read-all report first. *)
Lemma get_state_4ch_reads_first {S : Type} (B : IBackend.t S) (addr : Z)
    (log : list bcall) (s : S) :
  calls (snd (DenkoviRelayBoard4ChFT422.get_state (B := Recording B) addr
                (Board true (log, s))))
  = log ++ [Cget_bit_mode] /\
  exists rest,
    calls (snd (DenkoviRelayBoard4ChMCP2200.get_state (B := Recording B) addr
                  (Board true (log, s))))
    = log ++ Cwrite [0x80; 0; 0; 0; 0; 0; 0; 0; 0; 0; 0; 0; 0; 0; 0; 0] :: rest.
Proof.
  split.
  - unfold DenkoviRelayBoard4ChFT422.get_state.
    destruct (IBackend.get_bit_mode s) as [[pins|e] s'] eqn:Hpins.
    + call Hpins. unfold bind, lift, ret. destruct (shl 1 (addr - 1)); reflexivity.
    + unfold bind.
      erewrite on_backend_run by (apply recorded_get_bit_mode; exact Hpins).
      reflexivity.
  - set (read_all := [0x80; 0; 0; 0; 0; 0; 0; 0; 0; 0; 0; 0; 0; 0; 0; 0]).
    assert (forall r s1,
              IBackend.write read_all s = (r, s1) ->
              DenkoviRelayBoard4ChMCP2200.__send_read_all_opcode (B := Recording B)
                (Board true (log, s))
              = (r, Board true (log ++ [Cwrite read_all], s1))) as Hsend.
    { intros r s1 Hwrite.
      unfold DenkoviRelayBoard4ChMCP2200.__send_read_all_opcode.
      step. step. apply on_backend_run, recorded_write. exact Hwrite. }
    assert (exists r rest s',
              DenkoviRelayBoard4ChMCP2200.get_all_states (B := Recording B)
                (Board true (log, s))
              = (r, Board true (log ++ Cwrite read_all :: rest, s'))) as Hall.
    { unfold DenkoviRelayBoard4ChMCP2200.get_all_states.
      destruct (IBackend.write read_all s) as [[[]|e] s1] eqn:Hwrite.
      - destruct (IBackend.read (Some 16) s1) as [[data_|e] s2] eqn:Hread.
        + eexists _, [Cread (Some 16)], s2.
          step. step_with ltac:(apply Hsend; reflexivity). call Hread.
          rewrite <- app_assoc. reflexivity.
        + eexists _, [Cread (Some 16)], s2.
          step. step_with ltac:(apply Hsend; reflexivity).
          unfold bind.
          erewrite on_backend_run by (apply recorded_read; exact Hread).
          rewrite <- app_assoc. reflexivity.
      - eexists _, [], s1.
        step. unfold bind. rewrite (Hsend _ _ eq_refl). reflexivity. }
    destruct Hall as (r & rest & s' & Hall).
    exists rest. unfold DenkoviRelayBoard4ChMCP2200.get_state.
    step. unfold bind. rewrite Hall.
    destruct r as [states|e]; [|reflexivity].
    unfold lift. reflexivity.
Qed.

(** C1.  The two 4-channel boards do not check the address of
    [get_state].  On the bench, with the HID board answering a report
    whose pin byte is [0b1000]: address 5 sends the read-all report, reads
    the answer and only then fails, with [IndexError]; address 0 returns
    the state of channel 4 ([True]), and address -3 that of channel 1
    ([False]).  With the
    bit-bang board and the pins at [0b00010000]: address 5 reads the pin
    register and returns [True]; address 0 reads it and fails with
    [ValueError].  None of them raises the state-overflow exception. *)
Theorem get_state_4ch_unchecked :
  let report := [0; 0; 0; 0; 0; 0; 0; 0; 0; 0; 0x08; 0; 0; 0; 0; 0] in
  let read_all := [0x80; 0; 0; 0; 0; 0; 0; 0; 0; 0; 0; 0; 0; 0; 0; 0] in
  let hid (addr : Z) :=
    DenkoviRelayBoard4ChMCP2200.get_state (B := Recording MCP2200Backend.class) addr
      (Board true ([], (Bench.opened_mcp2200, Bench.fresh (Bench.replying report)))) in
  let bitbang (addr : Z) :=
    DenkoviRelayBoard4ChFT422.get_state (B := Recording FTD2XXBackend.class) addr
      (Board true ([], (Bench.opened_ftd2xx, Bench.fresh (Bench.driving 0x10)))) in
  (fst (hid 5) = Raise IndexError /\
   calls (snd (hid 5)) = [Cwrite read_all; Cread (Some 16)] /\
   trace (snd (snd (store (snd (hid 5)))))
   = [hid_write (0 :: read_all); hid_read (Some 16) 5000]) /\
  fst (hid 0) = Ok true /\
  fst (hid (-3)) = Ok false /\
  (fst (bitbang 5) = Ok true /\
   calls (snd (bitbang 5)) = [Cget_bit_mode] /\
   trace (snd (snd (store (snd (bitbang 5))))) = [FT_GetBitMode 0x1000]) /\
  (fst (bitbang 0) = Raise (ValueError "negative shift count") /\
   calls (snd (bitbang 0)) = [Cget_bit_mode]).
Proof. vm_compute. repeat split. Qed.

(** ** Clearing *)

(** C2, as stated, fails: on the 16-channel board [set_clear_state(False, 17)]
    raises the state-overflow exception and sends nothing, where
    [set_all_states_off()] sends [off//] and returns. *)
Lemma clear_off_checks_addresses :
  let self := Board true ([], (Bench.opened_vcp, Bench.fresh Bench.idle)) in
  let clear :=
    DenkoviRelayBoard16Ch.set_clear_state (B := Recording VCPBackend.class)
      false [17] self in
  let off :=
    DenkoviRelayBoard16Ch.set_all_states_off (B := Recording VCPBackend.class) self in
  fst clear = Raise (DenkoviRelayBoardStateOverflowException 16) /\
  calls (snd clear) = [] /\
  fst off = Ok tt /\
  calls (snd off) = [Cwrite (b "off//"); Cread (Some 5)] /\
  clear <> off.
Proof. vm_compute. repeat split. discriminate. Qed.

(** Every board checks the addresses of [set_clear_state] before it looks
    at the flag and before it touches the backend. *)
Lemma set_clear_state_checked {S : Type} (B : IBackend.t S)
    (board_type : PossibleRelayBoardT) (logic : bool) (addr : list Z) (s : S) :
  Exists (fun a => ~ in_range board_type a) addr ->
  IDenkoviRelayBoard.set_clear_state (BOARD_REGISTRY board_type) logic addr (Board true s)
  = (Raise (DenkoviRelayBoardStateOverflowException
              (IDenkoviRelayBoard.max_channel (BOARD_REGISTRY board_type))),
     Board true s).
Proof.
  intros Hex. destruct board_type; simpl; apply check_fails in Hex.
  - unfold DenkoviRelayBoard16Ch.set_clear_state. step.
    unfold DenkoviRelayBoard16Ch._integrity_check.
    unfold in_range in Hex; simpl in Hex. unfold DenkoviRelayBoard16Ch.max_channel in Hex.
    rewrite Hex. reflexivity.
  - unfold DenkoviRelayBoard8Ch.set_clear_state. step.
    unfold DenkoviRelayBoard8Ch.__integrity_check.
    unfold in_range in Hex; simpl in Hex. unfold DenkoviRelayBoard8Ch.max_channel in Hex.
    rewrite Hex. reflexivity.
  - unfold DenkoviRelayBoard4ChFT422.set_clear_state.
    unfold DenkoviRelayBoard4ChFT422.__integrity_check.
    unfold in_range in Hex; simpl in Hex. unfold DenkoviRelayBoard4ChFT422.max_channel in Hex.
    rewrite Hex. reflexivity.
  - unfold DenkoviRelayBoard4ChMCP2200.set_clear_state. step.
    unfold DenkoviRelayBoard4ChMCP2200.__integrity_check.
    unfold in_range in Hex; simpl in Hex. unfold DenkoviRelayBoard4ChMCP2200.max_channel in Hex.
    rewrite Hex. reflexivity.
Qed.

(** C2, amended.  On every board and every backend, in whatever state the
    board is, [set_clear_state(False, ...)] with addresses that are all in
    range is [set_all_states_off()]: the same result, the same calls, the
    same state left behind.  With an address out of range, on a board that
    holds its backend, [set_clear_state] raises the state-overflow
    exception of the board's [max_channel], whatever the flag, and leaves
    the board and its backend as they were: nothing is sent. *)
Theorem set_clear_state_off {S : Type} (B : IBackend.t S)
    (board_type : PossibleRelayBoardT) (addr : list Z) (self : board S) :
  (Forall (in_range board_type) addr ->
   IDenkoviRelayBoard.set_clear_state (BOARD_REGISTRY board_type) false addr self
   = IDenkoviRelayBoard.set_all_states_off (BOARD_REGISTRY board_type) self) /\
  (Exists (fun a => ~ in_range board_type a) addr ->
   backend self = true ->
   forall logic : bool,
     IDenkoviRelayBoard.set_clear_state (BOARD_REGISTRY board_type) logic addr self
     = (Raise (DenkoviRelayBoardStateOverflowException
                 (IDenkoviRelayBoard.max_channel (BOARD_REGISTRY board_type))),
        self)).
Proof.
  split.
  - intros Hall. destruct board_type.
    + change (Forall (fun a => 1 <= a <= 16) addr) in Hall.
      apply check_passes in Hall. simpl.
      unfold DenkoviRelayBoard16Ch.set_clear_state.
      destruct self as [[] s]; [|reflexivity]. step.
      unfold DenkoviRelayBoard16Ch._integrity_check. rewrite Hall. step. reflexivity.
    + change (Forall (fun a => 1 <= a <= 8) addr) in Hall.
      apply check_passes in Hall. simpl.
      unfold DenkoviRelayBoard8Ch.set_clear_state.
      destruct self as [[] s]; [|reflexivity]. step.
      unfold DenkoviRelayBoard8Ch.__integrity_check. rewrite Hall. step. reflexivity.
    + change (Forall (fun a => 1 <= a <= 4) addr) in Hall.
      apply check_passes in Hall. simpl.
      unfold DenkoviRelayBoard4ChFT422.set_clear_state.
      unfold DenkoviRelayBoard4ChFT422.__integrity_check. rewrite Hall. step. reflexivity.
    + change (Forall (fun a => 1 <= a <= 4) addr) in Hall.
      apply check_passes in Hall. simpl.
      unfold DenkoviRelayBoard4ChMCP2200.set_clear_state.
      destruct self as [[] s]; [|reflexivity]. step.
      unfold DenkoviRelayBoard4ChMCP2200.__integrity_check. rewrite Hall. step. reflexivity.
  - intros Hex Hopen logic. destruct self as [held s]. simpl in Hopen. subst held.
    apply set_clear_state_checked. exact Hex.
Qed.

(** Channels 3 and 7 of the 16-channel board, on the bench; then channel
    17, which the board does not have. *)
Lemma set_clear_state_off_witness :
  let self := Board true ([], (Bench.opened_vcp, Bench.fresh Bench.idle)) in
  (Forall (in_range denkovi_16ch) [3; 7] /\
   DenkoviRelayBoard16Ch.set_clear_state (B := Recording VCPBackend.class) false [3; 7] self
   = DenkoviRelayBoard16Ch.set_all_states_off (B := Recording VCPBackend.class) self) /\
  (Exists (fun a => ~ in_range denkovi_16ch a) [17] /\
   backend self = true /\
   DenkoviRelayBoard16Ch.set_clear_state (B := Recording VCPBackend.class) true [17] self
   = (Raise (DenkoviRelayBoardStateOverflowException 16), self)).
Proof.
  intros self.
  assert (Forall (in_range denkovi_16ch) [3; 7]) as Hall
    by (repeat constructor; vm_compute; discriminate).
  assert (Exists (fun a => ~ in_range denkovi_16ch a) [17]) as Hex
    by (constructor; vm_compute; intros [_ H]; apply H; reflexivity).
  split; [split; [exact Hall|] | split; [exact Hex | split; [reflexivity|]]].
  - exact (proj1 (set_clear_state_off (Recording VCPBackend.class) denkovi_16ch [3; 7]
                    self) Hall).
  - exact (proj2 (set_clear_state_off (Recording VCPBackend.class) denkovi_16ch [17]
                    self) Hex eq_refl true).
Defined.

(** ** Closing *)

Section Closing.
Context {E : Type} `{!Native E}.

(** The serial-port backend: closing a backend that holds no port does
    nothing. *)
Lemma vcp_close_closed (v : VCPBackend.t) (w : world E) :
  VCPBackend.serial_ v = false ->
  VCPBackend.close (v, w) = (Ok tt, (v, w)).
Proof.
  intros Hclosed. unfold VCPBackend.close, VCPBackend.serial_is_open.
  unfold bind, self. rewrite Hclosed. reflexivity.
Qed.

(** A close that went through leaves no port behind, so that the next
    one does nothing. *)
Lemma vcp_close_releases (v : VCPBackend.t) (w : world E) (e1 e2 : E) :
  VCPBackend.serial_ v = true ->
  answer Serial_is_open (ext w) = (Ok true, e1) ->
  answer Serial_close e1 = (Ok tt, e2) ->
  VCPBackend.close (v, w)
  = (Ok tt, (VCPBackend.set_serial_ false v,
             World (trace w ++ [Serial_is_open; Serial_close]) e2)).
Proof.
  intros Hopen His Hclose.
  unfold VCPBackend.close, VCPBackend.serial_is_open, bind, self, outside, native,
    update.
  rewrite Hopen. simpl. rewrite His. simpl. rewrite Hclose. simpl.
  rewrite <- app_assoc. reflexivity.
Qed.

(** The HID backend: [close] never raises, whatever the native layer
    does, and leaves no device behind; without a device it does
    nothing. *)
Lemma mcp2200_close_safe (m : MCP2200Backend.t) (w : world E) :
  fst (MCP2200Backend.close (m, w)) = Ok tt /\
  MCP2200Backend.hid_device (fst (snd (MCP2200Backend.close (m, w)))) = false /\
  (MCP2200Backend.hid_device m = false -> MCP2200Backend.close (m, w) = (Ok tt, (m, w))).
Proof.
  unfold MCP2200Backend.close, bind, self.
  destruct (MCP2200Backend.hid_device m) eqn:Hdev; simpl.
  - unfold try_finally, try_except, outside, native, update.
    destruct (answer hid_close (ext w)) as [[[]|e] e'];
      simpl; repeat split; discriminate.
  - repeat split. exact Hdev.
Qed.

(** The pyftdi backend: the same. *)
Lemma pyftdi_close_safe (p : PyFtdiBackend.t) (w : world E) :
  fst (PyFtdiBackend.close (p, w)) = Ok tt /\
  PyFtdiBackend.is_opened (fst (snd (PyFtdiBackend.close (p, w)))) = false /\
  (PyFtdiBackend.is_opened p = false -> PyFtdiBackend.close (p, w) = (Ok tt, (p, w))).
Proof.
  unfold PyFtdiBackend.close, bind, self.
  destruct (PyFtdiBackend.is_opened p) eqn:Hdev; simpl.
  - unfold try_finally, try_except, outside, native, update.
    destruct (answer Ftdi_close (ext w)) as [[[]|e] e'];
      simpl; repeat split; discriminate.
  - repeat split. exact Hdev.
Qed.

(** The vendor-library backend has no such guard: without a handle,
    [close] raises, on every environment. *)
Lemma ftd2xx_close_closed (f : FTD2XXBackend.t) (w : world E) :
  PyFTD2XXWrapper._handle (FTD2XXBackend.wrapper f) = None ->
  FTD2XXBackend.close (f, w) = (Raise FTD2XXDeviceNotOpenException, (f, w)).
Proof.
  intros Hnone. destruct f as [[h] sn p t]. simpl in Hnone. subst h. reflexivity.
Qed.
End Closing.

Section BoardClosing.
Context {S : Type} (B : IBackend.t S).

(** The boards that test [self.backend]: once the backend has closed,
    the board lets go of it, and closing again calls nothing. *)
Lemma board_close_twice (board_type : PossibleRelayBoardT) (s s' : S) :
  board_type <> denkovi_4ch_ftd2xx ->
  IBackend.close s = (Ok tt, s') ->
  IDenkoviRelayBoard.close (BOARD_REGISTRY board_type) (Board true s)
  = (Ok tt, Board false s') /\
  IDenkoviRelayBoard.close (BOARD_REGISTRY board_type) (Board false s')
  = (Ok tt, Board false s').
Proof.
  intros Hbt Hclose.
  destruct board_type; try congruence; simpl;
    (split; [|reflexivity]);
    [ unfold DenkoviRelayBoard16Ch.close
    | unfold DenkoviRelayBoard8Ch.close
    | unfold DenkoviRelayBoard4ChMCP2200.close ];
    unfold bind at 1; simpl; erewrite bind_ok by (apply on_backend_run; exact Hclose);
    reflexivity.
Qed.
End BoardClosing.

(** C3.  The vendor-library backend raises on a close that finds no
    handle.  On the bench: a backend that was never opened raises the
    not-opened exception at [close()]; a backend that was opened closes
    once, with [FT_Close], and raises at the second [close()]; the
    4-channel bit-bang board, which does not test its backend, passes the
    exception of the second [close()] on, and so does its [__del__] after
    a [close()]. *)
Theorem close_ftd2xx_twice :
  let never := (FTD2XXBackend.__init__, Bench.fresh Bench.idle) in
  let opened := (Bench.opened_ftd2xx, Bench.fresh Bench.idle) in
  let once := FTD2XXBackend.close opened in
  let self := Board true opened in
  let board_once :=
    IDenkoviRelayBoard.close (BOARD_REGISTRY denkovi_4ch_ftd2xx) self in
  FTD2XXBackend.close never = (Raise FTD2XXDeviceNotOpenException, never) /\
  (fst once = Ok tt /\ trace (snd (snd once)) = [FT_Close 0x1000]) /\
  FTD2XXBackend.close (snd once) = (Raise FTD2XXDeviceNotOpenException, snd once) /\
  fst board_once = Ok tt /\
  IDenkoviRelayBoard.close (BOARD_REGISTRY denkovi_4ch_ftd2xx) (snd board_once)
  = (Raise FTD2XXDeviceNotOpenException, snd board_once) /\
  IDenkoviRelayBoard.__del__ (BOARD_REGISTRY denkovi_4ch_ftd2xx) (snd board_once)
  = (Raise FTD2XXDeviceNotOpenException, snd board_once).
Proof. vm_compute. repeat split. Qed.

(** ** Construction that fails half way *)

(** C4, as stated, fails: on a bench whose chip refuses [FT_SetBitMode],
    the constructor of the 8-channel board opens the backend, raises the
    I/O error of [set_bit_mode], and leaves the backend open: the handle
    is still held and [FT_Close] was never called. *)
Lemma init_does_not_close :
  let built :=
    DenkoviRelayBoard8Ch.__init__ None (Some "DAE06LpX") 5000
      (Board false (FTD2XXBackend.__init__, Bench.fresh Bench.refusing_bit_mode)) in
  fst built = Raise (FTD2XXException 4) /\
  fst (FTD2XXBackend.is_open (store (snd built))) = Ok true /\
  trace (snd (store (snd built)))
  = [FT_CreateDeviceInfoList; FT_GetDeviceInfoList 1; comports;
     FT_OpenEx (b "DAE06LpX") 1; FT_SetBaudRate 0x1000 9600;
     FT_SetDataCharacteristics 0x1000 8 0 0; FT_SetTimeouts 0x1000 5000 5000;
     FT_SetBitMode 0x1000 0xFF 0x04] /\
  FT_Close 0x1000 ∉ trace (snd (store (snd built))).
Proof.
  vm_compute. repeat split.
  intros Hin. repeat (apply elem_of_cons in Hin as [Heq|Hin]; [discriminate Heq|]).
  apply not_elem_of_nil in Hin. exact Hin.
Qed.

(** C4, amended.  On the two bit-bang boards and on every backend, when
    [open] succeeds and [set_bit_mode] raises, the constructor raises that
    same exception having called only [open] and [set_bit_mode]: it does
    not close the backend.  The board keeps its reference to the backend,
    and [close] is called when the abandoned board is finalised by
    [__del__]. *)
Theorem init_failure_leaves_backend_open {S : Type} (B : IBackend.t S)
    (board_type : PossibleRelayBoardT)
    (device_address serial_number : option string) (timeout : Z)
    (bound : bool) (log : list bcall) (s s1 s2 : S) (e : exn) :
  board_type = denkovi_8ch \/ board_type = denkovi_4ch_ftd2xx ->
  IBackend.open device_address serial_number timeout s = (Ok tt, s1) ->
  IBackend.set_bit_mode 0xFF 0x04 s1 = (Raise e, s2) ->
  let built :=
    IDenkoviRelayBoard.__init__ (BOARD_REGISTRY (B := Recording B) board_type)
      device_address serial_number timeout (Board bound (log, s)) in
  built
  = (Raise e,
     Board true (log ++ [Copen device_address serial_number timeout;
                         Cset_bit_mode 0xFF 0x04], s2)) /\
  calls (snd (IDenkoviRelayBoard.__del__ (BOARD_REGISTRY (B := Recording B) board_type)
                (snd built)))
  = log ++ [Copen device_address serial_number timeout; Cset_bit_mode 0xFF 0x04; Cclose].
Proof.
  intros Hbt Hopen Hmode built.
  assert (built
          = (Raise e,
             Board true (log ++ [Copen device_address serial_number timeout;
                                 Cset_bit_mode 0xFF 0x04], s2))) as Hbuilt.
  { subst built. destruct Hbt as [-> | ->]; simpl.
    - unfold DenkoviRelayBoard8Ch.__init__.
      unfold bind at 1. simpl. unfold bind at 1. simpl.
      call Hopen.
      erewrite on_backend_run by (apply recorded_set_bit_mode; exact Hmode).
      rewrite <- app_assoc. reflexivity.
    - unfold DenkoviRelayBoard4ChFT422.__init__.
      unfold bind at 1. simpl.
      call Hopen.
      erewrite on_backend_run by (apply recorded_set_bit_mode; exact Hmode).
      rewrite <- app_assoc. reflexivity. }
  split; [exact Hbuilt|]. rewrite Hbuilt. simpl snd.
  destruct (IBackend.close s2) as [r s3] eqn:Hclose.
  destruct Hbt as [-> | ->]; simpl.
  - unfold DenkoviRelayBoard8Ch.__del__, suppress, try_except,
      DenkoviRelayBoard8Ch.close.
    unfold bind at 1. simpl.
    unfold bind at 1.
    erewrite on_backend_run by (apply recorded_close; exact Hclose).
    destruct r; simpl; rewrite <- app_assoc; reflexivity.
  - unfold DenkoviRelayBoard4ChFT422.__del__, DenkoviRelayBoard4ChFT422.close.
    erewrite on_backend_run by (apply recorded_close; exact Hclose).
    simpl. rewrite <- app_assoc. reflexivity.
Qed.

(** The 8-channel board on the bench whose chip refuses the bit mode. *)
Lemma init_failure_leaves_backend_open_witness :
  let s := (FTD2XXBackend.__init__, Bench.fresh Bench.refusing_bit_mode) in
  let s1 := snd (FTD2XXBackend.open None (Some "DAE06LpX") 5000 s) in
  let s2 := snd (FTD2XXBackend.set_bit_mode 0xFF 0x04 s1) in
  (denkovi_8ch = denkovi_8ch \/ denkovi_8ch = denkovi_4ch_ftd2xx) /\
  FTD2XXBackend.open None (Some "DAE06LpX") 5000 s = (Ok tt, s1) /\
  FTD2XXBackend.set_bit_mode 0xFF 0x04 s1 = (Raise (FTD2XXException 4), s2) /\
  DenkoviRelayBoard8Ch.__init__ (B := Recording FTD2XXBackend.class)
    None (Some "DAE06LpX") 5000 (Board false ([], s))
  = (Raise (FTD2XXException 4),
     Board true ([Copen None (Some "DAE06LpX") 5000; Cset_bit_mode 0xFF 0x04], s2)).
Proof.
  intros s s1 s2.
  assert (FTD2XXBackend.open None (Some "DAE06LpX") 5000 s = (Ok tt, s1)) as Hopen
    by reflexivity.
  assert (FTD2XXBackend.set_bit_mode 0xFF 0x04 s1 = (Raise (FTD2XXException 4), s2))
    as Hmode by reflexivity.
  split; [left; reflexivity|]. split; [exact Hopen|]. split; [exact Hmode|].
  exact (proj1 (init_failure_leaves_backend_open FTD2XXBackend.class denkovi_8ch
                  None (Some "DAE06LpX") 5000 false [] s s1 s2 (FTD2XXException 4)
                  (or_introl eq_refl) Hopen Hmode)).
Defined.

(** ** Matching serial numbers *)

Lemma drop_last_snoc (s : string) (c : ascii) :
  drop_last (s +:+ String c EmptyString) = s.
Proof.
  induction s as [|a s IH]; [reflexivity|].
  simpl. rewrite IH. destruct s; reflexivity.
Qed.

Lemma drop_last_length (s : string) :
  String.length (drop_last s) = pred (String.length s).
Proof.
  induction s as [|a s IH]; [reflexivity|].
  destruct s as [|a' s]; [reflexivity|].
  change (drop_last (String a (String a' s))) with (String a (drop_last (String a' s))).
  simpl String.length in *. rewrite IH. reflexivity.
Qed.

(** Folding the case and cutting the last character commute, so
    [s.lower()[:-1]] and [s[:-1].lower()] are the same string. *)
Lemma drop_last_lower (s : string) : drop_last (lower s) = lower (drop_last s).
Proof.
  induction s as [|a s IH]; [reflexivity|].
  destruct s as [|a' s]; [reflexivity|].
  change (drop_last (lower (String a (String a' s))))
    with (String (lower_ascii a) (drop_last (lower (String a' s)))).
  change (lower (drop_last (String a (String a' s))))
    with (String (lower_ascii a) (lower (drop_last (String a' s)))).
  rewrite IH. reflexivity.
Qed.

Section Matching.
Context {E : Type} `{!Native E}.

(** The lookup of a port by serial number answers with a port whose
    serial number, lower-cased and without its last character, is the
    lower-cased serial number asked for. *)
Lemma port_by_serial_number_matches (serial_number device : string)
    (w w' : world E) :
  FTD2XXBackend.__get_port_by_serial_number serial_number w = (Ok (Some device), w') ->
  exists ports e' s,
    answer comports (ext w) = (Ok ports, e') /\
    {| ListPortInfo.device := device; ListPortInfo.serial_number := Some s |} ∈ ports /\
    drop_last (lower s) = lower serial_number.
Proof.
  unfold FTD2XXBackend.__get_port_by_serial_number, bind, native, ret.
  destruct (answer comports (ext w)) as [[ports|e] e'] eqn:Hports; [|discriminate].
  intros Hrun. injection Hrun as Hfound _.
  destruct (List.find _ ports) as [port|] eqn:Hfind; [|discriminate].
  apply find_some in Hfind as [Hin Hmatch].
  destruct port as [d [s|]]; [|discriminate]. simpl in *.
  injection Hfound as <-.
  exists ports, e', s. split; [reflexivity|]. split.
  - apply list_elem_of_In. exact Hin.
  - apply String.eqb_eq. exact Hmatch.
Qed.
End Matching.

(** C7.  [_open_by_port] cuts the last character of the serial number the
    OS reports but compares what is left with the chip's serial number as
    it is, case included.  On the bench, where the chip is [DAE06LpX] and
    the OS lists [COM14] under [DAE06LPXA]: the two lookups that [open]
    uses, which fold the case, resolve the port to the chip and the chip
    to the port; [_open_by_port("COM14")] finds no chip, raises, and never
    calls [FT_OpenEx].  On an OS that keeps the chip's case it opens the
    chip. *)
Theorem open_by_port_compares_case :
  let s := (FTD2XXBackend.__init__, Bench.fresh Bench.idle) in
  let by_port := FTD2XXBackend._open_by_port "COM14" s in
  let same_case :=
    FTD2XXBackend._open_by_port "COM14"
      (FTD2XXBackend.__init__, Bench.fresh (Bench.listing "DAE06LpXA")) in
  fst (FTD2XXBackend.__get_serial_number_by_port "COM14" s) = Ok (Some "DAE06LpX") /\
  fst (FTD2XXBackend.__get_port_by_serial_number "DAE06LpX" (Bench.fresh Bench.idle))
  = Ok (Some "COM14") /\
  fst by_port
  = Raise (ValueError
             "No FTDI device found with serial number DAE06LPXA for port COM14") /\
  trace (snd (snd by_port))
  = [FT_CreateDeviceInfoList; FT_GetDeviceInfoList 1; comports] /\
  fst same_case = Ok tt /\
  trace (snd (snd same_case))
  = [FT_CreateDeviceInfoList; FT_GetDeviceInfoList 1; comports;
     FT_OpenEx (b "DAE06LpX") 1].
Proof. vm_compute. repeat split. Qed.

(** ** Reading a run backwards *)

Lemma bind_inv {S A B : Type} (m : M S A) (k : A -> M S B) (s s' : S) (y : B) :
  bind m k s = (Ok y, s') ->
  exists a s1, m s = (Ok a, s1) /\ k a s1 = (Ok y, s').
Proof.
  unfold bind. destruct (m s) as [[a|e] s1]; [|discriminate].
  intros H. exists a, s1. split; [reflexivity|exact H].
Qed.

Lemma require_backend_inv {S : Type} (self self' : board S) (u : unit) :
  require_backend self = (Ok u, self') -> backend self = true /\ self' = self.
Proof.
  unfold require_backend. destruct (backend self); [|discriminate].
  intros H. injection H as _ <-. split; reflexivity.
Qed.

Lemma on_backend_inv {S A : Type} (m : M S A) (self self' : board S) (a : A) :
  on_backend m self = (Ok a, self') ->
  backend self = true /\
  exists s', m (store self) = (Ok a, s') /\ self' = Board true s'.
Proof.
  unfold on_backend. destruct (backend self); [|discriminate].
  destruct (m (store self)) as [r s'].
  intros H. injection H as -> <-. split; [reflexivity|].
  exists s'. split; reflexivity.
Qed.

Lemma lift_inv {S A : Type} (r : result A) (s s' : S) (a : A) :
  lift r s = (Ok a, s') -> r = Ok a /\ s' = s.
Proof. unfold lift. intros H. split; congruence. Qed.

Lemma map_result_length {A B : Type} (f : A -> result B) (idx : list A) (l : list B) :
  map_result f idx = Ok l -> length l = length idx.
Proof.
  revert l. induction idx as [|i rest IH]; intros l; simpl.
  - intros H. injection H as <-. reflexivity.
  - destruct (f i) as [x|e]; [|discriminate]. simpl.
    destruct (map_result f rest) as [xs|e]; [|discriminate]. simpl.
    intros H. injection H as <-. simpl. rewrite (IH xs eq_refl). reflexivity.
Qed.

(** ** The length of the state vector *)

Section Width.
Context {S : Type} (B : IBackend.t S).

(** Whenever [get_all_states] returns, the vector has the width of the
    board, and the board still holds its backend. *)
Lemma get_all_states_width (board_type : PossibleRelayBoardT)
    (self self' : board S) (v : list bool) :
  IDenkoviRelayBoard.get_all_states (BOARD_REGISTRY board_type) self = (Ok v, self') ->
  length v = width board_type /\ backend self = true /\ backend self' = true.
Proof.
  destruct board_type; simpl.
  - unfold DenkoviRelayBoard16Ch.get_all_states. intros H.
    apply bind_inv in H as (? & s0 & [Hb ->]%require_backend_inv & H).
    apply bind_inv in H as (? & s1 & (_ & ? & _ & ->)%on_backend_inv & H).
    apply bind_inv in H as (? & s2 & (_ & ? & _ & ->)%on_backend_inv & H).
    apply bind_inv in H as (dat & s3 & (_ & ? & _ & ->)%on_backend_inv & H).
    destruct (negb (len dat =? 2)); [discriminate|].
    apply bind_inv in H as (byte1 & s4 & H4 & H).
    apply bind_inv in H as (byte2 & s5 & H5 & H).
    unfold lift in H4, H5. injection H4 as _ <-. injection H5 as _ <-.
    injection H as <- <-. split; [reflexivity|]. split; [exact Hb|reflexivity].
  - unfold DenkoviRelayBoard8Ch.get_all_states. intros H.
    apply bind_inv in H as (? & s0 & [Hb ->]%require_backend_inv & H).
    apply bind_inv in H as (? & s1 & (_ & ? & _ & ->)%on_backend_inv & H).
    injection H as <- <-. split; [reflexivity|]. split; [exact Hb|reflexivity].
  - unfold DenkoviRelayBoard4ChFT422.get_all_states. intros H.
    apply bind_inv in H as (? & s1 & (Hb & ? & _ & ->)%on_backend_inv & H).
    injection H as <- <-. split; [reflexivity|]. split; [exact Hb|reflexivity].
  - unfold DenkoviRelayBoard4ChMCP2200.get_all_states. intros H.
    apply bind_inv in H as (? & s0 & [Hb ->]%require_backend_inv & H).
    apply bind_inv in H as (? & s1 & H1 & H).
    unfold DenkoviRelayBoard4ChMCP2200.__send_read_all_opcode in H1.
    apply bind_inv in H1 as (? & s0' & [_ ->]%require_backend_inv & H1).
    apply bind_inv in H1 as (? & s0'' & H0 & H1).
    unfold lift in H0. injection H0 as _ <-.
    apply on_backend_inv in H1 as (_ & ? & _ & ->).
    apply bind_inv in H as (data_ & s2 & (_ & ? & _ & ->)%on_backend_inv & H).
    apply lift_inv in H as [H ->].
    apply map_result_length in H. split; [exact H|]. split; [exact Hb|reflexivity].
Qed.

(** On three of the four boards that width is [max_channel]. *)
Lemma width_is_max_channel (board_type : PossibleRelayBoardT) :
  board_type <> denkovi_4ch_ftd2xx ->
  Z.of_nat (width board_type)
  = IDenkoviRelayBoard.max_channel (BOARD_REGISTRY board_type).
Proof. destruct board_type; intros H; try reflexivity. congruence. Qed.
End Width.

(** The 8-channel board on the bench: all on, then all off. *)
Example all_on_all_off_8ch :
  let self := Board true (Bench.opened_ftd2xx, Bench.fresh Bench.idle) in
  let on := snd (DenkoviRelayBoard8Ch.set_all_states_on self) in
  let off := snd (DenkoviRelayBoard8Ch.set_all_states_off on) in
  fst (DenkoviRelayBoard8Ch.get_all_states on) = Ok (repeat true 8) /\
  fst (DenkoviRelayBoard8Ch.get_all_states off) = Ok (repeat false 8).
Proof. vm_compute. split; reflexivity. Qed.

(** C9.  The 4-channel bit-bang board reports all eight pins.  On the
    bench its [max_channel] is 4, yet [get_all_states()] returns eight
    states: eight [True] after [set_all_states_on()], eight [False] after
    [set_all_states_off()]. *)
Theorem get_all_states_4ch_ftd2xx_width :
  let self := Board true (Bench.opened_ftd2xx, Bench.fresh Bench.idle) in
  let on := snd (DenkoviRelayBoard4ChFT422.set_all_states_on self) in
  let off := snd (DenkoviRelayBoard4ChFT422.set_all_states_off on) in
  IDenkoviRelayBoard.max_channel
    (BOARD_REGISTRY (S := FTD2XXBackend.t * world Bench.t) denkovi_4ch_ftd2xx) = 4 /\
  fst (DenkoviRelayBoard4ChFT422.get_all_states on)
  = Ok [true; true; true; true; true; true; true; true] /\
  fst (DenkoviRelayBoard4ChFT422.get_all_states off)
  = Ok [false; false; false; false; false; false; false; false] /\
  fst (DenkoviRelayBoard4ChFT422.get_all_states on) <> Ok [true; true; true; true].
Proof. vm_compute. repeat split. discriminate. Qed.

(** ** Setting some channels *)

Lemma construct_control_bytes_eq (c0 c1 c2 c3 : bool) (rest : list bool) :
  DenkoviRelayBoard4ChMCP2200.__construct_control_bytes (c0 :: c1 :: c2 :: c3 :: rest)
  = Ok [0x08; 0; 0; 0; 0; 0; 0; 0; 0; 0; 0;
        Z.b2z c0 + 2 * Z.b2z c1 + 4 * Z.b2z c2 + 8 * Z.b2z c3;
        Z.lxor (Z.b2z c0 + 2 * Z.b2z c1 + 4 * Z.b2z c2 + 8 * Z.b2z c3) 0xFF;
        0; 0; 0].
Proof. destruct c0, c1, c2, c3; reflexivity. Qed.

(** A list of a known length, as its elements. *)
Ltac explode l H :=
  repeat (destruct l as [|? l]; [discriminate H|]);
  destruct l; [clear H|discriminate H].

Lemma in_range_elements (n : Z) (addr : list Z) (states : list bool) :
  Forall (fun a => 1 <= a <= n) addr ->
  n <= len states ->
  Forall (fun a => 1 <= a <= len states) (elements (py_set addr)).
Proof.
  intros Hall Hn. apply Forall_forall. intros a Ha.
  apply (proj1 (elements_py_set addr a)) in Ha.
  rewrite Forall_forall in Hall. specialize (Hall a Ha). lia.
Qed.

(** The merge of the loop of [set_state], over the set of addresses. *)
Lemma merge_spec (n : Z) (addr : list Z) (logic : bool) (old : list bool) :
  Forall (fun a => 1 <= a <= n) addr ->
  n <= len old ->
  exists merged,
    assign_each old (elements (py_set addr)) logic = Ok merged /\
    length merged = length old /\
    forall i : nat, (i < length old)%nat ->
      merged !! i = if bool_decide (Z.of_nat i + 1 ∈ addr) then Some logic else old !! i.
Proof.
  intros Hall Hn.
  destruct (assign_each_spec (elements (py_set addr)) logic old
              (in_range_elements n addr old Hall Hn)) as (merged & Hrun & Hlen & Hget).
  exists merged. split; [exact Hrun|]. split; [exact Hlen|].
  intros i Hi. rewrite (Hget i Hi).
  apply (f_equal (fun c : bool => if c then Some logic else old !! i)).
  apply bool_decide_ext, elements_py_set.
Qed.

Lemma bytes_of_1 (x : Z) : is_byte x = true -> bytes_of [x] = Ok [x].
Proof. intros H. unfold bytes_of, forallb. rewrite H. reflexivity. Qed.

Lemma bytes_of_2 (x y : Z) :
  is_byte x = true -> is_byte y = true -> bytes_of [x; y] = Ok [x; y].
Proof. intros Hx Hy. unfold bytes_of, forallb. rewrite Hx, Hy. reflexivity. Qed.

(** The byte the bit-bang boards write carries the eight states. *)
Lemma encode_8 (merged : list bool) :
  length merged = 8%nat ->
  exists byte,
    sum_shifted (range 8) (fun i => getitem merged i) = Ok byte /\
    bytes_of [byte] = Ok [byte] /\
    carries denkovi_8ch [byte] merged.
Proof.
  intros Hlen. explode merged Hlen.
  match goal with
  | |- context [getitem [?c0; ?c1; ?c2; ?c3; ?c4; ?c5; ?c6; ?c7]] =>
      destruct (bits8 c0 c1 c2 c3 c4 c5 c6 c7)
        as (Hbyte & H0 & H1 & H2 & H3 & H4 & H5 & H6 & H7)
  end.
  match type of Hbyte with is_byte ?x = true => exists x end.
  split; [reflexivity|]. split; [exact (bytes_of_1 _ Hbyte)|].
  match type of Hbyte with is_byte ?x = true => exists x end.
  split; [reflexivity|]. split; [exact Hbyte|].
  intros i Hi.
    assert (i = 0 \/ i = 1 \/ i = 2 \/ i = 3 \/ i = 4 \/ i = 5 \/ i = 6 \/ i = 7)
      as Hcases by lia.
  destruct Hcases as [->|[->|[->|[->|[->|[->|[->| ->]]]]]]];
    apply (f_equal Some); symmetry; assumption.
Qed.

(** The two bytes the 16-channel board writes carry the sixteen states. *)
Lemma encode_16 (merged : list bool) :
  length merged = 16%nat ->
  exists byte1 byte2,
    sum_shifted (range 8) (fun i => getitem merged (7 - i)) = Ok byte1 /\
    sum_shifted (range 8) (fun i => getitem merged (15 - i)) = Ok byte2 /\
    bytes_of [byte1; byte2] = Ok [byte1; byte2] /\
    carries denkovi_16ch (b "x" ++ [byte1; byte2] ++ b "//") merged.
Proof.
  intros Hlen. explode merged Hlen.
  match goal with
  | |- context [getitem [?c0; ?c1; ?c2; ?c3; ?c4; ?c5; ?c6; ?c7;
                         ?d0; ?d1; ?d2; ?d3; ?d4; ?d5; ?d6; ?d7]] =>
      destruct (bits8 c7 c6 c5 c4 c3 c2 c1 c0)
        as (Hbyte1 & H7 & H6 & H5 & H4 & H3 & H2 & H1 & H0);
      destruct (bits8 d7 d6 d5 d4 d3 d2 d1 d0)
        as (Hbyte2 & G7 & G6 & G5 & G4 & G3 & G2 & G1 & G0)
  end.
  match type of Hbyte1 with is_byte ?x = true =>
    match type of Hbyte2 with is_byte ?y = true => exists x, y end end.
  split; [reflexivity|]. split; [reflexivity|].
  split; [exact (bytes_of_2 _ _ Hbyte1 Hbyte2)|].
  match type of Hbyte1 with is_byte ?x = true =>
    match type of Hbyte2 with is_byte ?y = true => exists x, y end end.
  split; [reflexivity|]. split; [exact Hbyte1|]. split; [exact Hbyte2|].
  intros i Hi.
  assert (i = 0 \/ i = 1 \/ i = 2 \/ i = 3 \/ i = 4 \/ i = 5 \/ i = 6 \/ i = 7)
    as Hcases by lia.
  destruct Hcases as [->|[->|[->|[->|[->|[->|[->| ->]]]]]]];
    split; apply (f_equal Some); symmetry; assumption.
Qed.

(** The buffer the HID board writes carries the four states. *)
Lemma encode_4 (merged : list bool) :
  length merged = 4%nat ->
  exists frame,
    DenkoviRelayBoard4ChMCP2200.__construct_control_bytes merged = Ok frame /\
    carries denkovi_4ch_mcp2200 frame merged.
Proof.
  intros Hlen. explode merged Hlen.
  eexists. split; [apply construct_control_bytes_eq|].
  eexists. split; [reflexivity|].
  match goal with
  | |- context [Z.b2z ?c0 + 2 * Z.b2z ?c1 + 4 * Z.b2z ?c2 + 8 * Z.b2z ?c3] =>
      destruct c0, c1, c2, c3
  end; (split; [simpl; lia|]); intros i Hi;
    assert (i = 0 \/ i = 1 \/ i = 2 \/ i = 3) as Hcases by lia;
    destruct Hcases as [->|[->|[->| ->]]]; reflexivity.
Qed.

(** [set_state] of the HID board, once the state has been read. *)
Lemma set_state_hid {S : Type} (B : IBackend.t S) (logic : bool) (addr : list Z)
    (self self1 : board S) (old : list bool) :
  Forall (fun a => 1 <= a <= 4) addr ->
  DenkoviRelayBoard4ChMCP2200.get_all_states self = (Ok old, self1) ->
  exists merged frame,
    length merged = length old /\
    (forall i : nat, (i < length old)%nat ->
       merged !! i
       = if bool_decide (Z.of_nat i + 1 ∈ addr) then Some logic else old !! i) /\
    carries denkovi_4ch_mcp2200 frame merged /\
    DenkoviRelayBoard4ChMCP2200.set_state logic addr self
    = on_backend (IBackend.write frame) self1.
Proof.
  intros Hall Hget.
  destruct (get_all_states_width B denkovi_4ch_mcp2200 self self1 old Hget)
    as (Hwidth & Hbound & Hbound1).
  destruct self as [bound s]. simpl in Hbound. subst bound.
  destruct self1 as [bound1 s1]. simpl in Hbound1. subst bound1.
  simpl in Hwidth.
  pose proof (proj2 (check_passes 4 addr) Hall) as Hcheck.
  destruct (merge_spec 4 addr logic old Hall) as (merged & Hrun & Hlen & Hmerged);
    [unfold len; lia|].
  destruct (encode_4 merged) as (frame & H1 & Hcarries); [congruence|].
  exists merged, frame.
  split; [exact Hlen|]. split; [exact Hmerged|]. split; [exact Hcarries|].
  unfold DenkoviRelayBoard4ChMCP2200.set_state. step.
  unfold DenkoviRelayBoard4ChMCP2200.__integrity_check. rewrite Hcheck. step.
  step_with ltac:(exact Hget).
  rewrite Hrun. step. rewrite H1. step.
  reflexivity.
Qed.

(** ** The 4-channel HID set command *)

(** C6.  [__construct_control_bytes] builds, from the four channel flags,
    a buffer of 16 bytes: byte 0 is [0x08], byte 11 is the bitmap with bit
    [i] for channel [i + 1] and no bit above, byte 12 is the bitwise
    complement of byte 11, and the other bytes are zero.  Every set command
    of the board goes out as such a buffer: [set_all_states_on],
    [set_all_states_off], [set_clear_state(True, ...)] on addresses in
    [1, 4], whose bitmap has bit [i] set exactly when [i + 1] is listed,
    and [set_state] on such addresses once it has read the state.  For
    channels 1 and 3, byte 11 is [0b00000101] and byte 12 is
    [0b11111010]. *)
Theorem control_bytes_4ch {S : Type} (B : IBackend.t S)
    (s0 s1 s2 s3 : bool) (rest : list bool)
    (addr : list Z) (log : list bcall) (s : S) :
  Forall (fun a => 1 <= a <= 4) addr ->
  let bitmap (c0 c1 c2 c3 : bool) : Z :=
    Z.b2z c0 + 2 * Z.b2z c1 + 4 * Z.b2z c2 + 8 * Z.b2z c3 in
  let buffer (x : Z) : bytes :=
    [0x08; 0; 0; 0; 0; 0; 0; 0; 0; 0; 0; x; Z.lxor x 0xFF; 0; 0; 0] in
  let listed (a : Z) : bool := bool_decide (a ∈ addr) in
  let sent (m : M (board (list bcall * S)) unit) : list bcall :=
    calls (snd (m (Board true (log, s)))) in
  DenkoviRelayBoard4ChMCP2200.__construct_control_bytes (s0 :: s1 :: s2 :: s3 :: rest)
  = Ok (buffer (bitmap s0 s1 s2 s3)) /\
  length (buffer (bitmap s0 s1 s2 s3)) = 16%nat /\
  (Z.testbit (bitmap s0 s1 s2 s3) 0 = s0 /\ Z.testbit (bitmap s0 s1 s2 s3) 1 = s1 /\
   Z.testbit (bitmap s0 s1 s2 s3) 2 = s2 /\ Z.testbit (bitmap s0 s1 s2 s3) 3 = s3 /\
   0 <= bitmap s0 s1 s2 s3 < 16) /\
  (forall i, 0 <= i < 8 ->
     Z.testbit (Z.lxor (bitmap s0 s1 s2 s3) 0xFF) i
     = negb (Z.testbit (bitmap s0 s1 s2 s3) i)) /\
  sent (DenkoviRelayBoard4ChMCP2200.set_all_states_on (B := Recording B))
  = log ++ [Cwrite (buffer 0x0F)] /\
  sent (DenkoviRelayBoard4ChMCP2200.set_all_states_off (B := Recording B))
  = log ++ [Cwrite (buffer 0x00)] /\
  sent (DenkoviRelayBoard4ChMCP2200.set_clear_state (B := Recording B) true addr)
  = log ++ [Cwrite (buffer (bitmap (listed 1) (listed 2) (listed 3) (listed 4)))] /\
  (forall (logic : bool) (old : list bool) (self1 : board (list bcall * S)),
     DenkoviRelayBoard4ChMCP2200.get_all_states (B := Recording B) (Board true (log, s))
     = (Ok old, self1) ->
     exists x,
       0 <= x < 16 /\
       DenkoviRelayBoard4ChMCP2200.set_state (B := Recording B) logic addr
         (Board true (log, s))
       = on_backend (IBackend.write (t := Recording B) (buffer x)) self1) /\
  DenkoviRelayBoard4ChMCP2200.__construct_control_bytes [true; false; true; false]
  = Ok [0x08; 0; 0; 0; 0; 0; 0; 0; 0; 0; 0; 5; 250; 0; 0; 0].
Proof.
  intros Hall bitmap buffer listed sent.
  assert (forall c0 c1 c2 c3 tl,
            DenkoviRelayBoard4ChMCP2200.__construct_control_bytes
              (c0 :: c1 :: c2 :: c3 :: tl) = Ok (buffer (bitmap c0 c1 c2 c3)))
    as Hbuild by (intros [] [] [] [] tl; reflexivity).
  assert (forall m data (s' : S),
            DenkoviRelayBoard4ChMCP2200.__construct_control_bytes m = Ok data ->
            calls (snd ((data <- lift (DenkoviRelayBoard4ChMCP2200.__construct_control_bytes m) ;;
                         on_backend (IBackend.write (t := Recording B) data))
                          (Board true (log, s))))
            = log ++ [Cwrite data]) as Hsend.
  { intros m data s' Hm. rewrite Hm. step.
    destruct (IBackend.write data s) as [r s''] eqn:Hw.
    erewrite on_backend_run by (apply recorded_write; exact Hw). reflexivity. }
  split; [apply Hbuild|]. split; [reflexivity|].
  split; [|split; [|split; [|split; [|split; [|split]]]]].
  - subst bitmap. destruct s0, s1, s2, s3; vm_compute; repeat split; discriminate.
  - intros i Hi.
    assert (i = 0 \/ i = 1 \/ i = 2 \/ i = 3 \/ i = 4 \/ i = 5 \/ i = 6 \/ i = 7)
      as Hcases by lia.
    subst bitmap.
    destruct Hcases as [->|[->|[->|[->|[->|[->|[->| ->]]]]]]];
      destruct s0, s1, s2, s3; reflexivity.
  - subst sent. unfold DenkoviRelayBoard4ChMCP2200.set_all_states_on. step.
    apply (Hsend _ _ s). reflexivity.
  - subst sent. unfold DenkoviRelayBoard4ChMCP2200.set_all_states_off. step.
    apply (Hsend _ _ s). reflexivity.
  - subst sent. unfold DenkoviRelayBoard4ChMCP2200.set_clear_state. step.
    unfold DenkoviRelayBoard4ChMCP2200.__integrity_check.
    apply check_passes in Hall. rewrite Hall. step.
    change (negb true) with false. cbv iota.
    apply (Hsend _ _ s).
    change (range 4) with [0; 1; 2; 3]. cbn [List.map].
    rewrite Hbuild. do 2 f_equal. subst bitmap listed. cbv beta.
    rewrite !(bool_decide_ext (_ ∈ py_set addr) (_ ∈ addr))
      by (unfold py_set; apply elem_of_list_to_set).
    reflexivity.
  - intros logic old self1 Hget.
    destruct (set_state_hid (Recording B) logic addr _ _ old Hall Hget)
      as (merged & frame & _ & _ & (x & -> & Hx & _) & Hset).
    exists x. split; [exact Hx|exact Hset].
  - reflexivity.
Qed.


(** Channels 1 and 3 of the HID board. *)
Lemma control_bytes_4ch_witness :
  Forall (fun a => 1 <= a <= 4) [1; 3] /\
  calls (snd (DenkoviRelayBoard4ChMCP2200.set_clear_state
                (B := Recording MCP2200Backend.class) true [1; 3]
                (Board true ([], (Bench.opened_mcp2200, Bench.fresh Bench.idle)))))
  = [Cwrite [0x08; 0; 0; 0; 0; 0; 0; 0; 0; 0; 0; 5; 250; 0; 0; 0]].
Proof.
  assert (Forall (fun a => 1 <= a <= 4) [1; 3]) as Hall
    by (repeat constructor; vm_compute; discriminate).
  split; [exact Hall|].
  exact (proj1 (proj2 (proj2 (proj2 (proj2 (proj2 (proj2
           (control_bytes_4ch MCP2200Backend.class true false true false [] [1; 3] []
              (Bench.opened_mcp2200, Bench.fresh Bench.idle) Hall)))))))).
Defined.


(** C10, as stated, fails: the 16-channel board, given one address, does
    not read the state and writes no merged word.  On the bench
    [set_state(True, 3)] sends [03+//] and drains five bytes, and that is
    all; [get_all_states()] would have sent [ask//]. *)
Lemma set_state_single_does_not_read :
  let self := Board true ([], (Bench.opened_vcp, Bench.fresh (Bench.replying [0x80; 0x01]))) in
  let set :=
    DenkoviRelayBoard16Ch.set_state (B := Recording VCPBackend.class) true [3] self in
  let query :=
    DenkoviRelayBoard16Ch.get_all_states (B := Recording VCPBackend.class) self in
  fst set = Ok tt /\
  calls (snd set) = [Cwrite (b "03+//"); Cread (Some 5)] /\
  calls (snd query) = [Cread None; Cwrite (b "ask//"); Cread (Some 2)] /\
  Cwrite (b "ask//") ∉ calls (snd set).
Proof.
  vm_compute. repeat split.
  intros Hin. repeat (apply elem_of_cons in Hin as [Heq|Hin]; [discriminate Heq|]).
  apply not_elem_of_nil in Hin. exact Hin.
Qed.

(** C10, amended.  On every board and every backend, with addresses that
    are all in range:

    - the 16-channel board given exactly one distinct address [a] sends
      the single command, the address in two digits, [+] or [-], and the
      end marker, then drains five bytes; it does not read the state;
    - in every other case, when [get_all_states] returns [old],
      [set_state] goes on from there by writing one frame (and, on the
      16-channel board, draining five bytes); the frame carries the vector
      [merged], as long as [old], in which every listed position holds
      [logic] and every other position holds what [old] holds. *)
Theorem set_state_merges {S : Type} (B : IBackend.t S)
    (board_type : PossibleRelayBoardT) (logic : bool) (addr : list Z)
    (self : board S) :
  Forall (in_range board_type) addr ->
  if decide (board_type = denkovi_16ch /\ size (py_set addr) = 1%nat) then
    exists a,
      py_set addr = {[ a ]} /\
      IDenkoviRelayBoard.set_state (BOARD_REGISTRY board_type) logic addr self
      = (require_backend ;;
         on_backend (IBackend.write (b (zfill 2 (str a))
                                     ++ (if logic then b "+" else b "-") ++ b "//")) ;;
         _ <- on_backend (IBackend.read (Some 5)) ;;
         ret tt) self
  else
    forall (old : list bool) (self1 : board S),
      IDenkoviRelayBoard.get_all_states (BOARD_REGISTRY board_type) self = (Ok old, self1) ->
      exists merged frame,
        length merged = length old /\
        (forall i : nat, (i < length old)%nat ->
           merged !! i
           = if bool_decide (Z.of_nat i + 1 ∈ addr) then Some logic else old !! i) /\
        carries board_type frame merged /\
        IDenkoviRelayBoard.set_state (BOARD_REGISTRY board_type) logic addr self
        = match board_type with
          | denkovi_16ch =>
              (on_backend (IBackend.write frame) ;;
               _ <- on_backend (IBackend.read (Some 5)) ;;
               ret tt) self1
          | _ => on_backend (IBackend.write frame) self1
          end.
Proof.
  intros Hall.
  destruct (decide (board_type = denkovi_16ch /\ size (py_set addr) = 1%nat))
    as [[-> Hone]|Hmany].
  - (* the single command *)
    change (Forall (fun a => 1 <= a <= 16) addr) in Hall.
    pose proof (proj2 (check_passes 16 addr) Hall) as Hcheck.
    apply size_1_elem_of in Hone as [a Ha]. apply leibniz_equiv in Ha.
    exists a. split; [exact Ha|].
    assert (1 <= a <= 16) as Hin.
    { rewrite Forall_forall in Hall. apply Hall.
      apply (proj1 (elem_of_list_to_set (C := gset Z) a addr)).
      fold (py_set addr). rewrite Ha. apply elem_of_singleton. reflexivity. }
    simpl. unfold DenkoviRelayBoard16Ch.set_state.
    destruct self as [[] s]; [|reflexivity].
    step. symmetry. step. symmetry.
    unfold DenkoviRelayBoard16Ch._integrity_check at 1. rewrite Hcheck. step.
    rewrite Ha, size_singleton, elements_singleton.
    rewrite bool_decide_eq_true_2 by reflexivity.
    unfold DenkoviRelayBoard16Ch._set_single_state. step.
    unfold DenkoviRelayBoard16Ch._integrity_check. rewrite singleton_check.
    replace ((1 <=? a) && (a <=? 16)) with true
      by (symmetry; apply andb_true_iff; split; apply Z.leb_le; lia).
    step. destruct logic; reflexivity.
  - (* read, merge, write back *)
    intros old self1 Hget.
    destruct (get_all_states_width B board_type self self1 old Hget)
      as (Hwidth & Hbound & Hbound1).
    destruct self as [bound s]. simpl in Hbound. subst bound.
    destruct self1 as [bound1 s1]. simpl in Hbound1. subst bound1.
    destruct board_type; simpl in Hget, Hwidth |- *.
    + (* 16 channels, not one address *)
      change (Forall (fun a => 1 <= a <= 16) addr) in Hall.
      pose proof (proj2 (check_passes 16 addr) Hall) as Hcheck.
      destruct (merge_spec 16 addr logic old Hall) as (merged & Hrun & Hlen & Hmerged);
        [unfold len; lia|].
      destruct (encode_16 merged) as (byte1 & byte2 & H1 & H2 & Hbytes & Hcarries);
        [congruence|].
      exists merged, (b "x" ++ [byte1; byte2] ++ b "//").
      split; [exact Hlen|]. split; [exact Hmerged|]. split; [exact Hcarries|].
      unfold DenkoviRelayBoard16Ch.set_state. step.
      unfold DenkoviRelayBoard16Ch._integrity_check. rewrite Hcheck. step.
      rewrite bool_decide_eq_false_2 by (intros Hone; apply Hmany; split; [reflexivity|exact Hone]).
      step_with ltac:(exact Hget).
      rewrite Hrun. step.
      unfold DenkoviRelayBoard16Ch._set_multiple_states. step.
      replace (len merged =? 16) with true
        by (symmetry; apply Z.eqb_eq; unfold len; lia).
      cbv [negb].
      rewrite H1. step. rewrite H2. step. rewrite Hbytes. step.
      reflexivity.
    + (* 8 channels *)
      change (Forall (fun a => 1 <= a <= 8) addr) in Hall.
      pose proof (proj2 (check_passes 8 addr) Hall) as Hcheck.
      destruct (merge_spec 8 addr logic old Hall) as (merged & Hrun & Hlen & Hmerged);
        [unfold len; lia|].
      destruct (encode_8 merged) as (byte & H1 & Hbytes & Hcarries); [congruence|].
      exists merged, [byte].
      split; [exact Hlen|]. split; [exact Hmerged|]. split; [exact Hcarries|].
      unfold DenkoviRelayBoard8Ch.set_state. step.
      unfold DenkoviRelayBoard8Ch.__integrity_check. rewrite Hcheck. step.
      step_with ltac:(exact Hget).
      rewrite Hrun. step. rewrite H1. step. rewrite Hbytes. step.
      reflexivity.
    + (* 4 channels, bit-bang *)
      change (Forall (fun a => 1 <= a <= 4) addr) in Hall.
      pose proof (proj2 (check_passes 4 addr) Hall) as Hcheck.
      destruct (merge_spec 4 addr logic old Hall) as (merged & Hrun & Hlen & Hmerged);
        [unfold len; lia|].
      destruct (encode_8 merged) as (byte & H1 & Hbytes & Hcarries); [congruence|].
      exists merged, [byte].
      split; [exact Hlen|]. split; [exact Hmerged|]. split; [exact Hcarries|].
      unfold DenkoviRelayBoard4ChFT422.set_state.
      unfold DenkoviRelayBoard4ChFT422.__integrity_check. rewrite Hcheck. step.
      step_with ltac:(exact Hget).
      rewrite Hrun. step. rewrite H1. step. rewrite Hbytes. step.
      reflexivity.
    + (* 4 channels, HID *)
      exact (set_state_hid B logic addr _ _ old Hall Hget).
Qed.

(** ** The properties at work on the bench *)

(** The 16-channel query over the serial-port backend, the device
    answering [0b10000000 0b00000001]. *)
Lemma get_all_states_16ch_witness :
  let s := (Bench.opened_vcp, Bench.fresh (Bench.replying [0x80; 0x01])) in
  let s1 := snd (VCPBackend.read None s) in
  let s2 := snd (VCPBackend.write (b "ask//") s1) in
  let s3 := snd (VCPBackend.read (Some 2) s2) in
  VCPBackend.read None s = (Ok [], s1) /\
  VCPBackend.write (b "ask//") s1 = (Ok tt, s2) /\
  VCPBackend.read (Some 2) s2 = (Ok [0x80; 0x01], s3) /\
  DenkoviRelayBoard16Ch.get_all_states (B := Recording VCPBackend.class)
    (Board true ([], s))
  = (Ok [true; false; false; false; false; false; false; false;
         false; false; false; false; false; false; false; true],
     Board true ([Cread None; Cwrite (b "ask//"); Cread (Some 2)], s3)).
Proof.
  intros s s1 s2 s3.
  assert (VCPBackend.read None s = (Ok [], s1)) as H1 by reflexivity.
  assert (VCPBackend.write (b "ask//") s1 = (Ok tt, s2)) as H2 by reflexivity.
  assert (VCPBackend.read (Some 2) s2 = (Ok [0x80; 0x01], s3)) as H3 by reflexivity.
  split; [exact H1|]. split; [exact H2|]. split; [exact H3|].
  destruct (get_all_states_16ch VCPBackend.class [] s s1 s2 s3 [] [0x80; 0x01] H1 H2 H3)
    as (Hstate & _ & _ & Hvalue).
  apply injective_projections; [exact (Hvalue eq_refl)|exact Hstate].
Defined.

(** Channels 2 and 5 of the 8-channel board switched on while channels 1
    and 8 are on: the byte written is [0b10010011]. *)
Lemma set_state_merges_witness :
  let self := Board true (Bench.opened_ftd2xx, Bench.fresh (Bench.driving 0x81)) in
  let old := [true; false; false; false; false; false; false; true] in
  let self1 := snd (DenkoviRelayBoard8Ch.get_all_states self) in
  Forall (in_range denkovi_8ch) [2; 5] /\
  DenkoviRelayBoard8Ch.get_all_states self = (Ok old, self1) /\
  exists merged frame,
    length merged = length old /\
    (forall i : nat, (i < length old)%nat ->
       merged !! i
       = if bool_decide (Z.of_nat i + 1 ∈ [2; 5]) then Some true else old !! i) /\
    carries denkovi_8ch frame merged /\
    DenkoviRelayBoard8Ch.set_state true [2; 5] self
    = on_backend (IBackend.write frame) self1.
Proof.
  intros self old self1.
  assert (Forall (in_range denkovi_8ch) [2; 5]) as Hall
    by (repeat constructor; vm_compute; discriminate).
  assert (DenkoviRelayBoard8Ch.get_all_states self = (Ok old, self1)) as Hget
    by reflexivity.
  split; [exact Hall|]. split; [exact Hget|].
  exact (set_state_merges FTD2XXBackend.class denkovi_8ch true [2; 5] self Hall
           old self1 Hget).
Defined.

Example set_state_on_the_bench :
  let self :=
    Board true ([], (Bench.opened_ftd2xx, Bench.fresh (Bench.driving 0x81))) in
  let set :=
    DenkoviRelayBoard8Ch.set_state (B := Recording FTD2XXBackend.class)
      true [2; 5] self in
  fst set = Ok tt /\
  calls (snd set) = [Cget_bit_mode; Cwrite [0x93]] /\
  Bench.pins (ext (snd (snd (store (snd set))))) = 0x93.
Proof. vm_compute. repeat split. Qed.

(** * Further properties *)

(** ** The 16-channel frame, written and read back *)

(** The sixteen states are read back from the two bytes that carry
    them. *)
Lemma decode_16 (byte1 byte2 : Z) (v : list bool) :
  length v = 16%nat ->
  carries denkovi_16ch (b "x" ++ [byte1; byte2] ++ b "//") v ->
  List.map (fun bit => negb (Z.land byte1 (Z.shiftl 1 bit) =? 0)) (range_down 7 (-1))
  ++ List.map (fun bit => negb (Z.land byte2 (Z.shiftl 1 bit) =? 0)) (range_down 7 (-1))
  = v.
Proof.
  intros Hlen (c1 & c2 & Hframe & _ & _ & Hbits).
  injection Hframe as <- <-.
  assert (forall i, 0 <= i < 8 ->
            v !! Z.to_nat i = Some (bit_set byte1 (7 - i)) /\
            v !! Z.to_nat (8 + i) = Some (bit_set byte2 (7 - i))) as Hset.
  { intros i Hi. rewrite !bit_set_testbit by lia. apply Hbits, Hi. }
  clear Hbits. explode v Hlen.
  destruct (Hset 0 ltac:(lia)) as [A0 B0]. destruct (Hset 1 ltac:(lia)) as [A1 B1].
  destruct (Hset 2 ltac:(lia)) as [A2 B2]. destruct (Hset 3 ltac:(lia)) as [A3 B3].
  destruct (Hset 4 ltac:(lia)) as [A4 B4]. destruct (Hset 5 ltac:(lia)) as [A5 B5].
  destruct (Hset 6 ltac:(lia)) as [A6 B6]. destruct (Hset 7 ltac:(lia)) as [A7 B7].
  clear Hset.
  injection A0 as ->. injection A1 as ->. injection A2 as ->. injection A3 as ->.
  injection A4 as ->. injection A5 as ->. injection A6 as ->. injection A7 as ->.
  injection B0 as ->. injection B1 as ->. injection B2 as ->. injection B3 as ->.
  injection B4 as ->. injection B5 as ->. injection B6 as ->. injection B7 as ->.
  reflexivity.
Qed.

(** X1.  The frame [_set_multiple_states] writes for sixteen states is
    [x], two bytes and [//]; when the board answers a query with these
    two bytes, [get_all_states] returns the sixteen states that were
    written. *)
Theorem multiple_states_round_trip_16ch {S : Type} (B : IBackend.t S)
    (states : list bool) :
  length states = 16%nat ->
  exists byte1 byte2,
    is_byte byte1 = true /\ is_byte byte2 = true /\
    (forall s : S,
       DenkoviRelayBoard16Ch._set_multiple_states states (Board true s)
       = (on_backend (IBackend.write (b "x" ++ [byte1; byte2] ++ b "//")) ;;
          _ <- on_backend (IBackend.read (Some 5)) ;;
          ret tt) (Board true s)) /\
    (forall (s s1 s2 s3 : S) (stale : bytes),
       IBackend.read None s = (Ok stale, s1) ->
       IBackend.write (b "ask//") s1 = (Ok tt, s2) ->
       IBackend.read (Some 2) s2 = (Ok [byte1; byte2], s3) ->
       DenkoviRelayBoard16Ch.get_all_states (Board true s)
       = (Ok states, Board true s3)).
Proof.
  intros Hlen.
  destruct (encode_16 states Hlen) as (byte1 & byte2 & H1 & H2 & Hbytes & Hcarries).
  exists byte1, byte2.
  pose proof Hcarries as (c1 & c2 & Hframe & Hb1 & Hb2 & _).
  injection Hframe as <- <-.
  split; [exact Hb1|]. split; [exact Hb2|]. split.
  - intros s. unfold DenkoviRelayBoard16Ch._set_multiple_states. step.
    unfold len. rewrite Hlen. change (negb (Z.of_nat 16 =? 16)) with false. cbv iota.
    rewrite H1. step. rewrite H2. step. rewrite Hbytes. step.
    reflexivity.
  - intros s s1 s2 s3 stale Hstale Hask Hdat.
    unfold DenkoviRelayBoard16Ch.get_all_states.
    step. call Hstale. call Hask. call Hdat.
    change (negb (len [byte1; byte2] =? 2)) with false. cbv iota.
    step. step. unfold ret.
    rewrite (decode_16 byte1 byte2 states Hlen Hcarries). reflexivity.
Qed.

(** The round trip on the bench: the states written to a 16-channel
    board are the states a board that echoes the frame's two bytes
    reports. *)
Lemma multiple_states_round_trip_16ch_witness :
  let states := [true; false; false; false; false; false; false; false;
                 false; false; false; false; false; false; false; true] in
  length states = 16%nat /\
  exists byte1 byte2,
    is_byte byte1 = true /\ is_byte byte2 = true /\
    (forall s : VCPBackend.t * world Bench.t,
       DenkoviRelayBoard16Ch._set_multiple_states states (Board true s)
       = (on_backend (IBackend.write (b "x" ++ [byte1; byte2] ++ b "//")) ;;
          _ <- on_backend (IBackend.read (Some 5)) ;;
          ret tt) (Board true s)) /\
    (forall (s s1 s2 s3 : VCPBackend.t * world Bench.t) (stale : bytes),
       IBackend.read None s = (Ok stale, s1) ->
       IBackend.write (b "ask//") s1 = (Ok tt, s2) ->
       IBackend.read (Some 2) s2 = (Ok [byte1; byte2], s3) ->
       DenkoviRelayBoard16Ch.get_all_states (Board true s)
       = (Ok states, Board true s3)).
Proof.
  split; [reflexivity|].
  apply (multiple_states_round_trip_16ch VCPBackend.class). reflexivity.
Defined.

(** ** Clearing and setting in one command *)

Lemma all_false_lookup (n : Z) (i : nat) :
  (i < Z.to_nat n)%nat ->
  List.map (fun _ : Z => false) (range n) !! i = Some false.
Proof.
  intros Hi. change (((fun _ : Z => false) <$> range n) !! i = Some false).
  rewrite list_lookup_fmap. unfold range.
  rewrite (lookup_seqZ_lt 0 n i) by lia. reflexivity.
Qed.

(** The vector [set_clear_state(True, addr)] builds from an all-off
    vector of [n] channels. *)
Lemma clear_then_set (n : Z) (addr : list Z) :
  0 <= n ->
  Forall (fun a => 1 <= a <= n) addr ->
  exists target,
    assign_each (List.map (fun _ : Z => false) (range n)) (elements (py_set addr)) true
    = Ok target /\
    length target = Z.to_nat n /\
    forall i : nat, (i < Z.to_nat n)%nat ->
      target !! i = Some (bool_decide (Z.of_nat i + 1 ∈ addr)).
Proof.
  intros Hn Hall.
  assert (length (List.map (fun _ : Z => false) (range n)) = Z.to_nat n) as Hlen0.
  { rewrite length_map. unfold range. apply length_seqZ. }
  destruct (merge_spec n addr true (List.map (fun _ : Z => false) (range n)) Hall)
    as (target & Hrun & Hlen & Hget); [unfold len; lia|].
  exists target. split; [exact Hrun|]. split; [congruence|].
  intros i Hi. rewrite Hget by lia. rewrite all_false_lookup by exact Hi.
  destruct (bool_decide (Z.of_nat i + 1 ∈ addr)); reflexivity.
Qed.

(** X2.  [set_clear_state(True, addr)] with addresses the board accepts
    does not read the state of the relays: it writes one frame, which
    carries the listed channels on and every other channel off, and on
    the 16-channel board reads the acknowledgement. *)
Theorem set_clear_state_on {S : Type} (B : IBackend.t S)
    (board_type : PossibleRelayBoardT) (addr : list Z) (s : S) :
  Forall (in_range board_type) addr ->
  exists target frame,
    length target = width board_type /\
    (forall i : nat, (i < width board_type)%nat ->
       target !! i = Some (bool_decide (Z.of_nat i + 1 ∈ addr))) /\
    carries board_type frame target /\
    IDenkoviRelayBoard.set_clear_state (BOARD_REGISTRY board_type) true addr (Board true s)
    = match board_type with
      | denkovi_16ch =>
          (on_backend (IBackend.write frame) ;;
           _ <- on_backend (IBackend.read (Some 5)) ;;
           ret tt) (Board true s)
      | _ => on_backend (IBackend.write frame) (Board true s)
      end.
Proof.
  intros Hall. destruct board_type; simpl.
  - change (Forall (fun a => 1 <= a <= 16) addr) in Hall.
    pose proof (proj2 (check_passes 16 addr) Hall) as Hcheck.
    destruct (clear_then_set 16 addr) as (target & Hrun & Hlen & Hget); [lia|exact Hall|].
    change (Z.to_nat 16) with 16%nat in Hlen, Hget.
    destruct (encode_16 target Hlen) as (byte1 & byte2 & H1 & H2 & Hbytes & Hcarries).
    exists target, (b "x" ++ [byte1; byte2] ++ b "//").
    split; [exact Hlen|]. split; [exact Hget|]. split; [exact Hcarries|].
    unfold DenkoviRelayBoard16Ch.set_clear_state. step.
    unfold DenkoviRelayBoard16Ch._integrity_check. rewrite Hcheck. step.
    cbv [negb]. rewrite Hrun. step.
    unfold DenkoviRelayBoard16Ch._set_multiple_states. step.
    unfold len. rewrite Hlen. change (negb (Z.of_nat 16 =? 16)) with false. cbv iota.
    rewrite H1. step. rewrite H2. step. rewrite Hbytes. step.
    reflexivity.
  - change (Forall (fun a => 1 <= a <= 8) addr) in Hall.
    pose proof (proj2 (check_passes 8 addr) Hall) as Hcheck.
    destruct (clear_then_set 8 addr) as (target & Hrun & Hlen & Hget); [lia|exact Hall|].
    change (Z.to_nat 8) with 8%nat in Hlen, Hget.
    destruct (encode_8 target Hlen) as (byte & H1 & Hbytes & Hcarries).
    exists target, [byte].
    split; [exact Hlen|]. split; [exact Hget|]. split; [exact Hcarries|].
    unfold DenkoviRelayBoard8Ch.set_clear_state. step.
    unfold DenkoviRelayBoard8Ch.__integrity_check. rewrite Hcheck. step.
    cbv [negb]. rewrite Hrun. step. rewrite H1. step. rewrite Hbytes. step.
    reflexivity.
  - change (Forall (fun a => 1 <= a <= 4) addr) in Hall.
    pose proof (proj2 (check_passes 4 addr) Hall) as Hcheck.
    assert (Forall (fun a => 1 <= a <= 8) addr) as Hall8.
    { eapply Forall_impl; [exact Hall|]. simpl. intros. lia. }
    destruct (clear_then_set 8 addr) as (target & Hrun & Hlen & Hget); [lia|exact Hall8|].
    change (Z.to_nat 8) with 8%nat in Hlen, Hget.
    destruct (encode_8 target Hlen) as (byte & H1 & Hbytes & Hcarries).
    exists target, [byte].
    split; [exact Hlen|]. split; [exact Hget|]. split; [exact Hcarries|].
    unfold DenkoviRelayBoard4ChFT422.set_clear_state.
    unfold DenkoviRelayBoard4ChFT422.__integrity_check. rewrite Hcheck. step.
    cbv [negb]. rewrite Hrun. step. rewrite H1. step. rewrite Hbytes. step.
    reflexivity.
  - change (Forall (fun a => 1 <= a <= 4) addr) in Hall.
    pose proof (proj2 (check_passes 4 addr) Hall) as Hcheck.
    destruct (encode_4 (List.map (fun i => bool_decide (i + 1 ∈ py_set addr)) (range 4)))
      as (frame & H1 & Hcarries); [reflexivity|].
    exists (List.map (fun i => bool_decide (i + 1 ∈ py_set addr)) (range 4)), frame.
    split; [reflexivity|]. split.
    { intros i Hi.
      change (((fun i => bool_decide (i + 1 ∈ py_set addr)) <$> range 4) !! i
              = Some (bool_decide (Z.of_nat i + 1 ∈ addr))).
      rewrite list_lookup_fmap. unfold range.
      rewrite (lookup_seqZ_lt 0 4 i) by lia. simpl. f_equal.
      apply bool_decide_ext. unfold py_set. rewrite elem_of_list_to_set.
      replace (0 + Z.of_nat i + 1) with (Z.of_nat i + 1) by lia. reflexivity. }
    split; [exact Hcarries|].
    unfold DenkoviRelayBoard4ChMCP2200.set_clear_state. step.
    unfold DenkoviRelayBoard4ChMCP2200.__integrity_check. rewrite Hcheck. step.
    cbv [negb]. rewrite H1. step.
    reflexivity.
Qed.

(** Channels 2 and 5 of the 8-channel board, on the bench: the one
    frame written is [0b00010010]. *)
Lemma set_clear_state_on_witness :
  Forall (in_range denkovi_8ch) [2; 5] /\
  exists target frame,
    length target = 8%nat /\
    (forall i : nat, (i < 8)%nat ->
       target !! i = Some (bool_decide (Z.of_nat i + 1 ∈ [2; 5]))) /\
    carries denkovi_8ch frame target /\
    DenkoviRelayBoard8Ch.set_clear_state true [2; 5]
      (Board true (Bench.opened_ftd2xx, Bench.fresh Bench.idle))
    = on_backend (IBackend.write frame)
        (Board true (Bench.opened_ftd2xx, Bench.fresh Bench.idle)).
Proof.
  assert (Forall (in_range denkovi_8ch) [2; 5]) as Hall.
  { repeat constructor; vm_compute; discriminate. }
  split; [exact Hall|].
  exact (set_clear_state_on FTD2XXBackend.class denkovi_8ch [2; 5]
           (Bench.opened_ftd2xx, Bench.fresh Bench.idle) Hall).
Defined.

(** ** The single-relay command *)

Lemma two_digits (a : Z) :
  1 <= a <= 16 -> b (zfill 2 (str a)) = [48 + a / 10; 48 + a mod 10].
Proof.
  intros Ha.
  assert (a = 1 \/ a = 2 \/ a = 3 \/ a = 4 \/ a = 5 \/ a = 6 \/ a = 7 \/ a = 8 \/
          a = 9 \/ a = 10 \/ a = 11 \/ a = 12 \/ a = 13 \/ a = 14 \/ a = 15 \/ a = 16)
    as Hcases by lia.
  repeat (destruct Hcases as [->|Hcases]; [reflexivity|]).
  subst a. reflexivity.
Qed.

(** X3.  [_set_single_state] of the 16-channel board, for an address in
    [1, 16], writes five bytes: the two decimal digits of the address,
    [+] to switch on or [-] to switch off, and [//]; then it reads the
    5-byte acknowledgement.  For any other address it raises the overflow
    exception and calls nothing. *)
Theorem set_single_state_16ch {S : Type} (B : IBackend.t S)
    (logic : bool) (addr : Z) (s : S) :
  DenkoviRelayBoard16Ch._set_single_state logic addr (Board true s)
  = if decide (1 <= addr <= 16) then
      (on_backend (IBackend.write [48 + addr / 10; 48 + addr mod 10;
                                   if logic then 43 else 45; 47; 47]) ;;
       _ <- on_backend (IBackend.read (Some 5)) ;;
       ret tt) (Board true s)
    else (Raise (DenkoviRelayBoardStateOverflowException 16), Board true s).
Proof.
  unfold DenkoviRelayBoard16Ch._set_single_state. step.
  unfold DenkoviRelayBoard16Ch._integrity_check. rewrite singleton_check.
  destruct (decide (1 <= addr <= 16)) as [Hin|Hout].
  - replace ((1 <=? addr) && (addr <=? 16)) with true
      by (symmetry; apply andb_true_iff; split; apply Z.leb_le; lia).
    step. rewrite (two_digits addr Hin). destruct logic; reflexivity.
  - replace ((1 <=? addr) && (addr <=? 16)) with false; [reflexivity|].
    symmetry. apply andb_false_iff.
    destruct (Z.leb_spec 1 addr); [right; apply Z.leb_gt; lia|left; reflexivity].
Qed.

(** ** One state and all states *)

Lemma getitem_in_range {A : Type} (l : list A) (i : Z) :
  0 <= i < len l ->
  exists x, l !! Z.to_nat i = Some x /\ getitem l i = Ok x.
Proof.
  intros Hi. unfold len in Hi.
  destruct (lookup_lt_is_Some_2 l (Z.to_nat i)) as [x Hx]; [lia|].
  exists x. split; [exact Hx|]. unfold getitem.
  replace (i <? 0) with false by (symmetry; apply Z.ltb_ge; lia).
  replace (i <? 0) with false by (symmetry; apply Z.ltb_ge; lia).
  rewrite Hx. reflexivity.
Qed.

Lemma pins_lookup (pins a : Z) :
  1 <= a <= 8 ->
  List.map (fun i => bit_set pins i) (range 8) !! Z.to_nat (a - 1)
  = Some (negb (Z.land pins (Z.shiftl 1 (a - 1)) =? 0)).
Proof.
  intros Ha.
  change (((fun i => bit_set pins i) <$> range 8) !! Z.to_nat (a - 1)
          = Some (bit_set pins (a - 1))).
  rewrite list_lookup_fmap. unfold range.
  rewrite (lookup_seqZ_lt 0 8 (Z.to_nat (a - 1))) by lia. simpl.
  replace (0 + Z.of_nat (Z.to_nat (a - 1))) with (a - 1) by lia. reflexivity.
Qed.

(** What [get_all_states] of the bit-bang boards returned, read
    backwards. *)
Lemma get_all_states_bitbang_inv {S : Type} (B : IBackend.t S)
    (board_type : PossibleRelayBoardT) (self self1 : board S) (v : list bool) :
  board_type = denkovi_8ch \/ board_type = denkovi_4ch_ftd2xx ->
  IDenkoviRelayBoard.get_all_states (BOARD_REGISTRY board_type) self = (Ok v, self1) ->
  exists pins s1,
    backend self = true /\
    IBackend.get_bit_mode (store self) = (Ok pins, s1) /\
    self1 = Board true s1 /\
    v = List.map (fun i => bit_set pins i) (range 8).
Proof.
  intros Hboard Hget.
  destruct (get_all_states_width B board_type self self1 v Hget) as (_ & Hbound & _).
  destruct self as [bound s]. simpl in Hbound. subst bound. simpl.
  destruct (IBackend.get_bit_mode s) as [[pins|e] s1] eqn:Hpins.
  - exists pins, s1. split; [reflexivity|]. split; [reflexivity|].
    destruct Hboard as [-> | ->]; simpl in Hget.
    + unfold DenkoviRelayBoard8Ch.get_all_states in Hget.
      rewrite (bind_ok _ _ _ _ _ (require_backend_bound s)) in Hget.
      rewrite (bind_ok _ _ _ _ _ (on_backend_run _ _ _ _ Hpins)) in Hget.
      unfold ret in Hget. injection Hget as <- <-. split; reflexivity.
    + unfold DenkoviRelayBoard4ChFT422.get_all_states in Hget.
      rewrite (bind_ok _ _ _ _ _ (on_backend_run _ _ _ _ Hpins)) in Hget.
      unfold ret in Hget. injection Hget as <- <-. split; reflexivity.
  - exfalso. destruct Hboard as [-> | ->]; simpl in Hget.
    + unfold DenkoviRelayBoard8Ch.get_all_states in Hget.
      rewrite (bind_ok _ _ _ _ _ (require_backend_bound s)) in Hget.
      unfold bind in Hget. rewrite (on_backend_run _ _ _ _ Hpins) in Hget.
      discriminate Hget.
    + unfold DenkoviRelayBoard4ChFT422.get_all_states in Hget.
      unfold bind in Hget. rewrite (on_backend_run _ _ _ _ Hpins) in Hget.
      discriminate Hget.
Qed.

(** X4.  On every board, for an address the board accepts,
    [get_state(addr)] returns entry [addr - 1] of what
    [get_all_states()] returns, and leaves the board and its backend in
    the same state. *)
Theorem get_state_is_entry {S : Type} (B : IBackend.t S)
    (board_type : PossibleRelayBoardT) (addr : Z) (self self1 : board S)
    (v : list bool) :
  in_range board_type addr ->
  IDenkoviRelayBoard.get_all_states (BOARD_REGISTRY board_type) self = (Ok v, self1) ->
  exists x,
    v !! Z.to_nat (addr - 1) = Some x /\
    IDenkoviRelayBoard.get_state (BOARD_REGISTRY board_type) addr self = (Ok x, self1).
Proof.
  intros Hin Hget.
  destruct (get_all_states_width B board_type self self1 v Hget)
    as (Hwidth & Hbound & Hbound1).
  destruct board_type.
  - change (1 <= addr <= 16) in Hin. simpl in Hwidth, Hget |- *.
    destruct self as [bound s]. simpl in Hbound. subst bound.
    destruct (getitem_in_range v (addr - 1)) as (x & Hx & Hitem); [unfold len; lia|].
    exists x. split; [exact Hx|].
    unfold DenkoviRelayBoard16Ch.get_state. step.
    unfold DenkoviRelayBoard16Ch._integrity_check. rewrite singleton_check.
    replace ((1 <=? addr) && (addr <=? 16)) with true
      by (symmetry; apply andb_true_iff; split; apply Z.leb_le; lia).
    step. step_with ltac:(exact Hget). rewrite Hitem. reflexivity.
  - change (1 <= addr <= 8) in Hin.
    destruct (get_all_states_bitbang_inv B denkovi_8ch self self1 v (or_introl eq_refl) Hget)
      as (pins & s1 & _ & Hpins & -> & ->).
    destruct self as [bound s]. simpl in Hbound, Hpins. subst bound.
    eexists. split; [apply pins_lookup; lia|]. simpl.
    unfold DenkoviRelayBoard8Ch.get_state. step.
    unfold DenkoviRelayBoard8Ch.__integrity_check. rewrite singleton_check.
    replace ((1 <=? addr) && (addr <=? 8)) with true
      by (symmetry; apply andb_true_iff; split; apply Z.leb_le; lia).
    step. call Hpins. unfold shl.
    replace (addr - 1 <? 0) with false by (symmetry; apply Z.ltb_ge; lia).
    step. reflexivity.
  - change (1 <= addr <= 4) in Hin.
    destruct (get_all_states_bitbang_inv B denkovi_4ch_ftd2xx self self1 v
                (or_intror eq_refl) Hget)
      as (pins & s1 & _ & Hpins & -> & ->).
    destruct self as [bound s]. simpl in Hbound, Hpins. subst bound.
    eexists. split; [apply pins_lookup; lia|]. simpl.
    unfold DenkoviRelayBoard4ChFT422.get_state. call Hpins. unfold shl.
    replace (addr - 1 <? 0) with false by (symmetry; apply Z.ltb_ge; lia).
    step. reflexivity.
  - change (1 <= addr <= 4) in Hin. simpl in Hwidth, Hget |- *.
    destruct self as [bound s]. simpl in Hbound. subst bound.
    destruct (getitem_in_range v (addr - 1)) as (x & Hx & Hitem); [unfold len; lia|].
    exists x. split; [exact Hx|].
    unfold DenkoviRelayBoard4ChMCP2200.get_state. step.
    step_with ltac:(exact Hget). rewrite Hitem. reflexivity.
Qed.

(** Channel 8 of the 8-channel board on the bench, the pins at
    [0b10000001]. *)
Lemma get_state_is_entry_witness :
  let self := Board true (Bench.opened_ftd2xx, Bench.fresh (Bench.driving 0x81)) in
  let v := [true; false; false; false; false; false; false; true] in
  let self1 := snd (DenkoviRelayBoard8Ch.get_all_states self) in
  in_range denkovi_8ch 8 /\
  DenkoviRelayBoard8Ch.get_all_states self = (Ok v, self1) /\
  exists x,
    v !! Z.to_nat (8 - 1) = Some x /\
    DenkoviRelayBoard8Ch.get_state 8 self = (Ok x, self1).
Proof.
  intros self v self1.
  assert (in_range denkovi_8ch 8) as Hin by (vm_compute; split; discriminate).
  assert (DenkoviRelayBoard8Ch.get_all_states self = (Ok v, self1)) as Hget
    by reflexivity.
  split; [exact Hin|]. split; [exact Hget|].
  exact (get_state_is_entry FTD2XXBackend.class denkovi_8ch 8 self self1 v Hin Hget).
Defined.

(** ** Writing the pins and reading them back *)

(** X5.  On the two bit-bang boards, [set_state(logic, addr)] with
    addresses the board accepts reads the pins and writes one byte: bit
    [i] of the byte is [logic] when channel [i + 1] is listed and the bit
    of the pins that were read otherwise.  When the chip then reports the
    byte it was sent, [get_state(a)] returns [logic] for a listed
    channel and the earlier state for any other of the eight pins. *)
Theorem set_then_get_bitbang {S : Type} (B : IBackend.t S)
    (board_type : PossibleRelayBoardT) (logic : bool) (addr : list Z) (a : Z)
    (pins : Z) (s s1 : S) :
  board_type = denkovi_8ch \/ board_type = denkovi_4ch_ftd2xx ->
  Forall (in_range board_type) addr ->
  1 <= a <= 8 ->
  IBackend.get_bit_mode s = (Ok pins, s1) ->
  exists byte,
    is_byte byte = true /\
    (forall i, 0 <= i < 8 ->
       Z.testbit byte i
       = if bool_decide (i + 1 ∈ addr) then logic else Z.testbit pins i) /\
    forall s2 s3 : S,
      IBackend.write [byte] s1 = (Ok tt, s2) ->
      IBackend.get_bit_mode s2 = (Ok byte, s3) ->
      (IDenkoviRelayBoard.set_state (BOARD_REGISTRY board_type) logic addr ;;
       IDenkoviRelayBoard.get_state (BOARD_REGISTRY board_type) a) (Board true s)
      = (Ok (if bool_decide (a ∈ addr) then logic else Z.testbit pins (a - 1)),
         Board true s3).
Proof.
  intros Hboard Hall Ha Hpins.
  set (old := List.map (fun i => bit_set pins i) (range 8)).
  assert (length old = 8%nat) as Hold by reflexivity.
  assert (Forall (fun x => 1 <= x <= 8) addr) as Hall8.
  { destruct Hboard as [-> | ->]; [exact Hall|].
    eapply Forall_impl; [exact Hall|].
    intros x Hx. change (1 <= x <= 4) in Hx. lia. }
  destruct (merge_spec 8 addr logic old Hall8) as (merged & Hrun & Hlen & Hmerged);
    [unfold len; lia|].
  destruct (encode_8 merged) as (byte & H1 & Hbytes & Hcarries); [congruence|].
  exists byte.
  destruct Hcarries as (byte' & Hframe & Hbyte & Hbits). injection Hframe as <-.
  assert (forall i, 0 <= i < 8 ->
            Z.testbit byte i
            = if bool_decide (i + 1 ∈ addr) then logic else Z.testbit pins i) as Hbit.
  { intros i Hi. specialize (Hbits i Hi).
    rewrite Hmerged in Hbits by lia.
    replace (Z.of_nat (Z.to_nat i)) with i in Hbits by lia.
    destruct (bool_decide (i + 1 ∈ addr)); [congruence|].
    unfold old in Hbits.
    replace (Z.to_nat i) with (Z.to_nat ((i + 1) - 1)) in Hbits by lia.
    rewrite (pins_lookup pins (i + 1)) in Hbits by lia.
    replace (i + 1 - 1) with i in Hbits by lia.
    fold (bit_set pins i) in Hbits. rewrite bit_set_testbit in Hbits by lia.
    congruence. }
  split; [exact Hbyte|]. split; [exact Hbit|].
  intros s2 s3 Hwrite Hback.
  assert (IDenkoviRelayBoard.get_all_states (BOARD_REGISTRY board_type) (Board true s)
          = (Ok old, Board true s1)) as Hget.
  { destruct Hboard as [-> | ->]; simpl.
    - unfold DenkoviRelayBoard8Ch.get_all_states. step. call Hpins. reflexivity.
    - unfold DenkoviRelayBoard4ChFT422.get_all_states. call Hpins. reflexivity. }
  assert (IDenkoviRelayBoard.set_state (BOARD_REGISTRY board_type) logic addr (Board true s)
          = (Ok tt, Board true s2)) as Hset.
  { destruct Hboard as [-> | ->]; simpl in Hget |- *.
    - pose proof (proj2 (check_passes 8 addr) Hall8) as Hcheck.
      unfold DenkoviRelayBoard8Ch.set_state. step.
      unfold DenkoviRelayBoard8Ch.__integrity_check. rewrite Hcheck. step.
      step_with ltac:(exact Hget).
      rewrite Hrun. step. rewrite H1. step. rewrite Hbytes. step.
      apply on_backend_run, Hwrite.
    - change (Forall (fun x => 1 <= x <= 4) addr) in Hall.
      pose proof (proj2 (check_passes 4 addr) Hall) as Hcheck.
      unfold DenkoviRelayBoard4ChFT422.set_state.
      unfold DenkoviRelayBoard4ChFT422.__integrity_check. rewrite Hcheck. step.
      step_with ltac:(exact Hget).
      rewrite Hrun. step. rewrite H1. step. rewrite Hbytes. step.
      apply on_backend_run, Hwrite. }
  rewrite (bind_ok _ _ _ _ _ Hset).
  assert (negb (Z.land byte (Z.shiftl 1 (a - 1)) =? 0)
          = if bool_decide (a ∈ addr) then logic else Z.testbit pins (a - 1)) as Hread.
  { fold (bit_set byte (a - 1)). rewrite bit_set_testbit by lia.
    rewrite Hbit by lia. replace (a - 1 + 1) with a by lia. reflexivity. }
  destruct Hboard as [-> | ->]; simpl.
  - unfold DenkoviRelayBoard8Ch.get_state. step.
    unfold DenkoviRelayBoard8Ch.__integrity_check. rewrite singleton_check.
    replace ((1 <=? a) && (a <=? 8)) with true
      by (symmetry; apply andb_true_iff; split; apply Z.leb_le; lia).
    step. call Hback. unfold shl.
    replace (a - 1 <? 0) with false by (symmetry; apply Z.ltb_ge; lia).
    step. unfold ret. rewrite Hread. reflexivity.
  - unfold DenkoviRelayBoard4ChFT422.get_state. call Hback. unfold shl.
    replace (a - 1 <? 0) with false by (symmetry; apply Z.ltb_ge; lia).
    step. unfold ret. rewrite Hread. reflexivity.
Qed.

(** The 8-channel board on the bench, the pins at [0b10000001]:
    channels 2 and 5 are switched on, channel 5 then reads on. *)
Lemma set_then_get_bitbang_witness :
  let s := (Bench.opened_ftd2xx, Bench.fresh (Bench.driving 0x81)) in
  let s1 := snd (FTD2XXBackend.get_bit_mode s) in
  (denkovi_8ch = denkovi_8ch \/ denkovi_8ch = denkovi_4ch_ftd2xx) /\
  Forall (in_range denkovi_8ch) [2; 5] /\
  1 <= 5 <= 8 /\
  FTD2XXBackend.get_bit_mode s = (Ok 0x81, s1) /\
  exists byte,
    is_byte byte = true /\
    (forall i, 0 <= i < 8 ->
       Z.testbit byte i
       = if bool_decide (i + 1 ∈ [2; 5]) then true else Z.testbit 0x81 i) /\
    forall s2 s3,
      FTD2XXBackend.write [byte] s1 = (Ok tt, s2) ->
      FTD2XXBackend.get_bit_mode s2 = (Ok byte, s3) ->
      (DenkoviRelayBoard8Ch.set_state true [2; 5] ;;
       DenkoviRelayBoard8Ch.get_state 5) (Board true s)
      = (Ok (if bool_decide (5 ∈ [2; 5]) then true else Z.testbit 0x81 (5 - 1)),
         Board true s3).
Proof.
  intros s s1.
  assert (Forall (in_range denkovi_8ch) [2; 5]) as Hall
    by (repeat constructor; vm_compute; discriminate).
  assert (1 <= 5 <= 8) as Ha by lia.
  assert (FTD2XXBackend.get_bit_mode s = (Ok 0x81, s1)) as Hpins by reflexivity.
  split; [left; reflexivity|]. split; [exact Hall|]. split; [exact Ha|].
  split; [exact Hpins|].
  exact (set_then_get_bitbang FTD2XXBackend.class denkovi_8ch true [2; 5] 5 0x81 s s1
           (or_introl eq_refl) Hall Ha Hpins).
Defined.

(** ** A board that was closed *)

(** X6.  Once [close] has returned on a 16-channel, 8-channel or HID
    4-channel board, the board no longer holds its backend, and every
    operation raises [RuntimeError("Backend is not open")] without
    calling the backend: the board and the backend are left as [close]
    left them. *)
Theorem closed_board_refuses {S : Type} (B : IBackend.t S)
    (board_type : PossibleRelayBoardT) (s s' : S) :
  board_type <> denkovi_4ch_ftd2xx ->
  IBackend.close s = (Ok tt, s') ->
  let clazz := BOARD_REGISTRY board_type in
  let closed := Board false s' in
  IDenkoviRelayBoard.close clazz (Board true s) = (Ok tt, closed) /\
  IDenkoviRelayBoard.get_serial_number clazz closed
  = (Raise (RuntimeError "Backend is not open"), closed) /\
  IDenkoviRelayBoard.set_all_states_on clazz closed
  = (Raise (RuntimeError "Backend is not open"), closed) /\
  IDenkoviRelayBoard.set_all_states_off clazz closed
  = (Raise (RuntimeError "Backend is not open"), closed) /\
  IDenkoviRelayBoard.get_all_states clazz closed
  = (Raise (RuntimeError "Backend is not open"), closed) /\
  (forall addr,
     IDenkoviRelayBoard.get_state clazz addr closed
     = (Raise (RuntimeError "Backend is not open"), closed)) /\
  (forall logic addr,
     IDenkoviRelayBoard.set_state clazz logic addr closed
     = (Raise (RuntimeError "Backend is not open"), closed)) /\
  (forall logic addr,
     IDenkoviRelayBoard.set_clear_state clazz logic addr closed
     = (Raise (RuntimeError "Backend is not open"), closed)).
Proof.
  intros Hboard Hclose clazz closed.
  split.
  { subst clazz closed. destruct board_type; try congruence; simpl.
    - unfold DenkoviRelayBoard16Ch.close, bind, get. simpl.
      rewrite (on_backend_run _ _ _ _ Hclose). reflexivity.
    - unfold DenkoviRelayBoard8Ch.close, bind, get. simpl.
      rewrite (on_backend_run _ _ _ _ Hclose). reflexivity.
    - unfold DenkoviRelayBoard4ChMCP2200.close, bind, get. simpl.
      rewrite (on_backend_run _ _ _ _ Hclose). reflexivity. }
  subst clazz closed.
  destruct board_type; try congruence; repeat split; intros; reflexivity.
Qed.

(** The 16-channel board over the serial-port backend, on the bench. *)
Lemma closed_board_refuses_witness :
  let s := (Bench.opened_vcp, Bench.fresh Bench.idle) in
  let s' := snd (VCPBackend.close s) in
  denkovi_16ch <> denkovi_4ch_ftd2xx /\
  VCPBackend.close s = (Ok tt, s') /\
  DenkoviRelayBoard16Ch.close (Board true s) = (Ok tt, Board false s') /\
  forall logic addr,
    DenkoviRelayBoard16Ch.set_state logic addr (Board false s')
    = (Raise (RuntimeError "Backend is not open"), Board false s').
Proof.
  intros s s'.
  assert (denkovi_16ch <> denkovi_4ch_ftd2xx) as Hboard by discriminate.
  assert (VCPBackend.close s = (Ok tt, s')) as Hclose by reflexivity.
  split; [exact Hboard|]. split; [exact Hclose|].
  destruct (closed_board_refuses VCPBackend.class denkovi_16ch s s' Hboard Hclose)
    as (H1 & _ & _ & _ & _ & _ & H7 & _).
  split; [exact H1|exact H7].
Defined.

(** ** A backend that holds no device *)

(** X7.  A backend object that holds no device refuses to transfer
    without a call across the native boundary: the vendor-library
    backend fails the wrapper's assertion on its handle, the serial-port
    and the HID backends raise [RuntimeError("Device is not open")]; all
    three report that they are not open. *)
Theorem closed_backend_refuses {E : Type} `{!Native E}
    (f : FTD2XXBackend.t) (v : VCPBackend.t) (m : MCP2200Backend.t)
    (w : world E) (data : bytes) (size : option Z) (mask mode : Z) :
  let f0 := FTD2XXBackend.set_wrapper PyFTD2XXWrapper.__init__ f in
  let v0 := VCPBackend.set_serial_ false v in
  let m0 := MCP2200Backend.set_hid_device false m in
  (FTD2XXBackend.write data (f0, w) = (Raise AssertionError, (f0, w)) /\
   FTD2XXBackend.read size (f0, w) = (Raise AssertionError, (f0, w)) /\
   FTD2XXBackend.set_bit_mode mask mode (f0, w) = (Raise AssertionError, (f0, w)) /\
   FTD2XXBackend.get_bit_mode (f0, w) = (Raise AssertionError, (f0, w)) /\
   FTD2XXBackend.is_open (f0, w) = (Ok false, (f0, w))) /\
  (VCPBackend.write data (v0, w) = (Raise (RuntimeError "Device is not open"), (v0, w)) /\
   VCPBackend.read size (v0, w) = (Raise (RuntimeError "Device is not open"), (v0, w)) /\
   VCPBackend.is_open (v0, w) = (Ok false, (v0, w))) /\
  (MCP2200Backend.write data (m0, w)
   = (Raise (RuntimeError "Device is not open"), (m0, w)) /\
   MCP2200Backend.read size (m0, w)
   = (Raise (RuntimeError "Device is not open"), (m0, w)) /\
   MCP2200Backend.get_serial_number (m0, w)
   = (Raise (RuntimeError "Device is not open"), (m0, w)) /\
   MCP2200Backend.is_open (m0, w) = (Ok false, (m0, w))).
Proof.
  intros f0 v0 m0. repeat split.
Qed.

(** ** The factory *)

Lemma dict_get_elem {V : Type} (d : list (string * V)) (key : string) (v : V) :
  dict_get d key = Some v -> (key, v) ∈ d.
Proof.
  induction d as [|[k v'] d IH]; simpl; [discriminate|].
  destruct (String.eqb k key) eqn:Hk.
  - apply String.eqb_eq in Hk. intros [= ->]. subst k. apply list_elem_of_here.
  - intros H. apply list_elem_of_further, IH, H.
Qed.

Lemma dict_get_none {V : Type} (d : list (string * V)) (key : string) :
  dict_get d key = None <-> key ∉ List.map fst d.
Proof.
  induction d as [|[k v'] d IH]; simpl.
  - split; [intros _; apply not_elem_of_nil|reflexivity].
  - destruct (String.eqb k key) eqn:Hk.
    + apply String.eqb_eq in Hk. subst k.
      split; [discriminate|]. intros H. exfalso. apply H, list_elem_of_here.
    + apply String.eqb_neq in Hk. rewrite IH, not_elem_of_cons.
      split; [intros H; split; [congruence|exact H]|intros [_ H]; exact H].
Qed.

(** ** Tokens the factory does not know *)

(** X8.  [create_relay_board] with a backend type or a board type that
    is not in its registry raises [ValueError] before it constructs
    anything: the world is as it was.  The backend type is checked
    first; the message names the token and lists the registry. *)
Theorem create_relay_board_unknown {W : Type} (O : PossibleBackendT -> Type)
    (new : forall clazz, M W (O clazz))
    (methods : forall clazz, IBackend.t (O clazz * W))
    (backend_type board_type : string)
    (device_address serial_number : option string) (timeout : Z) (w : W) :
  ~ (backend_type ∈ ["ftd2xx"; "vcp"; "mcp2200"; "pyftdi"] /\
     board_type ∈ ["denkovi_16ch"; "denkovi_8ch"; "denkovi_4ch_ftd2xx";
                   "denkovi_4ch_mcp2200"]) ->
  RelayBoardFactory.create_relay_board O new methods backend_type board_type
    device_address serial_number timeout w
  = (Raise (ValueError
       (if bool_decide (backend_type ∈ ["ftd2xx"; "vcp"; "mcp2200"; "pyftdi"])
        then "Unsupported board type: " +:+ board_type
             +:+ ". Supported types: ['denkovi_16ch', 'denkovi_8ch', 'denkovi_4ch_ftd2xx', 'denkovi_4ch_mcp2200']"
        else "Unsupported backend type: " +:+ backend_type
             +:+ ". Supported types: ['ftd2xx', 'vcp', 'mcp2200', 'pyftdi']")),
     w).
Proof.
  intros Hunknown. unfold RelayBoardFactory.create_relay_board.
  destruct (dict_get RelayBoardFactory.BACKEND_REGISTRY backend_type)
    as [backend_clazz|] eqn:Hbackend.
  - assert (backend_type ∈ ["ftd2xx"; "vcp"; "mcp2200"; "pyftdi"]) as Hin.
    { destruct (decide (backend_type ∈ ["ftd2xx"; "vcp"; "mcp2200"; "pyftdi"]))
        as [Hin|Hout]; [exact Hin|].
      apply (dict_get_none RelayBoardFactory.BACKEND_REGISTRY) in Hout. congruence. }
    rewrite bool_decide_eq_true_2 by exact Hin.
    destruct (dict_get RelayBoardFactory.BOARD_REGISTRY board_type)
      as [board_clazz|] eqn:Hboard.
    + exfalso. apply Hunknown. split; [exact Hin|].
      destruct (decide (board_type ∈ ["denkovi_16ch"; "denkovi_8ch";
                                      "denkovi_4ch_ftd2xx"; "denkovi_4ch_mcp2200"]))
        as [Hin'|Hout]; [exact Hin'|].
      apply (dict_get_none RelayBoardFactory.BOARD_REGISTRY) in Hout. congruence.
    + reflexivity.
  - apply dict_get_none in Hbackend.
    rewrite bool_decide_eq_false_2 by exact Hbackend. reflexivity.
Qed.

(** A backend type in capitals, on the bench: nothing is constructed and
    nothing is called. *)
Lemma create_relay_board_unknown_witness :
  ~ ("FTD2XX" ∈ ["ftd2xx"; "vcp"; "mcp2200"; "pyftdi"] /\
     "denkovi_8ch" ∈ ["denkovi_16ch"; "denkovi_8ch"; "denkovi_4ch_ftd2xx";
                      "denkovi_4ch_mcp2200"]) /\
  RelayBoardFactory.create_relay_board RelayBoardFactory.object_of
    RelayBoardFactory.new_of RelayBoardFactory.methods_of
    "FTD2XX" "denkovi_8ch" None (Some "DAE06LpX") 5000 (Bench.fresh Bench.idle)
  = (Raise (ValueError
       "Unsupported backend type: FTD2XX. Supported types: ['ftd2xx', 'vcp', 'mcp2200', 'pyftdi']"),
     Bench.fresh Bench.idle).
Proof.
  assert (~ ("FTD2XX" ∈ ["ftd2xx"; "vcp"; "mcp2200"; "pyftdi"] /\
             "denkovi_8ch" ∈ ["denkovi_16ch"; "denkovi_8ch"; "denkovi_4ch_ftd2xx";
                              "denkovi_4ch_mcp2200"])) as Hunknown.
  { intros [Hin _]. apply list_elem_of_In in Hin. simpl in Hin.
    repeat (destruct Hin as [Hin|Hin]; [discriminate Hin|]). exact Hin. }
  split; [exact Hunknown|].
  exact (create_relay_board_unknown RelayBoardFactory.object_of
           RelayBoardFactory.new_of RelayBoardFactory.methods_of
           "FTD2XX" "denkovi_8ch" None (Some "DAE06LpX") 5000
           (Bench.fresh Bench.idle) Hunknown).
Defined.

(** ** A board and a backend that do not go together *)

(** X9.  For each of the nine pairs of a backend and a board that the
    factory does not accept, [create_relay_board] constructs the backend
    and then raises [ValueError]: the message names both tokens and lists
    the backends the board accepts; no method of the backend has been
    called, the world is as the constructor left it. *)
Theorem create_relay_board_incompatible {W : Type} (O : PossibleBackendT -> Type)
    (new : forall clazz, M W (O clazz))
    (methods : forall clazz, IBackend.t (O clazz * W))
    (backend_type board_type names : string) (backend_clazz : PossibleBackendT)
    (device_address serial_number : option string) (timeout : Z) (w w1 : W)
    (backend : O backend_clazz) :
  (backend_type, backend_clazz, board_type, names)
  ∈ [("mcp2200", mcp2200, "denkovi_16ch", "['ftd2xx', 'vcp', 'pyftdi']");
     ("vcp", vcp, "denkovi_8ch", "['ftd2xx', 'pyftdi']");
     ("mcp2200", mcp2200, "denkovi_8ch", "['ftd2xx', 'pyftdi']");
     ("vcp", vcp, "denkovi_4ch_ftd2xx", "['ftd2xx']");
     ("mcp2200", mcp2200, "denkovi_4ch_ftd2xx", "['ftd2xx']");
     ("pyftdi", pyftdi, "denkovi_4ch_ftd2xx", "['ftd2xx']");
     ("ftd2xx", ftd2xx, "denkovi_4ch_mcp2200", "['mcp2200']");
     ("vcp", vcp, "denkovi_4ch_mcp2200", "['mcp2200']");
     ("pyftdi", pyftdi, "denkovi_4ch_mcp2200", "['mcp2200']")] ->
  new backend_clazz w = (Ok backend, w1) ->
  RelayBoardFactory.create_relay_board O new methods backend_type board_type
    device_address serial_number timeout w
  = (Raise (ValueError ("Unsupported backend type: " +:+ backend_type
                        +:+ " for board type: " +:+ board_type
                        +:+ ". Supported types: " +:+ names)),
     w1).
Proof.
  intros Hin Hnew. apply list_elem_of_In in Hin. simpl in Hin.
  repeat (destruct Hin as [Hin|Hin];
          [injection Hin as <- <- <- <-;
           unfold RelayBoardFactory.create_relay_board; simpl;
           rewrite (bind_ok _ _ _ _ _ Hnew); reflexivity|]).
  destruct Hin.
Qed.

(** The serial-port backend under the 8-channel board, on the bench. *)
Lemma create_relay_board_incompatible_witness :
  ("vcp", vcp, "denkovi_8ch", "['ftd2xx', 'pyftdi']")
  ∈ [("mcp2200", mcp2200, "denkovi_16ch", "['ftd2xx', 'vcp', 'pyftdi']");
     ("vcp", vcp, "denkovi_8ch", "['ftd2xx', 'pyftdi']");
     ("mcp2200", mcp2200, "denkovi_8ch", "['ftd2xx', 'pyftdi']");
     ("vcp", vcp, "denkovi_4ch_ftd2xx", "['ftd2xx']");
     ("mcp2200", mcp2200, "denkovi_4ch_ftd2xx", "['ftd2xx']");
     ("pyftdi", pyftdi, "denkovi_4ch_ftd2xx", "['ftd2xx']");
     ("ftd2xx", ftd2xx, "denkovi_4ch_mcp2200", "['mcp2200']");
     ("vcp", vcp, "denkovi_4ch_mcp2200", "['mcp2200']");
     ("pyftdi", pyftdi, "denkovi_4ch_mcp2200", "['mcp2200']")] /\
  RelayBoardFactory.new_of vcp (Bench.fresh Bench.idle)
  = (Ok VCPBackend.__init__, Bench.fresh Bench.idle) /\
  RelayBoardFactory.create_relay_board RelayBoardFactory.object_of
    RelayBoardFactory.new_of RelayBoardFactory.methods_of
    "vcp" "denkovi_8ch" (Some "COM14") None 5000 (Bench.fresh Bench.idle)
  = (Raise (ValueError
       "Unsupported backend type: vcp for board type: denkovi_8ch. Supported types: ['ftd2xx', 'pyftdi']"),
     Bench.fresh Bench.idle).
Proof.
  assert (("vcp", vcp, "denkovi_8ch", "['ftd2xx', 'pyftdi']")
          ∈ [("mcp2200", mcp2200, "denkovi_16ch", "['ftd2xx', 'vcp', 'pyftdi']");
             ("vcp", vcp, "denkovi_8ch", "['ftd2xx', 'pyftdi']");
             ("mcp2200", mcp2200, "denkovi_8ch", "['ftd2xx', 'pyftdi']");
             ("vcp", vcp, "denkovi_4ch_ftd2xx", "['ftd2xx']");
             ("mcp2200", mcp2200, "denkovi_4ch_ftd2xx", "['ftd2xx']");
             ("pyftdi", pyftdi, "denkovi_4ch_ftd2xx", "['ftd2xx']");
             ("ftd2xx", ftd2xx, "denkovi_4ch_mcp2200", "['mcp2200']");
             ("vcp", vcp, "denkovi_4ch_mcp2200", "['mcp2200']");
             ("pyftdi", pyftdi, "denkovi_4ch_mcp2200", "['mcp2200']")]) as Hin
    by (apply list_elem_of_further, list_elem_of_here).
  assert (RelayBoardFactory.new_of vcp (Bench.fresh Bench.idle)
          = (Ok VCPBackend.__init__, Bench.fresh Bench.idle)) as Hnew by reflexivity.
  split; [exact Hin|]. split; [exact Hnew|].
  exact (create_relay_board_incompatible RelayBoardFactory.object_of
           RelayBoardFactory.new_of RelayBoardFactory.methods_of
           "vcp" "denkovi_8ch" "['ftd2xx', 'pyftdi']" vcp (Some "COM14") None 5000
           (Bench.fresh Bench.idle) (Bench.fresh Bench.idle) VCPBackend.__init__
           Hin Hnew).
Defined.

(** ** The board the factory returns *)

(** The constructors of the boards, run on a backend that was just
    made. *)
Lemma board_init_run {S : Type} (B : IBackend.t S)
    (board_clazz : PossibleRelayBoardT)
    (device_address serial_number : option string) (timeout : Z) (s : S) :
  IDenkoviRelayBoard.__init__ (board_class board_clazz)
    device_address serial_number timeout (Board false s)
  = match IBackend.open device_address serial_number timeout s with
    | (Ok _, s1) =>
        if bool_decide (board_clazz ∈ [denkovi_8ch; denkovi_4ch_ftd2xx]) then
          match IBackend.set_bit_mode 0xFF 0x04 s1 with
          | (r, s2) => (r, Board true s2)
          end
        else (Ok tt, Board true s1)
    | (Raise e, s1) => (Raise e, Board true s1)
    end.
Proof.
  destruct board_clazz; simpl;
    [ unfold DenkoviRelayBoard16Ch.__init__
    | unfold DenkoviRelayBoard8Ch.__init__
    | unfold DenkoviRelayBoard4ChFT422.__init__
    | unfold DenkoviRelayBoard4ChMCP2200.__init__ ];
    unfold bind, set_backend, modify, on_backend; simpl;
    destruct (IBackend.open device_address serial_number timeout s) as [[[]|e] s1];
    try reflexivity;
    destruct (IBackend.set_bit_mode 255 4 s1) as [r s2]; reflexivity.
Qed.

(** What a call of [create_relay_board] that returned went through. *)
Lemma create_relay_board_inv {W : Type} (O : PossibleBackendT -> Type)
    (new : forall clazz, M W (O clazz))
    (methods : forall clazz, IBackend.t (O clazz * W))
    (backend_type board_type : string)
    (device_address serial_number : option string) (timeout : Z) (w w' : W)
    (board : RelayBoardFactory.relay_board O) :
  RelayBoardFactory.create_relay_board O new methods backend_type board_type
    device_address serial_number timeout w = (Ok board, w') ->
  dict_get RelayBoardFactory.BACKEND_REGISTRY backend_type
  = Some (RelayBoardFactory.backend_clazz O board) /\
  dict_get RelayBoardFactory.BOARD_REGISTRY board_type
  = Some (RelayBoardFactory.board_clazz O board) /\
  RelayBoardFactory.backend_clazz O board
  ∈ RelayBoardFactory.ACCEPTABLE_BACKEND_MAP (RelayBoardFactory.board_clazz O board) /\
  RelayBoardFactory.holds_backend O board = true /\
  exists backend w1,
    new (RelayBoardFactory.backend_clazz O board) w = (Ok backend, w1) /\
    IDenkoviRelayBoard.__init__
      (board_class (B := methods (RelayBoardFactory.backend_clazz O board))
         (RelayBoardFactory.board_clazz O board))
      device_address serial_number timeout (Board false (backend, w1))
    = (Ok tt, Board true (RelayBoardFactory.backend_object O board, w')).
Proof.
  unfold RelayBoardFactory.create_relay_board. intros Hrun.
  destruct (dict_get RelayBoardFactory.BACKEND_REGISTRY backend_type)
    as [backend_clazz|]; [|discriminate Hrun].
  destruct (dict_get RelayBoardFactory.BOARD_REGISTRY board_type)
    as [board_clazz|]; [|discriminate Hrun].
  unfold bind in Hrun.
  destruct (new backend_clazz w) as [[backend|e] w1] eqn:Hnew; [|discriminate Hrun].
  destruct (bool_decide (backend_clazz
                         ∈ RelayBoardFactory.ACCEPTABLE_BACKEND_MAP board_clazz))
    eqn:Hok; [|discriminate Hrun].
  apply bool_decide_eq_true_1 in Hok. cbv [negb] in Hrun.
  destruct (IDenkoviRelayBoard.__init__ (board_class board_clazz)
              device_address serial_number timeout (Board false (backend, w1)))
    as [[[]|e] [bound [o2 w2]]] eqn:Hinit; [|discriminate Hrun].
  assert (bound = true) as ->.
  { rewrite board_init_run in Hinit.
    destruct (IBackend.open device_address serial_number timeout (backend, w1))
      as [[[]|e] s1]; [|discriminate Hinit].
    destruct (bool_decide (board_clazz ∈ [denkovi_8ch; denkovi_4ch_ftd2xx])).
    - destruct (IBackend.set_bit_mode 255 4 s1) as [r s2].
      injection Hinit as _ <- _. reflexivity.
    - injection Hinit as <- _. reflexivity. }
  injection Hrun as <- <-. simpl.
  split; [reflexivity|]. split; [reflexivity|]. split; [exact Hok|].
  split; [reflexivity|]. exists backend, w1. split; [exact Hnew|exact Hinit].
Qed.

(** X10.  When [create_relay_board] returns a board, the two tokens are
    one of the seven pairs the factory accepts and name the classes of
    the board and of its backend; the backend was constructed and then
    opened with the device address, the serial number and the timeout
    that were passed; on the two bit-bang boards it was then put in
    synchronous bit-bang mode on all eight pins; and the board holds
    it. *)
Theorem create_relay_board_sound {W : Type} (O : PossibleBackendT -> Type)
    (new : forall clazz, M W (O clazz))
    (methods : forall clazz, IBackend.t (O clazz * W))
    (backend_type board_type : string)
    (device_address serial_number : option string) (timeout : Z) (w w' : W)
    (board : RelayBoardFactory.relay_board O) :
  RelayBoardFactory.create_relay_board O new methods backend_type board_type
    device_address serial_number timeout w = (Ok board, w') ->
  (backend_type, RelayBoardFactory.backend_clazz O board,
   board_type, RelayBoardFactory.board_clazz O board)
  ∈ [("ftd2xx", ftd2xx, "denkovi_16ch", denkovi_16ch);
     ("vcp", vcp, "denkovi_16ch", denkovi_16ch);
     ("pyftdi", pyftdi, "denkovi_16ch", denkovi_16ch);
     ("ftd2xx", ftd2xx, "denkovi_8ch", denkovi_8ch);
     ("pyftdi", pyftdi, "denkovi_8ch", denkovi_8ch);
     ("ftd2xx", ftd2xx, "denkovi_4ch_ftd2xx", denkovi_4ch_ftd2xx);
     ("mcp2200", mcp2200, "denkovi_4ch_mcp2200", denkovi_4ch_mcp2200)] /\
  RelayBoardFactory.holds_backend O board = true /\
  exists backend w1 s1,
    new (RelayBoardFactory.backend_clazz O board) w = (Ok backend, w1) /\
    IBackend.open (t := methods (RelayBoardFactory.backend_clazz O board))
      device_address serial_number timeout (backend, w1) = (Ok tt, s1) /\
    if bool_decide (RelayBoardFactory.board_clazz O board
                    ∈ [denkovi_8ch; denkovi_4ch_ftd2xx]) then
      IBackend.set_bit_mode (t := methods (RelayBoardFactory.backend_clazz O board))
        0xFF 0x04 s1
      = (Ok tt, (RelayBoardFactory.backend_object O board, w'))
    else s1 = (RelayBoardFactory.backend_object O board, w').
Proof.
  intros Hrun.
  destruct (create_relay_board_inv O new methods _ _ _ _ _ _ _ _ Hrun)
    as (Hbackend & Hboard & Hok & Hholds & backend & w1 & Hnew & Hinit).
  destruct board as [board_clazz backend_clazz holds object].
  cbn [RelayBoardFactory.board_clazz RelayBoardFactory.backend_clazz
       RelayBoardFactory.holds_backend RelayBoardFactory.backend_object] in *.
  apply dict_get_elem, list_elem_of_In in Hbackend.
  apply dict_get_elem, list_elem_of_In in Hboard.
  apply list_elem_of_In in Hok.
  split.
  { clear Hrun Hnew Hinit backend object. simpl in Hbackend, Hboard.
    destruct Hboard as [H|[H|[H|[H|[]]]]]; injection H as <- <-; simpl in Hok;
      repeat (destruct Hok as [<-|Hok]);
      try (destruct Hok);
      destruct Hbackend as [H|[H|[H|[H|[]]]]]; try discriminate H;
      injection H as <-;
      repeat first [ apply list_elem_of_here | apply list_elem_of_further ]. }
  split; [exact Hholds|].
  rewrite board_init_run in Hinit.
  destruct (IBackend.open device_address serial_number timeout (backend, w1))
    as [[[]|e] s1] eqn:Hopen; [|discriminate Hinit].
  exists backend, w1, s1. split; [exact Hnew|]. split; [exact Hopen|].
  destruct (bool_decide (board_clazz ∈ [denkovi_8ch; denkovi_4ch_ftd2xx])).
  - destruct (IBackend.set_bit_mode 255 4 s1) as [r s2].
    injection Hinit as -> ->. reflexivity.
  - injection Hinit as ->. reflexivity.
Qed.

(** The 8-channel board over the vendor library, on the bench: the
    calls that cross the native boundary are those of [open] and the one
    that sets the bit mode. *)
Lemma create_relay_board_sound_witness :
  exists board w',
    RelayBoardFactory.create_relay_board RelayBoardFactory.object_of
      RelayBoardFactory.new_of RelayBoardFactory.methods_of
      "ftd2xx" "denkovi_8ch" None (Some "DAE06LpX") 5000 (Bench.fresh Bench.idle)
    = (Ok board, w') /\
    RelayBoardFactory.holds_backend RelayBoardFactory.object_of board = true /\
    trace w'
    = [FT_CreateDeviceInfoList; FT_GetDeviceInfoList 1; comports;
       FT_OpenEx (b "DAE06LpX") 1; FT_SetBaudRate 0x1000 9600;
       FT_SetDataCharacteristics 0x1000 8 0 0; FT_SetTimeouts 0x1000 5000 5000;
       FT_SetBitMode 0x1000 0xFF 0x04].
Proof.
  eexists. eexists.
  assert (forall board w',
            RelayBoardFactory.create_relay_board RelayBoardFactory.object_of
              RelayBoardFactory.new_of RelayBoardFactory.methods_of
              "ftd2xx" "denkovi_8ch" None (Some "DAE06LpX") 5000
              (Bench.fresh Bench.idle)
            = (Ok board, w') ->
            RelayBoardFactory.holds_backend RelayBoardFactory.object_of board = true)
    as Hholds.
  { intros board w' Hrun.
    exact (proj1 (proj2 (create_relay_board_sound RelayBoardFactory.object_of
                           RelayBoardFactory.new_of RelayBoardFactory.methods_of
                           "ftd2xx" "denkovi_8ch" None (Some "DAE06LpX") 5000
                           (Bench.fresh Bench.idle) w' board Hrun))). }
  split; [vm_compute; reflexivity|].
  split; [|reflexivity].
  eapply Hholds. vm_compute. reflexivity.
Defined.

(** ** Listing the devices of every backend *)

(** X11.  [list_potential_boards] never raises, whatever the
    [list_potential_devices] of the four classes do: it asks the classes
    in the order of the registry ([ftd2xx], [vcp], [mcp2200], [pyftdi]),
    each in the world the one before left, and returns what they found,
    in this order, a class that raised counting for nothing. *)
Theorem list_potential_boards_collects {W : Type}
    (listing : PossibleBackendT -> M W (list DiscoveredDevice.t)) (w : W) :
  let found (r : result (list DiscoveredDevice.t) * W) :=
    match fst r with
    | Ok devices => devices
    | Raise _ => []
    end in
  let r1 := listing ftd2xx w in
  let r2 := listing vcp (snd r1) in
  let r3 := listing mcp2200 (snd r2) in
  let r4 := listing pyftdi (snd r3) in
  RelayBoardFactory.list_potential_boards listing w
  = (Ok (found r1 ++ found r2 ++ found r3 ++ found r4), snd r4).
Proof.
  intros found r1 r2 r3 r4. subst found r4 r3 r2 r1.
  unfold RelayBoardFactory.list_potential_boards, RelayBoardFactory.BACKEND_REGISTRY.
  unfold RelayBoardFactory.list_each, bind, try_except, ret.
  destruct (listing ftd2xx w) as [[l1|e1] w1]; simpl;
    destruct (listing vcp w1) as [[l2|e2] w2]; simpl;
    destruct (listing mcp2200 w2) as [[l3|e3] w3]; simpl;
    destruct (listing pyftdi w3) as [[l4|e4] w4]; simpl;
    rewrite ?app_nil_r, <- ?app_assoc; reflexivity.
Qed.

(** The loop of the vendor-library listing: what it appends to
    [devices]. *)
Lemma ftd2xx_list_each_spec {E : Type} `{!Native E}
    (info_list : list FTDeviceListInfoNodeStruct.t) :
  forall (devices devices' : list DiscoveredDevice.t) (w w' : world E) (r : result unit),
    FTD2XXBackend.list_each info_list (devices, w) = (r, (devices', w')) ->
    exists added,
      devices' = devices ++ added /\
      Forall (fun d => DiscoveredDevice.backend d = ftd2xx) added /\
      List.map DiscoveredDevice.serial_number added
      `prefix_of` List.map (fun info => Some (FTDeviceListInfoNodeStruct.serial_number info))
                    (List.filter
                       (fun info => negb ((FTDeviceListInfoNodeStruct.id info =? 0)
                                          && (FTDeviceListInfoNodeStruct.loc_id info =? 0)))
                       info_list) /\
      (r = Ok tt ->
       List.map DiscoveredDevice.serial_number added
       = List.map (fun info => Some (FTDeviceListInfoNodeStruct.serial_number info))
           (List.filter
              (fun info => negb ((FTDeviceListInfoNodeStruct.id info =? 0)
                                 && (FTDeviceListInfoNodeStruct.loc_id info =? 0)))
              info_list)).
Proof.
  induction info_list as [|info rest IH]; intros devices devices' w w' r Hrun.
  - injection Hrun as <- <- <-. exists []. rewrite app_nil_r.
    split; [reflexivity|]. split; [constructor|]. split; reflexivity.
  - cbn [FTD2XXBackend.list_each List.filter] in Hrun |- *.
    destruct ((FTDeviceListInfoNodeStruct.id info =? 0)
              && (FTDeviceListInfoNodeStruct.loc_id info =? 0)).
    + exact (IH _ _ _ _ _ Hrun).
    + unfold bind at 1 2 in Hrun. unfold outside in Hrun.
      destruct (FTD2XXBackend.__get_port_by_serial_number
                  (FTDeviceListInfoNodeStruct.serial_number info) w)
        as [[p|e] w1].
      * unfold update in Hrun.
        destruct (IH _ _ _ _ _ Hrun) as (added & -> & Htags & Hprefix & Hall).
        eexists (_ :: added). rewrite <- app_assoc.
        split; [reflexivity|].
        split; [constructor; [reflexivity|exact Htags]|].
        split; [apply prefix_cons, Hprefix|].
        intros Hr. cbn [negb List.map]. f_equal. exact (Hall Hr).
      * injection Hrun as <- <- <-. exists []. rewrite app_nil_r.
        split; [reflexivity|]. split; [constructor|].
        split; [apply prefix_nil|discriminate].
Qed.

Lemma ftd2xx_listing_total {E : Type} `{!Native E} (w : world E) :
  exists devices w',
    FTD2XXBackend.list_potential_devices w = (Ok devices, w') /\
    Forall (fun d => DiscoveredDevice.backend d = ftd2xx) devices.
Proof.
  unfold FTD2XXBackend.list_potential_devices, with_new, suppress, try_except.
  unfold bind at 1. unfold bind at 1. unfold outside.
  destruct (PyFTD2XXWrapper.get_devices_info (PyFTD2XXWrapper.__init__, w))
    as [[info_list|e] [o w1]].
  - destruct (FTD2XXBackend.list_each info_list ([], w1)) as [r [devices w2]] eqn:Hrun.
    destruct (ftd2xx_list_each_spec info_list _ _ _ _ _ Hrun) as (added & -> & Htags & _).
    exists added, w2. destruct r; split; first [reflexivity | exact Htags].
  - exists [], w1. split; [reflexivity|constructor].
Qed.

Lemma vcp_listing_tags {E : Type} `{!Native E} (w w' : world E)
    (devices : list DiscoveredDevice.t) :
  VCPBackend.list_potential_devices w = (Ok devices, w') ->
  Forall (fun d => DiscoveredDevice.backend d = vcp /\
                   truthy (DiscoveredDevice.serial_number d) = true /\
                   is_Some (DiscoveredDevice.device_address d)) devices.
Proof.
  unfold VCPBackend.list_potential_devices, bind, ret.
  destruct (native comports w) as [[ports|e] w1]; [|discriminate].
  intros [= <- <-]. apply List.Forall_forall. intros d Hd.
  apply in_map_iff in Hd as (port & <- & Hport).
  apply filter_In in Hport as [_ Hserial]. simpl.
  split; [reflexivity|]. split; [exact Hserial|]. eexists. reflexivity.
Qed.

Lemma mcp2200_listing_total {E : Type} `{!Native E} (w : world E) :
  exists devices w',
    MCP2200Backend.list_potential_devices w = (Ok devices, w') /\
    Forall (fun d => DiscoveredDevice.backend d = mcp2200 /\
                     (truthy (DiscoveredDevice.serial_number d) = false ->
                      DiscoveredDevice.device_address d = None)) devices.
Proof.
  unfold MCP2200Backend.list_potential_devices, bind, try_except, ret.
  destruct (native comports w) as [[ports|e] w1];
    destruct (native (hid_enumerate MCP_VID MCP2200_PID) w1) as [[found|e'] w2];
    eexists; eexists; (split; [reflexivity|]);
    try constructor;
    apply List.Forall_forall; intros d Hd;
    apply in_map_iff in Hd as (sn & <- & _); simpl;
    (split; [reflexivity|]); intros ->; reflexivity.
Qed.

Lemma pyftdi_listing_total {E : Type} `{!Native E} (w : world E) :
  exists devices w',
    PyFtdiBackend.list_potential_devices w = (Ok devices, w') /\
    Forall (fun d => DiscoveredDevice.backend d = pyftdi /\
                     (truthy (DiscoveredDevice.serial_number d) = false ->
                      DiscoveredDevice.device_address d = None)) devices.
Proof.
  unfold PyFtdiBackend.list_potential_devices, bind, try_except, ret.
  destruct (native comports w) as [[ports|e] w1].
  - destruct (native (Ftdi_find_all [(FTDI_VID, FT232R_PID); (FTDI_VID, FT232H_PID)]) w1)
      as [[devs|e'] w2];
      eexists; eexists; (split; [reflexivity|]);
      try constructor;
      apply List.Forall_forall; intros d Hd;
      apply in_map_iff in Hd as (descriptor & <- & _); simpl;
      (split; [reflexivity|]); intros ->; reflexivity.
  - eexists; eexists. split; [reflexivity|constructor].
Qed.

(** X12.  With the four backends themselves, [list_potential_boards]
    returns a list in four runs, one per backend in the order of the
    registry: the entries of the vendor library carry the tag [ftd2xx];
    those of the serial ports the tag [vcp], a serial number that is not
    empty and a device address; those of the HID and of the pyftdi
    listings their tag, and no device address when their serial number
    is missing or empty. *)
Theorem list_potential_boards_grouped {E : Type} `{!Native E} (w : world E) :
  exists l1 l2 l3 l4 w',
    RelayBoardFactory.list_potential_boards
      RelayBoardFactory.list_potential_devices_of w
    = (Ok (l1 ++ l2 ++ l3 ++ l4), w') /\
    Forall (fun d => DiscoveredDevice.backend d = ftd2xx) l1 /\
    Forall (fun d => DiscoveredDevice.backend d = vcp /\
                     truthy (DiscoveredDevice.serial_number d) = true /\
                     is_Some (DiscoveredDevice.device_address d)) l2 /\
    Forall (fun d => DiscoveredDevice.backend d = mcp2200 /\
                     (truthy (DiscoveredDevice.serial_number d) = false ->
                      DiscoveredDevice.device_address d = None)) l3 /\
    Forall (fun d => DiscoveredDevice.backend d = pyftdi /\
                     (truthy (DiscoveredDevice.serial_number d) = false ->
                      DiscoveredDevice.device_address d = None)) l4.
Proof.
  destruct (ftd2xx_listing_total w) as (l1 & w1 & H1 & T1).
  destruct (VCPBackend.list_potential_devices w1) as [[l2|e2] w2] eqn:H2.
  - pose proof (vcp_listing_tags _ _ _ H2) as T2.
    destruct (mcp2200_listing_total w2) as (l3 & w3 & H3 & T3).
    destruct (pyftdi_listing_total w3) as (l4 & w4 & H4 & T4).
    exists l1, l2, l3, l4, w4. repeat split; try assumption.
    unfold RelayBoardFactory.list_potential_boards, RelayBoardFactory.BACKEND_REGISTRY.
    unfold RelayBoardFactory.list_each, bind, try_except, ret.
    simpl. rewrite H1, H2, H3, H4. simpl. rewrite <- !app_assoc. reflexivity.
  - destruct (mcp2200_listing_total w2) as (l3 & w3 & H3 & T3).
    destruct (pyftdi_listing_total w3) as (l4 & w4 & H4 & T4).
    exists l1, [], l3, l4, w4. repeat split; try assumption; try constructor.
    unfold RelayBoardFactory.list_potential_boards, RelayBoardFactory.BACKEND_REGISTRY.
    unfold RelayBoardFactory.list_each, bind, try_except, ret.
    simpl. rewrite H1, H2, H3, H4. simpl. rewrite app_nil_r, <- !app_assoc. reflexivity.
Qed.

(** ** The chips the vendor library lists *)

Lemma ftd2xx_list_each_ok {E : Type} `{!Native E}
    (info_list : list FTDeviceListInfoNodeStruct.t) :
  (forall e : E, exists ports e', answer comports e = (Ok ports, e')) ->
  forall (devices : list DiscoveredDevice.t) (w : world E),
    fst (FTD2XXBackend.list_each info_list (devices, w)) = Ok tt.
Proof.
  intros Hports. induction info_list as [|info rest IH]; intros devices w.
  - reflexivity.
  - cbn [FTD2XXBackend.list_each].
    destruct ((FTDeviceListInfoNodeStruct.id info =? 0)
              && (FTDeviceListInfoNodeStruct.loc_id info =? 0)).
    + exact (IH devices w).
    + unfold bind at 1 2. unfold outside.
      unfold FTD2XXBackend.__get_port_by_serial_number, bind at 1, native, ret.
      destruct (Hports (ext w)) as (ports & e' & ->).
      unfold update. apply IH.
Qed.

(** What [get_devices_info] does when the vendor library answers its two
    calls with status 0: the structures it filled are converted one
    after the other, and the first that cannot be converted raises. *)
Lemma get_devices_info_run {E : Type} `{!Native E}
    (p : PyFTD2XXWrapper.t) (w : world E) (n : Z)
    (raw : list FT_DEVICE_LIST_INFO_NODE.t) (e1 e2 : E) :
  answer FT_CreateDeviceInfoList (ext w) = (Ok (0, n), e1) ->
  answer (FT_GetDeviceInfoList n) e1 = (Ok (0, raw), e2) ->
  PyFTD2XXWrapper.get_devices_info (p, w)
  = (map_result FTDeviceListInfoNodeStruct.from_structure raw,
     (p, World (trace w ++ [FT_CreateDeviceInfoList; FT_GetDeviceInfoList n]) e2)).
Proof.
  intros Hcreate Hlist.
  unfold PyFTD2XXWrapper.get_devices_info, PyFTD2XXWrapper.__get_device_info_list,
    PyFTD2XXWrapper.__create_device_info_list.
  unfold bind, outside, native, raise_for_status, ret, lift.
  rewrite Hcreate. simpl. rewrite Hlist. simpl. rewrite <- app_assoc. reflexivity.
Qed.

(** X13.  When the vendor library answers the two calls of the chip
    listing with status 0, filling an array of as many structures as it
    announced, and the ports can be listed,
    [FTD2XXBackend.list_potential_devices] returns.  If every structure
    the library filled converts ([from_structure]: the flags word is a
    member of its enumeration, so is the type, and the serial number and
    the description decode), it returns one entry, tagged [ftd2xx], for
    each chip that does not have both its id and its location id at
    zero, in the order of the library's list and under the chip's serial
    number; the chips with both at zero are left out.  If one structure
    does not convert, it returns the empty list, after these two calls
    and no other. *)
Theorem ftd2xx_listing_skips {E : Type} `{!Native E} (w : world E) (n : Z)
    (raw : list FT_DEVICE_LIST_INFO_NODE.t) (e1 e2 : E) :
  answer FT_CreateDeviceInfoList (ext w) = (Ok (0, n), e1) ->
  answer (FT_GetDeviceInfoList n) e1 = (Ok (0, raw), e2) ->
  len raw = n ->
  (forall e : E, exists ports e', answer comports e = (Ok ports, e')) ->
  exists devices w',
    FTD2XXBackend.list_potential_devices w = (Ok devices, w') /\
    match map_result FTDeviceListInfoNodeStruct.from_structure raw with
    | Ok info_list =>
        Forall (fun d => DiscoveredDevice.backend d = ftd2xx) devices /\
        List.map DiscoveredDevice.serial_number devices
        = List.map (fun info => Some (FTDeviceListInfoNodeStruct.serial_number info))
            (List.filter
               (fun info => negb ((FTDeviceListInfoNodeStruct.id info =? 0)
                                  && (FTDeviceListInfoNodeStruct.loc_id info =? 0)))
               info_list)
    | Raise _ =>
        devices = [] /\
        w' = World (trace w ++ [FT_CreateDeviceInfoList; FT_GetDeviceInfoList n]) e2
    end.
Proof.
  intros Hcreate Hlist _ Hports.
  unfold FTD2XXBackend.list_potential_devices, with_new, suppress, try_except.
  unfold bind at 1. unfold bind at 1. unfold outside.
  rewrite (get_devices_info_run _ _ _ _ _ _ Hcreate Hlist).
  destruct (map_result FTDeviceListInfoNodeStruct.from_structure raw)
    as [info_list|e].
  - pose proof (ftd2xx_list_each_ok info_list Hports []
                  (World (trace w ++ [FT_CreateDeviceInfoList; FT_GetDeviceInfoList n])
                     e2)) as Hok.
    destruct (FTD2XXBackend.list_each info_list
                ([], World (trace w ++ [FT_CreateDeviceInfoList; FT_GetDeviceInfoList n])
                       e2))
      as [r [devices w2]] eqn:Hrun.
    simpl in Hok. subst r.
    destruct (ftd2xx_list_each_spec info_list _ _ _ _ _ Hrun)
      as (added & -> & Htags & _ & Hall).
    exists added, w2. split; [reflexivity|]. split; [exact Htags|]. exact (Hall eq_refl).
  - eexists. eexists. split; [reflexivity|]. split; reflexivity.
Qed.

(** The bench lists one chip, and lists it; with a flags word of 3 on
    the chip, the listing is empty. *)
Lemma ftd2xx_listing_skips_witness :
  (answer FT_CreateDeviceInfoList (ext (Bench.fresh Bench.idle)) = (Ok (0, 1), Bench.idle) /\
   answer (FT_GetDeviceInfoList 1) Bench.idle
   = (Ok (0, [FTDeviceListInfoNodeStruct.to_structure Bench.chip]), Bench.idle) /\
   (forall e : Bench.t, exists ports e', answer comports e = (Ok ports, e')) /\
   exists devices w',
     FTD2XXBackend.list_potential_devices (Bench.fresh Bench.idle) = (Ok devices, w') /\
     Forall (fun d => DiscoveredDevice.backend d = ftd2xx) devices /\
     List.map DiscoveredDevice.serial_number devices = [Some "DAE06LpX"]) /\
  (map_result FTDeviceListInfoNodeStruct.from_structure
     (List.map FTDeviceListInfoNodeStruct.to_structure (Bench.chips Bench.odd_flags))
   = Raise (ValueError "3 is not a valid FTDeviceListInfoNodeFlags") /\
   exists devices w',
     FTD2XXBackend.list_potential_devices (Bench.fresh Bench.odd_flags) = (Ok devices, w') /\
     devices = [] /\
     w' = World [FT_CreateDeviceInfoList; FT_GetDeviceInfoList 1] Bench.odd_flags).
Proof.
  assert (forall e : Bench.t, exists ports e', answer comports e = (Ok ports, e'))
    as Hports by (intros e; eexists; eexists; reflexivity).
  split.
  - assert (answer FT_CreateDeviceInfoList (ext (Bench.fresh Bench.idle))
            = (Ok (0, 1), Bench.idle)) as Hcreate by reflexivity.
    assert (answer (FT_GetDeviceInfoList 1) Bench.idle
            = (Ok (0, [FTDeviceListInfoNodeStruct.to_structure Bench.chip]), Bench.idle))
      as Hlist by reflexivity.
    split; [exact Hcreate|]. split; [exact Hlist|]. split; [exact Hports|].
    exact (ftd2xx_listing_skips (Bench.fresh Bench.idle) 1
             [FTDeviceListInfoNodeStruct.to_structure Bench.chip]
             Bench.idle Bench.idle Hcreate Hlist eq_refl Hports).
  - split; [vm_compute; reflexivity|].
    exact (ftd2xx_listing_skips (Bench.fresh Bench.odd_flags) 1
             (List.map FTDeviceListInfoNodeStruct.to_structure
                (Bench.chips Bench.odd_flags))
             Bench.odd_flags Bench.odd_flags eq_refl eq_refl eq_refl Hports).
Defined.

(** ** Devices matched to ports by serial number *)

(** The dict of ports by serial number: a serial number that is not
    empty maps to the device of the last port listed under it. *)
Lemma com_ports_of_lookup (ports : list ListPortInfo.t) (s : string) :
  s <> "" ->
  MCP2200Backend.com_ports_of ports !! s
  = ListPortInfo.device
    <$> List.find (fun port => bool_decide (ListPortInfo.serial_number port = Some s))
          (rev ports).
Proof.
  intros Hs. unfold MCP2200Backend.com_ports_of.
  induction ports as [|port ports IH] using rev_ind.
  - reflexivity.
  - rewrite fold_left_app, rev_unit. cbn [fold_left List.find].
    destruct (ListPortInfo.serial_number port) as [s'|] eqn:Hserial.
    + destruct (String.eqb s' "") eqn:Hempty.
      * apply String.eqb_eq in Hempty. subst s'.
        rewrite bool_decide_eq_false_2 by congruence. exact IH.
      * destruct (decide (s' = s)) as [->|Hne].
        -- rewrite bool_decide_eq_true_2 by reflexivity.
           rewrite lookup_insert_eq. reflexivity.
        -- rewrite bool_decide_eq_false_2 by congruence.
           rewrite lookup_insert_ne by exact Hne. exact IH.
    + rewrite bool_decide_eq_false_2 by congruence. exact IH.
Qed.

(** X14.  When the ports and the HID devices can be listed,
    [MCP2200Backend.list_potential_devices] returns one entry for each
    HID device, in the order of the enumeration, tagged [mcp2200] and
    under the serial number the enumeration gives; its device address is
    the device of the last port listed under this serial number, and
    there is none when no port is or when the serial number is missing
    or empty. *)
Theorem mcp2200_listing {E : Type} `{!Native E} (w : world E)
    (ports : list ListPortInfo.t) (found : list (option string)) (e1 e2 : E) :
  answer comports (ext w) = (Ok ports, e1) ->
  answer (hid_enumerate MCP_VID MCP2200_PID) e1 = (Ok found, e2) ->
  MCP2200Backend.list_potential_devices w
  = (Ok (List.map
           (fun serial_number => {|
              DiscoveredDevice.backend := mcp2200;
              DiscoveredDevice.serial_number := serial_number;
              DiscoveredDevice.device_address :=
                match serial_number with
                | Some s =>
                    if String.eqb s "" then None
                    else ListPortInfo.device
                         <$> List.find
                               (fun port =>
                                  bool_decide (ListPortInfo.serial_number port = Some s))
                               (rev ports)
                | None => None
                end |})
           found),
     World (trace w ++ [comports; hid_enumerate MCP_VID MCP2200_PID]) e2).
Proof.
  intros Hports Hfound.
  unfold MCP2200Backend.list_potential_devices, bind, try_except, native, ret.
  rewrite Hports. simpl. rewrite Hfound. rewrite <- app_assoc. simpl.
  f_equal. f_equal. apply map_ext. intros [s|]; [|reflexivity].
  unfold truthy. destruct (String.eqb s "") eqn:Hempty; [reflexivity|].
  simpl. f_equal. apply com_ports_of_lookup.
  apply String.eqb_neq, Hempty.
Qed.

(** The bench lists one HID device, which is no serial port. *)
Lemma mcp2200_listing_witness :
  answer comports (ext (Bench.fresh Bench.idle))
  = (Ok [ {| ListPortInfo.device := "COM14";
             ListPortInfo.serial_number := Some "DAE06LPXA" |} ], Bench.idle) /\
  answer (hid_enumerate MCP_VID MCP2200_PID) Bench.idle
  = (Ok [Some "0003639685"], Bench.idle) /\
  MCP2200Backend.list_potential_devices (Bench.fresh Bench.idle)
  = (Ok [ {| DiscoveredDevice.backend := mcp2200;
             DiscoveredDevice.serial_number := Some "0003639685";
             DiscoveredDevice.device_address := None |} ],
     World [comports; hid_enumerate MCP_VID MCP2200_PID] Bench.idle).
Proof.
  assert (answer comports (ext (Bench.fresh Bench.idle))
          = (Ok [ {| ListPortInfo.device := "COM14";
                     ListPortInfo.serial_number := Some "DAE06LPXA" |} ], Bench.idle))
    as Hports by reflexivity.
  assert (answer (hid_enumerate MCP_VID MCP2200_PID) Bench.idle
          = (Ok [Some "0003639685"], Bench.idle)) as Hfound by reflexivity.
  split; [exact Hports|]. split; [exact Hfound|].
  exact (mcp2200_listing (Bench.fresh Bench.idle) _ _ _ _ Hports Hfound).
Defined.

(** X15.  [PyFtdiBackend.list_potential_devices] never raises.  When the
    ports can be listed and the search for FT232R and FT232H devices
    answers, it returns one entry for each device found, in the order of
    the search, tagged [pyftdi] and under the serial number of the
    device's descriptor, with the device of the last port listed under
    this serial number as its address; when either of the two fails it
    returns the empty list. *)
Theorem pyftdi_listing {E : Type} `{!Native E} (w : world E) :
  match answer comports (ext w) with
  | (Ok ports, e1) =>
      match answer (Ftdi_find_all [(0x0403, 0x6001); (0x0403, 0x6014)]) e1 with
      | (Ok devs, e2) =>
          PyFtdiBackend.list_potential_devices w
          = (Ok (List.map
                   (fun descriptor => {|
                      DiscoveredDevice.backend := pyftdi;
                      DiscoveredDevice.serial_number := UsbDeviceDescriptor.sn descriptor;
                      DiscoveredDevice.device_address :=
                        match UsbDeviceDescriptor.sn descriptor with
                        | Some s =>
                            if String.eqb s "" then None
                            else ListPortInfo.device
                                 <$> List.find
                                       (fun port =>
                                          bool_decide
                                            (ListPortInfo.serial_number port = Some s))
                                       (rev ports)
                        | None => None
                        end |})
                   devs),
             World (trace w ++ [comports;
                                Ftdi_find_all [(0x0403, 0x6001); (0x0403, 0x6014)]]) e2)
      | (Raise _, e2) =>
          PyFtdiBackend.list_potential_devices w
          = (Ok [], World (trace w ++ [comports;
                                       Ftdi_find_all [(0x0403, 0x6001); (0x0403, 0x6014)]])
                      e2)
      end
  | (Raise _, e1) =>
      PyFtdiBackend.list_potential_devices w = (Ok [], World (trace w ++ [comports]) e1)
  end.
Proof.
  unfold PyFtdiBackend.list_potential_devices, bind, try_except, native, ret.
  destruct (answer comports (ext w)) as [[ports|e] e1]; [|reflexivity].
  simpl.
  change (Ftdi_find_all [(FTDI_VID, FT232R_PID); (FTDI_VID, FT232H_PID)])
    with (Ftdi_find_all [(0x0403, 0x6001); (0x0403, 0x6014)]).
  destruct (answer (Ftdi_find_all [(0x0403, 0x6001); (0x0403, 0x6014)]) e1)
    as [[devs|e] e2]; rewrite <- app_assoc; simpl; [|reflexivity].
  f_equal. f_equal. apply map_ext. intros [vid pid [s|]]; [|reflexivity].
  unfold truthy. simpl. destruct (String.eqb s "") eqn:Hempty; [reflexivity|].
  simpl. f_equal.
  change (PyFtdiBackend.sn_to_port_of ports) with (MCP2200Backend.com_ports_of ports).
  apply com_ports_of_lookup. apply String.eqb_neq, Hempty.
Qed.

(** ** Opening the vendor-library backend *)

Lemma find_none_forall {A : Type} (f : A -> bool) (l : list A) :
  Forall (fun x => f x = false) l -> List.find f l = None.
Proof.
  induction 1 as [|x l Hx _ IH]; [reflexivity|]. simpl. rewrite Hx. exact IH.
Qed.

(** X16.  [FTD2XXBackend.open] by serial number, when the vendor library
    answers the two calls of the chip listing with status 0, filling an
    array of as many structures as it announced.  If every
    structure the library filled converts and no chip of the list has
    the serial number asked for, compared without regard to case (the
    serial numbers being ASCII), [open] raises [ValueError] naming the
    serial number that was asked for; it has then only listed the
    chips: no device is opened, the wrapper is as it was, and the
    serial number the object stored before is forgotten.  If one
    structure does not convert, [open] raises what the conversion
    raised, after the same two calls, and the object is as it was. *)
Theorem ftd2xx_open_unknown_serial {E : Type} `{!Native E}
    (f : FTD2XXBackend.t) (w : world E) (serial_number : string) (timeout n : Z)
    (raw : list FT_DEVICE_LIST_INFO_NODE.t) (e1 e2 : E) :
  serial_number <> "" ->
  answer FT_CreateDeviceInfoList (ext w) = (Ok (0, n), e1) ->
  answer (FT_GetDeviceInfoList n) e1 = (Ok (0, raw), e2) ->
  len raw = n ->
  (forall info_list : list FTDeviceListInfoNodeStruct.t,
     map_result FTDeviceListInfoNodeStruct.from_structure raw = Ok info_list ->
     is_ascii serial_number = true ->
     Forall (fun info => is_ascii (FTDeviceListInfoNodeStruct.serial_number info) = true)
       info_list ->
     Forall (fun info => lower (FTDeviceListInfoNodeStruct.serial_number info)
                         <> lower serial_number) info_list ->
     FTD2XXBackend.open None (Some serial_number) timeout (f, w)
     = (Raise (ValueError ("No FTDI device found with serial number " +:+ serial_number)),
        (FTD2XXBackend.set_serial_number None f,
         World (trace w ++ [FT_CreateDeviceInfoList; FT_GetDeviceInfoList n]) e2))) /\
  (forall e : exn,
     map_result FTDeviceListInfoNodeStruct.from_structure raw = Raise e ->
     FTD2XXBackend.open None (Some serial_number) timeout (f, w)
     = (Raise e,
        (f, World (trace w ++ [FT_CreateDeviceInfoList; FT_GetDeviceInfoList n]) e2))).
Proof.
  intros Hserial Hcreate Hlist _.
  apply String.eqb_neq in Hserial.
  split.
  - intros info_list Hconv _ _ Hnone.
    unfold FTD2XXBackend.open, truthy. rewrite Hserial. cbn [negb Bool.eqb].
    assert (FTD2XXBackend.__get_actual_serial_number serial_number (f, w)
            = (Ok None,
               (FTD2XXBackend.set_wrapper (FTD2XXBackend.wrapper f) f,
                World (trace w ++ [FT_CreateDeviceInfoList; FT_GetDeviceInfoList n]) e2)))
      as Hactual.
    { unfold FTD2XXBackend.__get_actual_serial_number, FTD2XXBackend.on_wrapper.
      unfold bind at 1. unfold within.
      rewrite (get_devices_info_run _ _ _ _ _ _ Hcreate Hlist), Hconv.
      unfold ret. rewrite find_none_forall; [reflexivity|].
      eapply Forall_impl; [exact Hnone|].
      intros info Hinfo. apply String.eqb_neq, Hinfo. }
    unfold bind at 1. unfold bind at 1. rewrite Hactual. reflexivity.
  - intros e Hconv.
    unfold FTD2XXBackend.open, truthy. rewrite Hserial. cbn [negb Bool.eqb].
    unfold bind at 1. unfold bind at 1.
    unfold FTD2XXBackend.__get_actual_serial_number, FTD2XXBackend.on_wrapper.
    unfold bind at 1. unfold within.
    rewrite (get_devices_info_run _ _ _ _ _ _ Hcreate Hlist), Hconv.
    destruct f. reflexivity.
Qed.

(** A serial number the bench does not list; then the chip of the bench
    with a flags word of 3. *)
Lemma ftd2xx_open_unknown_serial_witness :
  ("FT000000" <> "" /\
   answer FT_CreateDeviceInfoList (ext (Bench.fresh Bench.idle)) = (Ok (0, 1), Bench.idle) /\
   answer (FT_GetDeviceInfoList 1) Bench.idle
   = (Ok (0, [FTDeviceListInfoNodeStruct.to_structure Bench.chip]), Bench.idle) /\
   map_result FTDeviceListInfoNodeStruct.from_structure
     [FTDeviceListInfoNodeStruct.to_structure Bench.chip] = Ok [Bench.chip] /\
   is_ascii "FT000000" = true /\
   Forall (fun info => is_ascii (FTDeviceListInfoNodeStruct.serial_number info) = true)
     [Bench.chip] /\
   Forall (fun info => lower (FTDeviceListInfoNodeStruct.serial_number info)
                       <> lower "FT000000") [Bench.chip] /\
   FTD2XXBackend.open None (Some "FT000000") 5000
     (Bench.opened_ftd2xx, Bench.fresh Bench.idle)
   = (Raise (ValueError "No FTDI device found with serial number FT000000"),
      (FTD2XXBackend.set_serial_number None Bench.opened_ftd2xx,
       World [FT_CreateDeviceInfoList; FT_GetDeviceInfoList 1] Bench.idle))) /\
  FTD2XXBackend.open None (Some "DAE06LpX") 5000
    (Bench.opened_ftd2xx, Bench.fresh Bench.odd_flags)
  = (Raise (ValueError "3 is not a valid FTDeviceListInfoNodeFlags"),
     (Bench.opened_ftd2xx,
      World [FT_CreateDeviceInfoList; FT_GetDeviceInfoList 1] Bench.odd_flags)).
Proof.
  split.
  - assert ("FT000000" <> "") as Hserial by discriminate.
    assert (answer FT_CreateDeviceInfoList (ext (Bench.fresh Bench.idle))
            = (Ok (0, 1), Bench.idle)) as Hcreate by reflexivity.
    assert (answer (FT_GetDeviceInfoList 1) Bench.idle
            = (Ok (0, [FTDeviceListInfoNodeStruct.to_structure Bench.chip]), Bench.idle))
      as Hlist by reflexivity.
    assert (map_result FTDeviceListInfoNodeStruct.from_structure
              [FTDeviceListInfoNodeStruct.to_structure Bench.chip] = Ok [Bench.chip])
      as Hconv by (vm_compute; reflexivity).
    assert (is_ascii "FT000000" = true) as Hasked by reflexivity.
    assert (Forall (fun info =>
                      is_ascii (FTDeviceListInfoNodeStruct.serial_number info) = true)
              [Bench.chip]) as Hchips by (repeat constructor).
    assert (Forall (fun info => lower (FTDeviceListInfoNodeStruct.serial_number info)
                                <> lower "FT000000") [Bench.chip]) as Hnone
      by (repeat constructor; discriminate).
    split; [exact Hserial|]. split; [exact Hcreate|]. split; [exact Hlist|].
    split; [exact Hconv|]. split; [exact Hasked|]. split; [exact Hchips|].
    split; [exact Hnone|].
    exact (proj1 (ftd2xx_open_unknown_serial Bench.opened_ftd2xx (Bench.fresh Bench.idle)
                    "FT000000" 5000 1 [FTDeviceListInfoNodeStruct.to_structure Bench.chip]
                    Bench.idle Bench.idle Hserial Hcreate Hlist eq_refl)
             [Bench.chip] Hconv Hasked Hchips Hnone).
  - assert ("DAE06LpX" <> "") as Hserial by discriminate.
    assert (map_result FTDeviceListInfoNodeStruct.from_structure
              (List.map FTDeviceListInfoNodeStruct.to_structure
                 (Bench.chips Bench.odd_flags))
            = Raise (ValueError "3 is not a valid FTDeviceListInfoNodeFlags")) as Hconv
      by (vm_compute; reflexivity).
    exact (proj2 (ftd2xx_open_unknown_serial Bench.opened_ftd2xx
                    (Bench.fresh Bench.odd_flags) "DAE06LpX" 5000 1
                    (List.map FTDeviceListInfoNodeStruct.to_structure
                       (Bench.chips Bench.odd_flags))
                    Bench.odd_flags Bench.odd_flags Hserial eq_refl eq_refl eq_refl)
             _ Hconv).
Defined.

Lemma outside_native_inv {E : Type} `{!Native E} {O : Type} (c : ncall)
    (o o' : O) (w w' : world E) (a : nresp c) :
  outside (native c) (o, w) = (Ok a, (o', w')) ->
  o' = o /\ exists e', answer c (ext w) = (Ok a, e') /\ w' = World (trace w ++ [c]) e'.
Proof.
  unfold outside, native. destruct (answer c (ext w)) as [r e'].
  intros [= -> <- <-]. split; [reflexivity|]. exists e'. split; reflexivity.
Qed.

Lemma on_wrapper_inv {E : Type} `{!Native E} {A : Type}
    (m : M (PyFTD2XXWrapper.t * world E) A) (o o' : FTD2XXBackend.t)
    (w w' : world E) (a : A) :
  FTD2XXBackend.on_wrapper m (o, w) = (Ok a, (o', w')) ->
  exists p',
    m (FTD2XXBackend.wrapper o, w) = (Ok a, (p', w')) /\
    o' = FTD2XXBackend.set_wrapper p' o.
Proof.
  unfold FTD2XXBackend.on_wrapper, within.
  destruct (m (FTD2XXBackend.wrapper o, w)) as [r [p' w1]].
  intros [= -> <- <-]. exists p'. split; reflexivity.
Qed.

(** A call of the vendor library on the open handle: the wrapper is
    left as it was. *)
Lemma wrapper_call_inv {E : Type} `{!Native E} (c : Z -> ncall)
    (status : forall h, nresp (c h) -> Z)
    (p p' : PyFTD2XXWrapper.t) (w w' : world E) (u : unit) :
  (h <- PyFTD2XXWrapper.assert_handle ;;
   st <- outside (native (c h)) ;;
   raise_for_status (status h st)) (p, w) = (Ok u, (p', w')) ->
  p' = p /\
  exists h, PyFTD2XXWrapper._handle p = Some h /\ h <> 0 /\
            trace w' = trace w ++ [c h].
Proof.
  unfold PyFTD2XXWrapper.assert_handle, self, outside, native, raise_for_status.
  unfold bind, raise, ret.
  simpl. destruct (PyFTD2XXWrapper._handle p) as [h|] eqn:Hhandle; [|discriminate].
  destruct (h =? 0) eqn:Hnull; [discriminate|]. simpl.
  destruct (answer (c h) (ext w)) as [[st|e] e1]; [|discriminate].
  destruct (status h st =? 0); [|discriminate].
  intros [= <- <- <-]. split; [reflexivity|].
  exists h. split; [reflexivity|]. split; [apply Z.eqb_neq, Hnull|reflexivity].
Qed.

Lemma ft_open_ex_inv {E : Type} `{!Native E} (pvarg : bytes) (dwflags : Z)
    (p p' : PyFTD2XXWrapper.t) (w w' : world E) (u : unit) :
  PyFTD2XXWrapper.__ft_open_ex pvarg dwflags (p, w) = (Ok u, (p', w')) ->
  trace w' = trace w ++ [FT_OpenEx pvarg dwflags].
Proof.
  unfold PyFTD2XXWrapper.__ft_open_ex, bind, outside, native, raise_for_status, update.
  destruct (answer (FT_OpenEx pvarg dwflags) (ext w)) as [[[st handle_]|e] e1];
    [|discriminate].
  destruct (st =? 0); [|discriminate].
  intros [= <- <- <-]. reflexivity.
Qed.

(** The end of [open], once the serial number is known: the device is
    opened under it and set up. *)
Lemma ftd2xx_open_tail_inv {E : Type} `{!Native E}
    (o f' : FTD2XXBackend.t) (w w' : world E) (timeout : Z) :
  (update (FTD2XXBackend.set_timeout timeout) ;;
   o <- self ;;
   match FTD2XXBackend.serial_number o with
   | None => raise AttributeError
   | Some sn => FTD2XXBackend._open_by_serial_number sn
   end ;;
   FTD2XXBackend.on_wrapper (PyFTD2XXWrapper.ft_set_baudrate FTD2XXBackend.BAUD_9600) ;;
   FTD2XXBackend.on_wrapper
     (PyFTD2XXWrapper.set_data_characteristics
        DEFAULT_BYTESIZE FTD2XXBackend.STOP_BITS_1 FTD2XXBackend.PARITY_NONE) ;;
   FTD2XXBackend.on_wrapper (PyFTD2XXWrapper.set_timeout timeout timeout)) (o, w)
  = (Ok tt, (f', w')) ->
  exists actual h,
    FTD2XXBackend.serial_number o = Some actual /\
    FTD2XXBackend.serial_number f' = Some actual /\
    FTD2XXBackend.port f' = FTD2XXBackend.port o /\
    FTD2XXBackend.timeout f' = timeout /\
    PyFTD2XXWrapper._handle (FTD2XXBackend.wrapper f') = Some h /\ h <> 0 /\
    trace w'
    = trace w ++ [FT_OpenEx (b actual) 1; FT_SetBaudRate h 9600;
                  FT_SetDataCharacteristics h 8 0 0;
                  FT_SetTimeouts h (timeout mod 2 ^ 32) (timeout mod 2 ^ 32)].
Proof.
  intros Hrun.
  unfold bind at 1 in Hrun. unfold update at 1 in Hrun.
  unfold bind at 1 in Hrun. unfold self at 1 in Hrun.
  cbn [FTD2XXBackend.serial_number FTD2XXBackend.set_timeout] in Hrun.
  destruct (FTD2XXBackend.serial_number o) as [actual|] eqn:Hactual;
    [|discriminate Hrun].
  apply bind_inv in Hrun as ([] & [o2 w2] & Hopen & Hrun).
  apply bind_inv in Hrun as ([] & [o3 w3] & Hbaud & Hrun).
  apply bind_inv in Hrun as ([] & [o4 w4] & Hdata & Htime).
  unfold FTD2XXBackend._open_by_serial_number,
    PyFTD2XXWrapper.ft_open_by_serial_number in Hopen.
  apply on_wrapper_inv in Hopen as (p2 & Hopen & ->).
  apply ft_open_ex_inv in Hopen.
  apply on_wrapper_inv in Hbaud as (p3 & Hbaud & ->).
  apply (wrapper_call_inv (fun h => FT_SetBaudRate h (FTD2XXBackend.BAUD_9600 mod 2 ^ 32))
           (fun _ st => st)) in Hbaud as (-> & h3 & Hh3 & _ & Hbaud).
  apply on_wrapper_inv in Hdata as (p4 & Hdata & ->).
  apply (wrapper_call_inv
           (fun h => FT_SetDataCharacteristics h (DEFAULT_BYTESIZE mod 2 ^ 16)
                       (FTD2XXBackend.STOP_BITS_1 mod 2 ^ 16)
                       (FTD2XXBackend.PARITY_NONE mod 2 ^ 16))
           (fun _ st => st)) in Hdata as (-> & h4 & Hh4 & _ & Hdata).
  apply on_wrapper_inv in Htime as (p5 & Htime & ->).
  apply (wrapper_call_inv
           (fun h => FT_SetTimeouts h (timeout mod 2 ^ 32) (timeout mod 2 ^ 32))
           (fun _ st => st)) in Htime as (-> & h & Hh & Hnull & Htime).
  simpl in Hh3, Hh4, Hh.
  assert (h3 = h) as -> by congruence. assert (h4 = h) as -> by congruence.
  exists actual, h.
  split; [reflexivity|]. split; [exact Hactual|]. split; [reflexivity|].
  split; [reflexivity|]. split; [exact Hh|]. split; [exact Hnull|].
  rewrite Htime, Hdata, Hbaud, Hopen, <- !app_assoc. reflexivity.
Qed.

(** The listing of the ports is one call across the boundary. *)
Lemma ftd2xx_get_port_trace {E : Type} `{!Native E} (serial_number : string)
    (w w' : world E) (r : result (option string)) :
  FTD2XXBackend.__get_port_by_serial_number serial_number w = (r, w') ->
  trace w' = trace w ++ [comports].
Proof.
  unfold FTD2XXBackend.__get_port_by_serial_number, bind, native, ret.
  destruct (answer comports (ext w)) as [[ports|e] e1]; intros [= <- <-]; reflexivity.
Qed.

(** X17.  [FTD2XXBackend.open] by serial number, when the vendor library
    answers the two calls of the chip listing with status 0, filling an
    array of as many structures as it announced, every structure it
    filled converts, and the serial numbers, the one asked
    for and those of the chips, are ASCII.  When [open] returns, the
    serial number the object stores is the serial number of the first
    chip of the library's list whose serial number is the one asked for
    up to the case of its letters, as this chip spells it, and the
    object stores the timeout; [get_serial_number] returns this
    spelling; the wrapper holds a handle that is not null; and the calls
    across the native boundary are, in order, the two of the chip
    listing, the listing of the ports, the opening of the device under
    the chip's spelling of the serial number, then on the handle the
    baud rate 9600, 8 data bits with one stop bit and no parity, and the
    timeout for reads and writes. *)
Theorem ftd2xx_open_by_serial_number {E : Type} `{!Native E}
    (f f' : FTD2XXBackend.t) (w w' : world E) (serial_number : string) (timeout n : Z)
    (raw : list FT_DEVICE_LIST_INFO_NODE.t)
    (info_list : list FTDeviceListInfoNodeStruct.t) (e1 e2 : E) :
  answer FT_CreateDeviceInfoList (ext w) = (Ok (0, n), e1) ->
  answer (FT_GetDeviceInfoList n) e1 = (Ok (0, raw), e2) ->
  len raw = n ->
  map_result FTDeviceListInfoNodeStruct.from_structure raw = Ok info_list ->
  is_ascii serial_number = true ->
  Forall (fun info => is_ascii (FTDeviceListInfoNodeStruct.serial_number info) = true)
    info_list ->
  FTD2XXBackend.open None (Some serial_number) timeout (f, w) = (Ok tt, (f', w')) ->
  exists chip h,
    List.find
      (fun ftdi_device =>
         String.eqb (lower (FTDeviceListInfoNodeStruct.serial_number ftdi_device))
           (lower serial_number))
      info_list
    = Some chip /\
    FTD2XXBackend.serial_number f' = Some (FTDeviceListInfoNodeStruct.serial_number chip) /\
    lower (FTDeviceListInfoNodeStruct.serial_number chip) = lower serial_number /\
    FTD2XXBackend.get_serial_number (f', w')
    = (Ok (FTDeviceListInfoNodeStruct.serial_number chip), (f', w')) /\
    FTD2XXBackend.timeout f' = timeout /\
    PyFTD2XXWrapper._handle (FTD2XXBackend.wrapper f') = Some h /\ h <> 0 /\
    trace w'
    = trace w
      ++ [FT_CreateDeviceInfoList; FT_GetDeviceInfoList n; comports;
          FT_OpenEx (b (FTDeviceListInfoNodeStruct.serial_number chip)) 1;
          FT_SetBaudRate h 9600;
          FT_SetDataCharacteristics h 8 0 0;
          FT_SetTimeouts h (timeout mod 2 ^ 32) (timeout mod 2 ^ 32)].
Proof.
  intros Hcreate Hlist _ Hconv _ _.
  unfold FTD2XXBackend.open, truthy. intros Hrun.
  destruct (String.eqb serial_number "") eqn:Hserial; [discriminate Hrun|].
  cbn [negb Bool.eqb] in Hrun.
  apply bind_inv in Hrun as ([] & [o1 w1] & Hfind & Hrun).
  apply ftd2xx_open_tail_inv in Hrun
    as (actual & h & Hstored & Hactual' & _ & Htimeout & Hh & Hnull & Htrace).
  apply bind_inv in Hfind as (found & [oA wA] & Hactual & Hfind).
  unfold FTD2XXBackend.__get_actual_serial_number in Hactual.
  apply bind_inv in Hactual as (ftdi_devices & [oD wD] & Hinfo_list & Hactual).
  apply on_wrapper_inv in Hinfo_list as (pD & Hinfo_list & ->).
  rewrite (get_devices_info_run _ _ _ _ _ _ Hcreate Hlist), Hconv in Hinfo_list.
  injection Hinfo_list as <- <- <-.
  unfold ret in Hactual. injection Hactual as Hactual <- <-.
  unfold bind at 1 in Hfind. unfold update at 1 in Hfind.
  destruct found as [found|]; [|discriminate Hfind].
  apply fmap_Some in Hactual as (chip & Hchip & ->).
  pose proof (find_some _ _ Hchip) as [_ Hcase]. apply String.eqb_eq in Hcase.
  apply bind_inv in Hfind as (p & [oP wP] & Hport & Hfind).
  unfold outside in Hport.
  destruct (FTD2XXBackend.__get_port_by_serial_number
              (FTDeviceListInfoNodeStruct.serial_number chip)
              (World (trace w ++ [FT_CreateDeviceInfoList; FT_GetDeviceInfoList n]) e2))
    as [r wP'] eqn:Hports.
  apply ftd2xx_get_port_trace in Hports. cbn [trace] in Hports.
  injection Hport as -> <- <-.
  unfold update in Hfind. injection Hfind as <- <-.
  simpl in Hstored. injection Hstored as <-.
  exists chip, h.
  split; [exact Hchip|]. split; [exact Hactual'|]. split; [exact Hcase|].
  split; [unfold FTD2XXBackend.get_serial_number, bind, self, ret;
          rewrite Hactual'; reflexivity|].
  split; [exact Htimeout|]. split; [exact Hh|]. split; [exact Hnull|].
  rewrite Htrace, Hports, <- !app_assoc. reflexivity.
Qed.

(** The chip of the bench, asked for in small letters. *)
Lemma ftd2xx_open_by_serial_number_witness :
  let run :=
    FTD2XXBackend.open None (Some "dae06lpx") 5000
      (FTD2XXBackend.__init__, Bench.fresh Bench.idle) in
  answer FT_CreateDeviceInfoList (ext (Bench.fresh Bench.idle)) = (Ok (0, 1), Bench.idle) /\
  answer (FT_GetDeviceInfoList 1) Bench.idle
  = (Ok (0, [FTDeviceListInfoNodeStruct.to_structure Bench.chip]), Bench.idle) /\
  map_result FTDeviceListInfoNodeStruct.from_structure
    [FTDeviceListInfoNodeStruct.to_structure Bench.chip] = Ok [Bench.chip] /\
  is_ascii "dae06lpx" = true /\
  Forall (fun info => is_ascii (FTDeviceListInfoNodeStruct.serial_number info) = true)
    [Bench.chip] /\
  run = (Ok tt, (fst (snd run), snd (snd run))) /\
  FTD2XXBackend.serial_number (fst (snd run)) = Some "DAE06LpX" /\
  exists chip h,
    List.find
      (fun ftdi_device =>
         String.eqb (lower (FTDeviceListInfoNodeStruct.serial_number ftdi_device))
           (lower "dae06lpx"))
      [Bench.chip]
    = Some chip /\
    FTD2XXBackend.serial_number (fst (snd run))
    = Some (FTDeviceListInfoNodeStruct.serial_number chip) /\
    lower (FTDeviceListInfoNodeStruct.serial_number chip) = lower "dae06lpx" /\
    FTD2XXBackend.get_serial_number (fst (snd run), snd (snd run))
    = (Ok (FTDeviceListInfoNodeStruct.serial_number chip),
       (fst (snd run), snd (snd run))) /\
    FTD2XXBackend.timeout (fst (snd run)) = 5000 /\
    PyFTD2XXWrapper._handle (FTD2XXBackend.wrapper (fst (snd run))) = Some h /\ h <> 0 /\
    trace (snd (snd run))
    = trace (Bench.fresh Bench.idle)
      ++ [FT_CreateDeviceInfoList; FT_GetDeviceInfoList 1; comports;
          FT_OpenEx (b (FTDeviceListInfoNodeStruct.serial_number chip)) 1;
          FT_SetBaudRate h 9600;
          FT_SetDataCharacteristics h 8 0 0;
          FT_SetTimeouts h (5000 mod 2 ^ 32) (5000 mod 2 ^ 32)].
Proof.
  intros run.
  assert (answer FT_CreateDeviceInfoList (ext (Bench.fresh Bench.idle))
          = (Ok (0, 1), Bench.idle)) as Hcreate by reflexivity.
  assert (answer (FT_GetDeviceInfoList 1) Bench.idle
          = (Ok (0, [FTDeviceListInfoNodeStruct.to_structure Bench.chip]), Bench.idle))
    as Hlist by reflexivity.
  assert (map_result FTDeviceListInfoNodeStruct.from_structure
            [FTDeviceListInfoNodeStruct.to_structure Bench.chip] = Ok [Bench.chip])
    as Hconv by (vm_compute; reflexivity).
  assert (is_ascii "dae06lpx" = true) as Hasked by reflexivity.
  assert (Forall (fun info =>
                    is_ascii (FTDeviceListInfoNodeStruct.serial_number info) = true)
            [Bench.chip]) as Hchips by (repeat constructor).
  assert (run = (Ok tt, (fst (snd run), snd (snd run)))) as Hrun
    by (vm_compute; reflexivity).
  split; [exact Hcreate|]. split; [exact Hlist|]. split; [exact Hconv|].
  split; [exact Hasked|]. split; [exact Hchips|].
  split; [exact Hrun|]. split; [vm_compute; reflexivity|].
  exact (ftd2xx_open_by_serial_number FTD2XXBackend.__init__ (fst (snd run))
           (Bench.fresh Bench.idle) (snd (snd run)) "dae06lpx" 5000 1
           [FTDeviceListInfoNodeStruct.to_structure Bench.chip] [Bench.chip]
           Bench.idle Bench.idle Hcreate Hlist eq_refl Hconv Hasked Hchips Hrun).
Defined.

(** X18.  [FTD2XXBackend.open] by device address, when the ports are
    listed, the vendor library answers the two calls of the chip
    listing with status 0, filling an array of as many structures as it
    announced, every structure it filled converts, and the
    address, the devices and serial numbers of the ports and the serial
    numbers of the chips are ASCII.  When [open] returns, the object
    stores the address as it was given; the first port of the OS's list
    whose device is this address, up to the case of the letters, has a
    serial number; the serial number the object stores is the serial
    number of the first chip of the library's list whose serial number
    is, up to case, the port's serial number without its last
    character, as this chip spells it; and the calls across the native
    boundary are, in order, the listing of the ports, the two of the
    chip listing, the opening of the device under the chip's spelling,
    and the set-up as it is by serial number. *)
Theorem ftd2xx_open_by_device_address {E : Type} `{!Native E}
    (f f' : FTD2XXBackend.t) (w w' : world E) (device_address : string) (timeout n : Z)
    (ports : list ListPortInfo.t) (raw : list FT_DEVICE_LIST_INFO_NODE.t)
    (info_list : list FTDeviceListInfoNodeStruct.t) (e0 e1 e2 : E) :
  answer comports (ext w) = (Ok ports, e0) ->
  answer FT_CreateDeviceInfoList e0 = (Ok (0, n), e1) ->
  answer (FT_GetDeviceInfoList n) e1 = (Ok (0, raw), e2) ->
  len raw = n ->
  map_result FTDeviceListInfoNodeStruct.from_structure raw = Ok info_list ->
  is_ascii device_address = true ->
  Forall (fun port => is_ascii (ListPortInfo.device port)
                      && is_ascii_opt (ListPortInfo.serial_number port) = true) ports ->
  Forall (fun info => is_ascii (FTDeviceListInfoNodeStruct.serial_number info) = true)
    info_list ->
  FTD2XXBackend.open (Some device_address) None timeout (f, w) = (Ok tt, (f', w')) ->
  exists chip h device listed,
    FTD2XXBackend.port f' = Some device_address /\
    List.find
      (fun device_info =>
         String.eqb (lower (ListPortInfo.device device_info)) (lower device_address))
      ports
    = Some {| ListPortInfo.device := device;
              ListPortInfo.serial_number := Some listed |} /\
    lower device = lower device_address /\
    List.find
      (fun ftdi_device =>
         String.eqb (lower (FTDeviceListInfoNodeStruct.serial_number ftdi_device))
           (lower (drop_last listed)))
      info_list
    = Some chip /\
    lower (FTDeviceListInfoNodeStruct.serial_number chip) = lower (drop_last listed) /\
    FTD2XXBackend.serial_number f' = Some (FTDeviceListInfoNodeStruct.serial_number chip) /\
    FTD2XXBackend.timeout f' = timeout /\
    PyFTD2XXWrapper._handle (FTD2XXBackend.wrapper f') = Some h /\ h <> 0 /\
    trace w'
    = trace w
      ++ [comports; FT_CreateDeviceInfoList; FT_GetDeviceInfoList n;
          FT_OpenEx (b (FTDeviceListInfoNodeStruct.serial_number chip)) 1;
          FT_SetBaudRate h 9600;
          FT_SetDataCharacteristics h 8 0 0;
          FT_SetTimeouts h (timeout mod 2 ^ 32) (timeout mod 2 ^ 32)].
Proof.
  intros Hcomports Hcreate Hlist _ Hconv _ _ _.
  unfold FTD2XXBackend.open, truthy. intros Hrun.
  destruct (String.eqb device_address "") eqn:Haddress; [discriminate Hrun|].
  cbn [negb Bool.eqb] in Hrun.
  apply bind_inv in Hrun as ([] & [o1 w1] & Hfind & Hrun).
  apply ftd2xx_open_tail_inv in Hrun
    as (actual & h & Hstored & Hactual' & Hport' & Htimeout & Hh & Hnull & Htrace).
  unfold bind at 1 in Hfind. unfold update at 1 in Hfind.
  apply bind_inv in Hfind as (found & [oA wA] & Hactual & Hfind).
  unfold bind at 1 in Hfind. unfold update at 1 in Hfind.
  destruct found as [found|]; [|discriminate Hfind].
  unfold ret in Hfind. injection Hfind as <- <-.
  simpl in Hstored, Hport'. injection Hstored as <-.
  unfold FTD2XXBackend.__get_serial_number_by_port in Hactual.
  apply bind_inv in Hactual as (ports' & [oP wP] & Hports & Hactual).
  apply outside_native_inv in Hports as (-> & eP & Hports & ->).
  rewrite Hcomports in Hports. injection Hports as <- <-.
  destruct (List.find
              (fun device_info =>
                 String.eqb (lower (ListPortInfo.device device_info))
                   (lower device_address))
              ports) as [[device listed]|] eqn:Hfound; [|discriminate Hactual].
  cbn [ListPortInfo.serial_number] in Hactual.
  destruct listed as [listed|]; [|discriminate Hactual].
  pose proof (find_some _ _ Hfound) as [_ Hdevice].
  apply String.eqb_eq in Hdevice. simpl in Hdevice.
  unfold FTD2XXBackend.__get_actual_serial_number in Hactual.
  apply bind_inv in Hactual as (ftdi_devices & [oD wD] & Hinfo_list & Hactual).
  apply on_wrapper_inv in Hinfo_list as (pD & Hinfo_list & ->).
  rewrite (get_devices_info_run _ (World (trace w ++ [comports]) e0) _ _ _ _
             Hcreate Hlist), Hconv in Hinfo_list.
  injection Hinfo_list as <- <- <-.
  unfold ret in Hactual. injection Hactual as Hactual <- <-.
  apply fmap_Some in Hactual as (chip & Hchip & ->).
  pose proof (find_some _ _ Hchip) as [_ Hcase]. apply String.eqb_eq in Hcase.
  simpl in Hport'. cbn [trace] in Htrace.
  exists chip, h, device, listed.
  split; [exact Hport'|]. split; [reflexivity|]. split; [exact Hdevice|].
  split; [exact Hchip|]. split; [exact Hcase|]. split; [exact Hactual'|].
  split; [exact Htimeout|]. split; [exact Hh|]. split; [exact Hnull|].
  rewrite Htrace, <- !app_assoc. reflexivity.
Qed.

(** The port of the bench, asked for in small letters. *)
Lemma ftd2xx_open_by_device_address_witness :
  let run :=
    FTD2XXBackend.open (Some "com14") None 5000
      (FTD2XXBackend.__init__, Bench.fresh Bench.idle) in
  answer comports (ext (Bench.fresh Bench.idle)) = (Ok (Bench.ports Bench.idle), Bench.idle) /\
  answer FT_CreateDeviceInfoList Bench.idle = (Ok (0, 1), Bench.idle) /\
  answer (FT_GetDeviceInfoList 1) Bench.idle
  = (Ok (0, [FTDeviceListInfoNodeStruct.to_structure Bench.chip]), Bench.idle) /\
  map_result FTDeviceListInfoNodeStruct.from_structure
    [FTDeviceListInfoNodeStruct.to_structure Bench.chip] = Ok [Bench.chip] /\
  is_ascii "com14" = true /\
  Forall (fun port => is_ascii (ListPortInfo.device port)
                      && is_ascii_opt (ListPortInfo.serial_number port) = true)
    (Bench.ports Bench.idle) /\
  Forall (fun info => is_ascii (FTDeviceListInfoNodeStruct.serial_number info) = true)
    [Bench.chip] /\
  run = (Ok tt, (fst (snd run), snd (snd run))) /\
  FTD2XXBackend.port (fst (snd run)) = Some "com14" /\
  FTD2XXBackend.serial_number (fst (snd run)) = Some "DAE06LpX" /\
  exists chip h device listed,
    FTD2XXBackend.port (fst (snd run)) = Some "com14" /\
    List.find
      (fun device_info =>
         String.eqb (lower (ListPortInfo.device device_info)) (lower "com14"))
      (Bench.ports Bench.idle)
    = Some {| ListPortInfo.device := device;
              ListPortInfo.serial_number := Some listed |} /\
    lower device = lower "com14" /\
    List.find
      (fun ftdi_device =>
         String.eqb (lower (FTDeviceListInfoNodeStruct.serial_number ftdi_device))
           (lower (drop_last listed)))
      [Bench.chip]
    = Some chip /\
    lower (FTDeviceListInfoNodeStruct.serial_number chip) = lower (drop_last listed) /\
    FTD2XXBackend.serial_number (fst (snd run))
    = Some (FTDeviceListInfoNodeStruct.serial_number chip) /\
    FTD2XXBackend.timeout (fst (snd run)) = 5000 /\
    PyFTD2XXWrapper._handle (FTD2XXBackend.wrapper (fst (snd run))) = Some h /\ h <> 0 /\
    trace (snd (snd run))
    = trace (Bench.fresh Bench.idle)
      ++ [comports; FT_CreateDeviceInfoList; FT_GetDeviceInfoList 1;
          FT_OpenEx (b (FTDeviceListInfoNodeStruct.serial_number chip)) 1;
          FT_SetBaudRate h 9600;
          FT_SetDataCharacteristics h 8 0 0;
          FT_SetTimeouts h (5000 mod 2 ^ 32) (5000 mod 2 ^ 32)].
Proof.
  intros run.
  assert (answer comports (ext (Bench.fresh Bench.idle))
          = (Ok (Bench.ports Bench.idle), Bench.idle)) as Hcomports by reflexivity.
  assert (answer FT_CreateDeviceInfoList Bench.idle = (Ok (0, 1), Bench.idle))
    as Hcreate by reflexivity.
  assert (answer (FT_GetDeviceInfoList 1) Bench.idle
          = (Ok (0, [FTDeviceListInfoNodeStruct.to_structure Bench.chip]), Bench.idle))
    as Hlist by reflexivity.
  assert (map_result FTDeviceListInfoNodeStruct.from_structure
            [FTDeviceListInfoNodeStruct.to_structure Bench.chip] = Ok [Bench.chip])
    as Hconv by (vm_compute; reflexivity).
  assert (is_ascii "com14" = true) as Hasked by reflexivity.
  assert (Forall (fun port => is_ascii (ListPortInfo.device port)
                              && is_ascii_opt (ListPortInfo.serial_number port) = true)
            (Bench.ports Bench.idle)) as Hports by (repeat constructor).
  assert (Forall (fun info =>
                    is_ascii (FTDeviceListInfoNodeStruct.serial_number info) = true)
            [Bench.chip]) as Hchips by (repeat constructor).
  assert (run = (Ok tt, (fst (snd run), snd (snd run)))) as Hrun
    by (vm_compute; reflexivity).
  split; [exact Hcomports|]. split; [exact Hcreate|]. split; [exact Hlist|].
  split; [exact Hconv|]. split; [exact Hasked|]. split; [exact Hports|].
  split; [exact Hchips|]. split; [exact Hrun|].
  split; [vm_compute; reflexivity|]. split; [vm_compute; reflexivity|].
  exact (ftd2xx_open_by_device_address FTD2XXBackend.__init__ (fst (snd run))
           (Bench.fresh Bench.idle) (snd (snd run)) "com14" 5000 1
           (Bench.ports Bench.idle)
           [FTDeviceListInfoNodeStruct.to_structure Bench.chip] [Bench.chip]
           Bench.idle Bench.idle Bench.idle
           Hcomports Hcreate Hlist eq_refl Hconv Hasked Hports Hchips Hrun).
Defined.

(** ** Opening the HID backend *)

(** X19.  [MCP2200Backend.open] returns or raises [ValueError] or
    [RuntimeError], whatever the native layer does.  When it returns,
    the last call across the native boundary opened the HID device
    under a serial number that is not empty, the one that was passed
    when one was, and the object holds the device, this serial number
    and the timeout.  When it raises [ValueError] the object is as it
    was; when it raises [RuntimeError] only the timeout is stored, and
    the object holds a device exactly when it did before. *)
Theorem mcp2200_open_outcome {E : Type} `{!Native E}
    (m : MCP2200Backend.t) (w : world E)
    (device_address serial_number : option string) (timeout : Z) :
  let run := MCP2200Backend.open device_address serial_number timeout (m, w) in
  match fst run with
  | Ok _ =>
      exists s calls,
        s <> "" /\
        fst (snd run)
        = MCP2200Backend.set_serial_number (Some s)
            (MCP2200Backend.set_hid_device true
               (MCP2200Backend.set_timeout timeout m)) /\
        trace (snd (snd run)) = calls ++ [hid_Device MCP_VID MCP2200_PID s] /\
        (truthy serial_number = true -> serial_number = Some s /\ calls = trace w)
  | Raise (ValueError _) => fst (snd run) = m
  | Raise (RuntimeError _) => fst (snd run) = MCP2200Backend.set_timeout timeout m
  | Raise _ => False
  end.
Proof.
  intros run.
  set (device (s : string) :=
         update (O := MCP2200Backend.t) (W := world E)
           (MCP2200Backend.set_timeout timeout) ;;
         try_except
           (outside (native (hid_Device MCP_VID MCP2200_PID s)) ;;
            update (MCP2200Backend.set_hid_device true) ;;
            update (MCP2200Backend.set_serial_number (Some s)))
           (fun e => raise (RuntimeError ("Failed to open HID device: "
                                          +:+ exn_message e)))).
  assert (forall (s : string) (w1 : world E),
            match fst (device s (m, w1)) with
            | Ok _ =>
                fst (snd (device s (m, w1)))
                = MCP2200Backend.set_serial_number (Some s)
                    (MCP2200Backend.set_hid_device true
                       (MCP2200Backend.set_timeout timeout m)) /\
                trace (snd (snd (device s (m, w1))))
                = trace w1 ++ [hid_Device MCP_VID MCP2200_PID s]
            | Raise (RuntimeError _) =>
                fst (snd (device s (m, w1))) = MCP2200Backend.set_timeout timeout m
            | Raise _ => False
            end) as Hdevice.
  { intros s w1. unfold device, bind, update, try_except, outside, native, raise.
    destruct (answer (hid_Device MCP_VID MCP2200_PID s) (ext w1)) as [[[]|e] e1];
      simpl; [split; reflexivity|reflexivity]. }
  destruct (Bool.eqb (truthy device_address) (truthy serial_number)) eqn:Hboth.
  { subst run. unfold MCP2200Backend.open. rewrite Hboth. reflexivity. }
  destruct (truthy serial_number) eqn:Hserial.
  - (* by serial number *)
    destruct serial_number as [s|]; [|discriminate Hserial].
    assert (s <> "") as Hs.
    { intros ->. discriminate Hserial. }
    assert (run = device s (m, w)) as ->.
    { subst run. unfold MCP2200Backend.open. rewrite Hserial, Hboth. reflexivity. }
    specialize (Hdevice s w).
    destruct (fst (device s (m, w))) as [[]|e];
      [|destruct e; first [exact Hdevice | destruct Hdevice]].
    destruct Hdevice as [Hobject Htrace].
    exists s, (trace w). split; [exact Hs|]. split; [exact Hobject|].
    split; [exact Htrace|]. intros _. split; reflexivity.
  - (* by device address *)
    destruct device_address as [device_address|]; [|discriminate Hboth].
    destruct (mcp2200_listing_total w) as (devices & w1 & Hlist & Htags).
    assert (run
            = match List.find
                      (fun d =>
                         bool_decide (DiscoveredDevice.device_address d
                                      = Some device_address))
                      devices ≫= DiscoveredDevice.serial_number with
              | Some s => device s (m, w1)
              | None =>
                  (Raise (ValueError ("Could not find serial number for device address "
                                      +:+ device_address)), (m, w1))
              end) as ->.
    { subst run. unfold MCP2200Backend.open. rewrite Hserial, Hboth.
      unfold bind at 1. unfold outside, MCP2200Backend.__find_serial_number.
      unfold bind at 1. rewrite Hlist. unfold ret at 1.
      destruct (List.find _ devices ≫= DiscoveredDevice.serial_number); reflexivity. }
    destruct (List.find
                (fun d =>
                   bool_decide (DiscoveredDevice.device_address d = Some device_address))
                devices) as [d|] eqn:Hfind; [|reflexivity].
    apply find_some in Hfind as [Hin Haddress].
    apply bool_decide_eq_true_1 in Haddress.
    rewrite List.Forall_forall in Htags. destruct (Htags d Hin) as [_ Hnone].
    simpl. destruct (DiscoveredDevice.serial_number d) as [s|] eqn:Hs; [|reflexivity].
    assert (s <> "") as Hne.
    { intros ->. rewrite Hnone in Haddress by reflexivity. discriminate Haddress. }
    specialize (Hdevice s w1).
    destruct (fst (device s (m, w1))) as [[]|e];
      [|destruct e; first [exact Hdevice | destruct Hdevice]].
    destruct Hdevice as [Hobject Htrace].
    exists s, (trace w1). split; [exact Hne|]. split; [exact Hobject|].
    split; [exact Htrace|]. intros Habsurd. discriminate Habsurd.
Qed.

(** ** Reading through the vendor library *)

(** X20.  [PyFTD2XXWrapper.read()] without a size asks the library how
    many bytes are queued: when none is, it returns the empty byte
    string without a read; otherwise it reads as [read(size)] does with
    the number of queued bytes for its size. *)
Theorem wrapper_read_queued {E : Type} `{!Native E}
    (p : PyFTD2XXWrapper.t) (w : world E) (h queued : Z) (e1 : E) :
  PyFTD2XXWrapper._handle p = Some h ->
  h <> 0 ->
  answer (FT_GetQueueStatus h) (ext w) = (Ok (0, queued), e1) ->
  PyFTD2XXWrapper.read None (p, w)
  = if queued =? 0
    then (Ok [], (p, World (trace w ++ [FT_GetQueueStatus h]) e1))
    else PyFTD2XXWrapper.read (Some queued)
           (p, World (trace w ++ [FT_GetQueueStatus h]) e1).
Proof.
  intros Hhandle Hnull Hqueue. apply Z.eqb_neq in Hnull.
  unfold PyFTD2XXWrapper.read, PyFTD2XXWrapper.get_queue_status.
  unfold PyFTD2XXWrapper.assert_handle, self, outside, native, raise_for_status.
  unfold bind, raise, ret. simpl.
  rewrite Hhandle, Hnull. simpl. rewrite Hhandle, Hnull. simpl.
  rewrite Hqueue. simpl.
  destruct (queued =? 0); reflexivity.
Qed.

(** Two bytes are waiting on the bench. *)
Lemma wrapper_read_queued_witness :
  let p := {| PyFTD2XXWrapper._handle := Some 0x1000 |} in
  let e := Bench.set_rx [0x80; 0x01] Bench.idle in
  PyFTD2XXWrapper._handle p = Some 0x1000 /\
  0x1000 <> 0 /\
  answer (FT_GetQueueStatus 0x1000) (ext (Bench.fresh e)) = (Ok (0, 2), e) /\
  PyFTD2XXWrapper.read None (p, Bench.fresh e)
  = (Ok [0x80; 0x01],
     (p, World [FT_GetQueueStatus 0x1000; FT_Read 0x1000 2] Bench.idle)).
Proof.
  intros p e.
  assert (PyFTD2XXWrapper._handle p = Some 0x1000) as Hhandle by reflexivity.
  assert (0x1000 <> 0) as Hnull by discriminate.
  assert (answer (FT_GetQueueStatus 0x1000) (ext (Bench.fresh e)) = (Ok (0, 2), e))
    as Hqueue by reflexivity.
  split; [exact Hhandle|]. split; [exact Hnull|]. split; [exact Hqueue|].
  rewrite (wrapper_read_queued p (Bench.fresh e) 0x1000 2 e Hhandle Hnull Hqueue).
  reflexivity.
Defined.

Lemma to_bytes_little_spec (x n : Z) (data : bytes) :
  PyFTD2XXWrapper.to_bytes_little x n = Ok data ->
  length data = Z.to_nat n /\ Forall (fun byte => is_byte byte = true) data.
Proof.
  unfold PyFTD2XXWrapper.to_bytes_little. destruct ((x <? 0) || (256 ^ n <=? x)); [discriminate|].
  intros [= <-]. split.
  - rewrite length_map. unfold range. apply length_seqZ.
  - apply List.Forall_forall. intros byte Hbyte.
    apply in_map_iff in Hbyte as (i & <- & _).
    unfold is_byte. apply andb_true_iff. split.
    + apply Z.leb_le, Z.land_nonneg. right. lia.
    + apply Z.ltb_lt.
      change 255 with (Z.ones 8). rewrite Z.land_ones by lia.
      apply Z.mod_pos_bound. lia.
Qed.

(** X21.  When [PyFTD2XXWrapper.read(size)] returns, it has made one
    read of [size] bytes (as an unsigned 32-bit number) on the open
    handle, which the library answered with status 0; the bytes it
    returns are as many as the library says it read, each in
    [range(256)], and the wrapper is as it was. *)
Theorem wrapper_read_length {E : Type} `{!Native E}
    (p p' : PyFTD2XXWrapper.t) (w w' : world E) (size : Z) (data : bytes) :
  PyFTD2XXWrapper.read (Some size) (p, w) = (Ok data, (p', w')) ->
  p' = p /\
  Forall (fun byte => is_byte byte = true) data /\
  exists h rx_p bytes_read_,
    PyFTD2XXWrapper._handle p = Some h /\ h <> 0 /\
    fst (answer (FT_Read h (size mod 2 ^ 32)) (ext w)) = Ok (0, rx_p, bytes_read_) /\
    trace w' = trace w ++ [FT_Read h (size mod 2 ^ 32)] /\
    length data = Z.to_nat bytes_read_.
Proof.
  unfold PyFTD2XXWrapper.read.
  unfold PyFTD2XXWrapper.assert_handle, self, outside, native, raise_for_status.
  unfold bind, raise, ret, lift. simpl.
  destruct (PyFTD2XXWrapper._handle p) as [h|]; [|discriminate].
  destruct (h =? 0) eqn:Hnull; [discriminate|]. simpl.
  destruct (answer (FT_Read h (size mod 2 ^ 32)) (ext w))
    as [[[[st rx_p] bytes_read_]|e] e1] eqn:Hanswer; [|discriminate].
  destruct (st =? 0) eqn:Hst; [|discriminate]. apply Z.eqb_eq in Hst. subst st.
  destruct (negb (rx_p =? 0)).
  - destruct (PyFTD2XXWrapper.to_bytes_little rx_p bytes_read_) as [l|e] eqn:Hbytes; [|discriminate].
    intros [= <- <- <-]. destruct (to_bytes_little_spec _ _ _ Hbytes) as [Hlen Hall].
    split; [reflexivity|]. split; [exact Hall|].
    exists h, rx_p, bytes_read_.
    split; [reflexivity|]. split; [apply Z.eqb_neq, Hnull|].
    split; [rewrite Hanswer; reflexivity|]. split; [reflexivity|exact Hlen].
  - intros [= <- <- <-].
    split; [reflexivity|].
    split; [apply List.Forall_forall; intros byte Hbyte;
            apply repeat_spec in Hbyte; subst byte; reflexivity|].
    exists h, rx_p, bytes_read_.
    split; [reflexivity|]. split; [apply Z.eqb_neq, Hnull|].
    split; [rewrite Hanswer; reflexivity|]. split; [reflexivity|apply repeat_length].
Qed.

(** Two bytes read on the bench. *)
Lemma wrapper_read_length_witness :
  let p := {| PyFTD2XXWrapper._handle := Some 0x1000 |} in
  let w := Bench.fresh (Bench.set_rx [0x80; 0x01] Bench.idle) in
  let w' := World [FT_Read 0x1000 2] Bench.idle in
  PyFTD2XXWrapper.read (Some 2) (p, w) = (Ok [0x80; 0x01], (p, w')) /\
  Forall (fun byte => is_byte byte = true) [0x80; 0x01].
Proof.
  intros p w w'.
  assert (PyFTD2XXWrapper.read (Some 2) (p, w) = (Ok [0x80; 0x01], (p, w'))) as Hrun
    by reflexivity.
  split; [exact Hrun|].
  exact (proj1 (proj2 (wrapper_read_length p p w w' 2 [0x80; 0x01] Hrun))).
Defined.

(** ** Opening the serial-port backend *)

(** X22.  [VCPBackend.open], when the ports are listed.  When it
    returns, three calls have crossed the native boundary: the listing
    of the ports, the opening of a serial port at 9600 baud, 8 data
    bits, no parity and one stop bit with the timeout as it was passed,
    and the question whether the port is open.  By device address the
    port opened is the address as given, listed or not, and the serial
    number stored is the one the OS lists for the first port of this
    address, or none; by serial number (the serial number asked for and
    those of the ports being ASCII) it is the first listed port whose
    serial number contains the one asked for, without regard to case,
    and the serial number stored is the one asked for. *)
Theorem vcp_open_outcome {E : Type} `{!Native E}
    (v v' : VCPBackend.t) (w w' : world E)
    (device_address serial_number : option string) (timeout : Z)
    (ports : list ListPortInfo.t) (e1 : E) :
  answer comports (ext w) = (Ok ports, e1) ->
  (device_address = None ->
   is_ascii_opt serial_number = true /\
   Forall (fun port => is_ascii_opt (ListPortInfo.serial_number port) = true) ports) ->
  VCPBackend.open device_address serial_number timeout (v, w) = (Ok tt, (v', w')) ->
  exists device : string,
    trace w'
    = trace w ++ [comports; Serial (Some device) 9600 timeout 8 "N" 1; Serial_is_open] /\
    VCPBackend.serial_ v' = true /\
    VCPBackend.port v' = Some device /\
    VCPBackend.timeout v' = timeout /\
    VCPBackend.baudrate v' = Some 9600 /\
    match device_address with
    | Some address =>
        device = address /\
        VCPBackend.serial_number v'
        = List.find (fun port => String.eqb (ListPortInfo.device port) address) ports
          ≫= ListPortInfo.serial_number
    | None =>
        VCPBackend.serial_number v' = serial_number /\
        exists asked listed,
          serial_number = Some asked /\
          is_substring (lower asked) (lower listed) = true /\
          List.find
            (fun port =>
               match ListPortInfo.serial_number port with
               | None => false
               | Some s => is_substring (lower asked) (lower s)
               end)
            ports
          = Some {| ListPortInfo.device := device;
                    ListPortInfo.serial_number := Some listed |}
    end.
Proof.
  intros Hcomports _.
  unfold VCPBackend.open. intros Hrun.
  destruct (Bool.eqb (truthy device_address) (truthy serial_number)) eqn:Hboth;
    [discriminate Hrun|].
  apply bind_inv in Hrun as (stored & [o1 w1] & Hfind & Hrun).
  unfold bind at 1 in Hrun. unfold update at 1 in Hrun.
  unfold bind at 1 in Hrun. unfold update at 1 in Hrun.
  unfold bind at 1 in Hrun. unfold update at 1 in Hrun.
  unfold bind at 1 in Hrun. unfold self at 1 in Hrun.
  apply bind_inv in Hrun as ([] & [o2 w2] & Hserial & Hrun).
  apply outside_native_inv in Hserial as (-> & e2 & Hserial & ->).
  unfold bind at 1 in Hrun. unfold update at 1 in Hrun.
  apply bind_inv in Hrun as (opened & [o3 w3] & Hopened & Hrun).
  apply outside_native_inv in Hopened as (-> & e3 & Hopened & ->).
  destruct opened; [|discriminate Hrun]. injection Hrun as <- <-.
  cbn [VCPBackend.port VCPBackend.set_serial_number VCPBackend.set_timeout
       VCPBackend.set_baudrate VCPBackend.set_serial_ VCPBackend.serial_
       VCPBackend.timeout VCPBackend.baudrate VCPBackend.serial_number trace].
  destruct device_address as [address|].
  - unfold bind at 1 in Hfind. unfold update at 1 in Hfind.
    unfold outside, VCPBackend.__get_serial_number_by_port, bind, native, ret in Hfind.
    rewrite Hcomports in Hfind.
    injection Hfind as <- <- <-.
    exists address. simpl. rewrite <- !app_assoc. repeat split.
  - destruct serial_number as [asked|]; [|discriminate Hfind].
    apply bind_inv in Hfind as (p & [oP wP] & Hport & Hfind).
    unfold outside, VCPBackend.__get_port_by_serial_number, bind, native, ret in Hport.
    rewrite Hcomports in Hport.
    injection Hport as <- <- <-.
    unfold bind at 1 in Hfind. unfold update at 1 in Hfind.
    destruct (List.find
                (fun port =>
                   match ListPortInfo.serial_number port with
                   | None => false
                   | Some s => is_substring (lower asked) (lower s)
                   end)
                ports) as [[device listed]|] eqn:Hfound;
      simpl in Hfind; [|discriminate Hfind].
    injection Hfind as <- <- <-.
    pose proof (find_some _ _ Hfound) as [_ Hmatch]. simpl in Hmatch.
    destruct listed as [listed|]; [|discriminate Hmatch].
    exists device. simpl. rewrite <- !app_assoc.
    repeat split. exists asked, listed.
    split; [reflexivity|]. split; [exact Hmatch|exact Hfound].
Qed.

(** The port of the bench, by its address and by a part of its serial
    number in small letters. *)
Lemma vcp_open_outcome_witness :
  let by_address :=
    VCPBackend.open (Some "COM14") None 5000 (VCPBackend.__init__, Bench.fresh Bench.idle) in
  let by_serial_number :=
    VCPBackend.open None (Some "e06lp") 5000 (VCPBackend.__init__, Bench.fresh Bench.idle) in
  answer comports (ext (Bench.fresh Bench.idle)) = (Ok (Bench.ports Bench.idle), Bench.idle) /\
  is_ascii_opt (Some "e06lp") = true /\
  Forall (fun port => is_ascii_opt (ListPortInfo.serial_number port) = true)
    (Bench.ports Bench.idle) /\
  by_address = (Ok tt, (fst (snd by_address), snd (snd by_address))) /\
  by_serial_number
  = (Ok tt, (fst (snd by_serial_number), snd (snd by_serial_number))) /\
  VCPBackend.serial_number (fst (snd by_address)) = Some "DAE06LPXA" /\
  VCPBackend.serial_number (fst (snd by_serial_number)) = Some "e06lp" /\
  VCPBackend.port (fst (snd by_serial_number)) = Some "COM14" /\
  (exists device : string,
     trace (snd (snd by_address))
     = trace (Bench.fresh Bench.idle)
       ++ [comports; Serial (Some device) 9600 5000 8 "N" 1; Serial_is_open] /\
     VCPBackend.serial_ (fst (snd by_address)) = true /\
     VCPBackend.port (fst (snd by_address)) = Some device /\
     VCPBackend.timeout (fst (snd by_address)) = 5000 /\
     VCPBackend.baudrate (fst (snd by_address)) = Some 9600 /\
     device = "COM14" /\
     VCPBackend.serial_number (fst (snd by_address))
     = List.find (fun port => String.eqb (ListPortInfo.device port) "COM14")
         (Bench.ports Bench.idle)
       ≫= ListPortInfo.serial_number) /\
  exists device : string,
    trace (snd (snd by_serial_number))
    = trace (Bench.fresh Bench.idle)
      ++ [comports; Serial (Some device) 9600 5000 8 "N" 1; Serial_is_open] /\
    VCPBackend.serial_ (fst (snd by_serial_number)) = true /\
    VCPBackend.port (fst (snd by_serial_number)) = Some device /\
    VCPBackend.timeout (fst (snd by_serial_number)) = 5000 /\
    VCPBackend.baudrate (fst (snd by_serial_number)) = Some 9600 /\
    VCPBackend.serial_number (fst (snd by_serial_number)) = Some "e06lp" /\
    exists asked listed,
      Some "e06lp" = Some asked /\
      is_substring (lower asked) (lower listed) = true /\
      List.find
        (fun port =>
           match ListPortInfo.serial_number port with
           | None => false
           | Some s => is_substring (lower asked) (lower s)
           end)
        (Bench.ports Bench.idle)
      = Some {| ListPortInfo.device := device;
                ListPortInfo.serial_number := Some listed |}.
Proof.
  intros by_address by_serial_number.
  assert (answer comports (ext (Bench.fresh Bench.idle))
          = (Ok (Bench.ports Bench.idle), Bench.idle)) as Hcomports by reflexivity.
  assert (is_ascii_opt (Some "e06lp") = true) as Hasked by reflexivity.
  assert (Forall (fun port => is_ascii_opt (ListPortInfo.serial_number port) = true)
            (Bench.ports Bench.idle)) as Hports by (repeat constructor).
  assert (by_address
          = (Ok tt, (fst (snd by_address), snd (snd by_address)))) as Haddress
    by reflexivity.
  assert (by_serial_number
          = (Ok tt, (fst (snd by_serial_number), snd (snd by_serial_number)))) as Hrun
    by reflexivity.
  split; [exact Hcomports|]. split; [exact Hasked|]. split; [exact Hports|].
  split; [exact Haddress|]. split; [exact Hrun|].
  split; [reflexivity|]. split; [reflexivity|]. split; [reflexivity|].
  split.
  - exact (vcp_open_outcome VCPBackend.__init__ (fst (snd by_address))
             (Bench.fresh Bench.idle) (snd (snd by_address))
             (Some "COM14") None 5000 (Bench.ports Bench.idle) Bench.idle
             Hcomports (fun H : Some "COM14" = None => match H with end) Haddress).
  - exact (vcp_open_outcome VCPBackend.__init__ (fst (snd by_serial_number))
             (Bench.fresh Bench.idle) (snd (snd by_serial_number))
             None (Some "e06lp") 5000 (Bench.ports Bench.idle) Bench.idle
             Hcomports (fun _ => conj Hasked Hports) Hrun).
Defined.

(** ** Opening the pyftdi backend *)

(** X23.  When [PyFtdiBackend.open] returns, the object stores a serial
    number that is not empty (the one passed, when none was looked up
    from a device address) and the timeout that was passed; the last
    seven calls across the native boundary are the reset of the device,
    the reset of its bit mode, 9600 baud, 8 data bits with one stop bit
    and no parity, the timeouts, the write of one zero byte and the
    purge of the buffers; the timeouts set on the device are the timeout
    the object held before the call.  The object counts as opened only
    if it did before or a device was opened under the stored serial
    number during the call. *)
Theorem pyftdi_open_outcome {E : Type} `{!Native E}
    (p p' : PyFtdiBackend.t) (w w' : world E)
    (device_address serial_number : option string) (timeout : Z) :
  PyFtdiBackend.open device_address serial_number timeout (p, w) = (Ok tt, (p', w')) ->
  PyFtdiBackend.timeout p' = timeout /\
  truthy (PyFtdiBackend.serial_number p') = true /\
  (device_address = None -> PyFtdiBackend.serial_number p' = serial_number) /\
  exists calls,
    trace w'
    = calls ++ [Ftdi_reset; Ftdi_set_bitmode 0 0; Ftdi_set_baudrate 9600;
                Ftdi_set_line_property 8 1 "N";
                Ftdi_set_timeouts (PyFtdiBackend.timeout p) (PyFtdiBackend.timeout p);
                Ftdi_write_data [0]; Ftdi_purge_buffers] /\
    (PyFtdiBackend.is_opened p' = true ->
     PyFtdiBackend.is_opened p = true \/
     exists vid pid,
       Ftdi_open vid pid (PyFtdiBackend.serial_number p') 1 ∈ calls).
Proof.
  unfold PyFtdiBackend.open. intros Hrun.
  destruct (Bool.eqb (truthy device_address) (truthy serial_number)) eqn:Hboth;
    [discriminate Hrun|].
  apply bind_inv in Hrun as (stored & [o1 w1] & Hfind & Hrun).
  apply bind_inv in Hrun as ([] & [o2 w2] & Hsearch & Hrun).
  unfold bind at 1 in Hrun. unfold update at 1 in Hrun.
  apply bind_inv in Hrun as ([] & [o3 w3] & H1 & Hrun).
  apply outside_native_inv in H1 as (-> & e3 & _ & ->).
  apply bind_inv in Hrun as ([] & [o4 w4] & H2 & Hrun).
  apply outside_native_inv in H2 as (-> & e4 & _ & ->).
  apply bind_inv in Hrun as ([] & [o5 w5] & H3 & Hrun).
  apply outside_native_inv in H3 as (-> & e5 & _ & ->).
  apply bind_inv in Hrun as ([] & [o6 w6] & H4 & Hrun).
  apply outside_native_inv in H4 as (-> & e6 & _ & ->).
  unfold bind at 1 in Hrun. unfold self at 1 in Hrun.
  apply bind_inv in Hrun as ([] & [o7 w7] & H5 & Hrun).
  apply outside_native_inv in H5 as (-> & e7 & _ & ->).
  unfold bind at 1 in Hrun. unfold update at 1 in Hrun.
  apply bind_inv in Hrun as (written & [o8 w8] & H6 & Hrun).
  apply outside_native_inv in H6 as (-> & e8 & _ & ->).
  apply (outside_native_inv Ftdi_purge_buffers) in Hrun as (-> & e9 & _ & ->).
  cbn [PyFtdiBackend.timeout PyFtdiBackend.set_timeout PyFtdiBackend.set_serial_number
       PyFtdiBackend.serial_number PyFtdiBackend.is_opened trace].
  assert (PyFtdiBackend.timeout o1 = PyFtdiBackend.timeout p /\
          PyFtdiBackend.is_opened o1 = PyFtdiBackend.is_opened p /\
          truthy stored = true /\
          (device_address = None -> stored = serial_number)) as (Ht1 & Ho1 & Hstored & Hsame).
  { destruct device_address as [address|].
    - unfold bind at 1 in Hfind. unfold update at 1 in Hfind.
      apply bind_inv in Hfind as (ports & [oP wP] & Hports & Hfind).
      apply outside_native_inv in Hports as (-> & eP & _ & ->).
      destruct (truthy
                  match List.find
                          (fun port_info =>
                             String.eqb (ListPortInfo.device port_info) address)
                          ports with
                  | Some port_info => ListPortInfo.serial_number port_info
                  | None => serial_number
                  end) eqn:Hfound; [|discriminate Hfind].
      injection Hfind as <- <- <-.
      split; [reflexivity|]. split; [reflexivity|]. split; [exact Hfound|].
      discriminate.
    - injection Hfind as <- <- <-.
      split; [reflexivity|]. split; [reflexivity|].
      split; [|reflexivity].
      simpl in Hboth. destruct (truthy serial_number); [reflexivity|discriminate Hboth]. }
  assert (PyFtdiBackend.timeout o2 = PyFtdiBackend.timeout o1 /\
          (PyFtdiBackend.is_opened o2 = true ->
           PyFtdiBackend.is_opened o1 = true \/
           exists vid pid, Ftdi_open vid pid stored 1 ∈ trace w2)) as (Ht2 & Ho2).
  { unfold try_except in Hsearch. unfold bind at 1 in Hsearch.
    unfold outside at 1 in Hsearch. unfold native at 1 in Hsearch.
    destruct (answer (Ftdi_find_all [(FTDI_VID, FT232R_PID); (FTDI_VID, FT232H_PID)])
                (ext w1)) as [[dev_list|e] eF].
    - destruct (List.find
                  (fun descriptor =>
                     bool_decide (UsbDeviceDescriptor.sn descriptor = stored))
                  dev_list) as [descriptor|] eqn:Hfound.
      + apply find_some in Hfound as [_ Hsn]. apply bool_decide_eq_true_1 in Hsn.
        unfold bind, outside, native, update in Hsearch. cbn [ext trace] in Hsearch.
        destruct (answer (Ftdi_open (UsbDeviceDescriptor.vid descriptor)
                            (UsbDeviceDescriptor.pid descriptor)
                            (UsbDeviceDescriptor.sn descriptor) 1) eF)
          as [[[]|e] eO]; simpl in Hsearch; injection Hsearch as <- <-.
        * split; [reflexivity|]. intros _. right.
          exists (UsbDeviceDescriptor.vid descriptor), (UsbDeviceDescriptor.pid descriptor).
          rewrite <- Hsn. simpl. apply elem_of_app. right. apply list_elem_of_here.
        * split; [reflexivity|]. intros Hopen. left. exact Hopen.
      + injection Hsearch as <- <-. split; [reflexivity|]. intros Hopen. left. exact Hopen.
    - injection Hsearch as <- <-. split; [reflexivity|]. intros Hopen. left. exact Hopen. }
  split; [reflexivity|]. split; [exact Hstored|]. split; [exact Hsame|].
  exists (trace w2). split.
  - rewrite Ht2, Ht1, <- !app_assoc. reflexivity.
  - intros Hopen. destruct (Ho2 Hopen) as [Hbefore|Hduring].
    + left. congruence.
    + right. exact Hduring.
Qed.

(** The bench finds no device for pyftdi: the object is not opened, and
    the device is set to the timeout the object held, not to the one
    passed. *)
Lemma pyftdi_open_outcome_witness :
  let run :=
    PyFtdiBackend.open None (Some "DAE06LpX") 250
      (PyFtdiBackend.__init__, Bench.fresh Bench.idle) in
  run = (Ok tt, (fst (snd run), snd (snd run))) /\
  PyFtdiBackend.is_opened (fst (snd run)) = false /\
  PyFtdiBackend.timeout (fst (snd run)) = 250 /\
  exists calls,
    trace (snd (snd run))
    = calls ++ [Ftdi_reset; Ftdi_set_bitmode 0 0; Ftdi_set_baudrate 9600;
                Ftdi_set_line_property 8 1 "N"; Ftdi_set_timeouts 5000 5000;
                Ftdi_write_data [0]; Ftdi_purge_buffers] /\
    (PyFtdiBackend.is_opened (fst (snd run)) = true ->
     PyFtdiBackend.is_opened PyFtdiBackend.__init__ = true \/
     exists vid pid,
       Ftdi_open vid pid (PyFtdiBackend.serial_number (fst (snd run))) 1 ∈ calls).
Proof.
  intros run.
  assert (run = (Ok tt, (fst (snd run), snd (snd run)))) as Hrun by reflexivity.
  split; [exact Hrun|]. split; [reflexivity|].
  destruct (pyftdi_open_outcome PyFtdiBackend.__init__ (fst (snd run))
              (Bench.fresh Bench.idle) (snd (snd run)) None (Some "DAE06LpX") 250 Hrun)
    as (Htimeout & _ & _ & Hcalls).
  split; [exact Htimeout|exact Hcalls].
Defined.

(** ** The command line *)

(** X24.  [control] with [--off] and relays the board accepts does what
    it does with no relay at all: the relays that were listed do not
    enter into it, the command switches every relay off.  The two runs
    end with the same exit status and have made the same calls. *)
Theorem control_off_switches_all_off {W : Type} (O : PossibleBackendT -> Type)
    (new : forall clazz, M W (O clazz))
    (methods : forall clazz, IBackend.t (O clazz * W))
    (args_ : control.args) (board_clazz : PossibleRelayBoardT) (w : W) :
  dict_get RelayBoardFactory.BOARD_REGISTRY (control.board args_) = Some board_clazz ->
  Forall (in_range board_clazz) (control.relay args_) ->
  control.off args_ = true ->
  control.main O new methods args_ w
  = control.main O new methods
      {| control.board := control.board args_;
         control.backend := control.backend args_;
         control.serial_number := control.serial_number args_;
         control.device_address := control.device_address args_;
         control.relay := [];
         control.off := control.off args_ |} w.
Proof.
  intros Hboard Hall Hoff. unfold control.main.
  cbn [control.board control.backend control.serial_number control.device_address
       control.relay control.off].
  destruct (negb (truthy (control.serial_number args_))
            && negb (truthy (control.device_address args_))); [reflexivity|].
  unfold try_except. unfold bind at 1 4.
  destruct (RelayBoardFactory.create_relay_board O new methods
              (control.backend args_) (control.board args_)
              (control.device_address args_) (control.serial_number args_) 5000 w)
    as [[board_ |e] w1] eqn:Hcreate; [|reflexivity].
  destruct (create_relay_board_inv O new methods _ _ _ _ _ _ _ _ Hcreate)
    as (_ & Hboard' & _ & Hholds & _).
  rewrite Hboard in Hboard'. injection Hboard' as ->.
  destruct (control.relay args_) as [|r rest]; [reflexivity|].
  rewrite Hoff. cbv [negb].
  assert (forall self,
            IDenkoviRelayBoard.set_clear_state
              (board_class
                 (B := methods (RelayBoardFactory.backend_clazz O board_))
                 (RelayBoardFactory.board_clazz O board_))
              false (r :: rest) self
            = IDenkoviRelayBoard.set_all_states_off
                (board_class
                   (B := methods (RelayBoardFactory.backend_clazz O board_))
                   (RelayBoardFactory.board_clazz O board_))
                self) as Hclear.
  { intros self. destruct (RelayBoardFactory.board_clazz O board_).
    - change (Forall (fun a => 1 <= a <= 16) (r :: rest)) in Hall.
      apply check_passes in Hall. simpl.
      unfold DenkoviRelayBoard16Ch.set_clear_state.
      destruct self as [[] s]; [|reflexivity]. step.
      unfold DenkoviRelayBoard16Ch._integrity_check. rewrite Hall. step. reflexivity.
    - change (Forall (fun a => 1 <= a <= 8) (r :: rest)) in Hall.
      apply check_passes in Hall. simpl.
      unfold DenkoviRelayBoard8Ch.set_clear_state.
      destruct self as [[] s]; [|reflexivity]. step.
      unfold DenkoviRelayBoard8Ch.__integrity_check. rewrite Hall. step. reflexivity.
    - change (Forall (fun a => 1 <= a <= 4) (r :: rest)) in Hall.
      apply check_passes in Hall. simpl.
      unfold DenkoviRelayBoard4ChFT422.set_clear_state.
      unfold DenkoviRelayBoard4ChFT422.__integrity_check. rewrite Hall. step.
      reflexivity.
    - change (Forall (fun a => 1 <= a <= 4) (r :: rest)) in Hall.
      apply check_passes in Hall. simpl.
      unfold DenkoviRelayBoard4ChMCP2200.set_clear_state.
      destruct self as [[] s]; [|reflexivity]. step.
      unfold DenkoviRelayBoard4ChMCP2200.__integrity_check. rewrite Hall. step.
      reflexivity. }
  unfold bind, try_except.
  destruct (IDenkoviRelayBoard.get_serial_number _ _) as [[sn|e] self1]; [|reflexivity].
  rewrite Hclear. reflexivity.
Qed.

(** The 8-channel board on the bench, relays 1 and 8 on: [--off] with
    relays 2 and 5 writes the byte [0x00], and the pins are all low. *)
Lemma control_off_switches_all_off_witness :
  let args_ :=
    {| control.board := "denkovi_8ch"; control.backend := "ftd2xx";
       control.serial_number := Some "DAE06LpX"; control.device_address := None;
       control.relay := [2; 5]; control.off := true |} in
  let run :=
    control.main RelayBoardFactory.object_of RelayBoardFactory.new_of
      RelayBoardFactory.methods_of args_ (Bench.fresh (Bench.driving 0x81)) in
  dict_get RelayBoardFactory.BOARD_REGISTRY (control.board args_) = Some denkovi_8ch /\
  Forall (in_range denkovi_8ch) (control.relay args_) /\
  control.off args_ = true /\
  run
  = control.main RelayBoardFactory.object_of RelayBoardFactory.new_of
      RelayBoardFactory.methods_of
      {| control.board := "denkovi_8ch"; control.backend := "ftd2xx";
         control.serial_number := Some "DAE06LpX"; control.device_address := None;
         control.relay := []; control.off := true |}
      (Bench.fresh (Bench.driving 0x81)) /\
  fst run = Ok 0 /\
  trace (snd run)
  = [FT_CreateDeviceInfoList; FT_GetDeviceInfoList 1; comports;
     FT_OpenEx (b "DAE06LpX") 1; FT_SetBaudRate 0x1000 9600;
     FT_SetDataCharacteristics 0x1000 8 0 0; FT_SetTimeouts 0x1000 5000 5000;
     FT_SetBitMode 0x1000 0xFF 0x04; FT_Write 0x1000 [0x00] 1; FT_Close 0x1000] /\
  Bench.pins (ext (snd run)) = 0.
Proof.
  intros args_ run.
  assert (dict_get RelayBoardFactory.BOARD_REGISTRY (control.board args_)
          = Some denkovi_8ch) as Hboard by reflexivity.
  assert (Forall (in_range denkovi_8ch) (control.relay args_)) as Hall
    by (repeat constructor; vm_compute; discriminate).
  assert (control.off args_ = true) as Hoff by reflexivity.
  split; [exact Hboard|]. split; [exact Hall|]. split; [exact Hoff|].
  split; [|vm_compute; repeat split].
  exact (control_off_switches_all_off RelayBoardFactory.object_of
           RelayBoardFactory.new_of RelayBoardFactory.methods_of args_ denkovi_8ch
           (Bench.fresh (Bench.driving 0x81)) Hboard Hall Hoff).
Defined.
